(* ===== verification/_CoqProject ===== *)
-Q . S2P
Prelude.v
PyInt.v
PyFloat.v
FloatRepr.v
Utf8.v
Config.v
Models.v
ItemStore.v
ItemStoreSpec.v
SubmissionLog.v
App.v
Codec.v
JsonText.v
Http.v
