(* ===== verification/Prelude.v ===== *)
(** * A verification development of FastAPI_WebApp (src/main.py)

    ** The program

    [src/main.py] is a FastAPI application. Its module globals are the whole
    state of the program:
    - [items_db], a Python list of pydantic [Item] records (line 87);
    - [item_id_counter], a Python [int], the next identifier (line 88);
    - [contact_submissions], a Python list of [ContactForm] records (line 89);
    - the process's standard output, written by two [print] calls.
    Importing the module runs [initialize_db()] (lines 92-105), which appends
    three seed items with ids 1, 2, 3. The route handlers (lines 108-179)
    read and mutate the globals: [get_all_items], [get_item] (a linear scan
    that raises [HTTPException(404)]), [create_item] (assigns the counter,
    increments it, appends), [get_contact_form] (a template response),
    [submit_form] (appends and prints), [get_submissions] and
    [health_check]. FastAPI dispatches each request to one handler. The
    handlers are [async def] with no [await] in them, so on uvicorn's event
    loop each one runs to completion before the next starts. A run of the
    server is therefore a sequence of whole-handler steps on the globals.

    ** The library, file by file

    The files are listed in [_CoqProject] in dependency order.
    - [Prelude] (this file): the state-and-exception monad [St] that models
      Python's imperative statements and [raise]. It is an instance of
      stdpp's [MRet]/[MBind], so handlers are written with [x ← m; k].
      The file also holds [catch] ([try]/[except]), the [for_] loop, the
      notations of [py_scope], the state reached by a run ([exec]), the
      invariants a computation keeps ([preserves]), the [py] hint
      database, the run equations of the monad and generic list lemmas.
    - [PyInt]: the conversion of the [item_id] path segment to [int]
      (line 113). Pydantic v1's [int_validator] has a 4300-character guard,
      then calls Python's [int()], whose base-10 scan is CPython's
      [PyLong_FromString]. The scan takes white space, a sign, and digits
      with single underscores. Theorems: [int(str(n)) = n] for every id
      that fits the guard, and the bounds of every accepted segment.
    - [PyFloat]: Python's [float()] of a string, as pydantic calls it on
      a string price (line 59). It is CPython's [PyFloat_FromString]:
      - the underscore check;
      - white space stripped at both ends;
      - a decimal or [inf]/[nan], rounded to the nearest double, ties to
        even, through SpecFloat's [binary_normalize] with a sticky bit;
      - [float(n)] and [int(f)] for numbers.
      Lemma: [float(str(n)) = float(n)].
    - [FloatRepr]: Python's [repr] of a float, as [json.dumps] writes a
      price and as [str_validator] turns a float into a [str]. It is
      [_Py_dg_dtoa] in mode 0 (the shortest digits that read back, found
      by trying 1 to 17 digits, the nearer candidate first and the even
      one on a tie) laid out by [format_float_short] with [repr]'s rules
      (exponent form below 1e-4 or from 1e16 on, a [.0] added). Theorem:
      [float(repr(x)) = x] whenever the shortest digits are found.
    - [Utf8]: bytes and code points. It holds UTF-8 decoding (strict or
      with [surrogatepass]) and the generalized UTF-8 encoding in which
      the development stores a [str]. It also holds UTF-16 and UTF-32
      decoding and [json.detect_encoding], which picks the codec of a
      body from its first bytes. Lemmas: decoding inverts the encoding,
      and an ASCII-led text is detected as UTF-8.
    - [Config]: the application object as data. It holds [FastAPI(...)]
      (lines 12-34), the CORS arguments (37-43), the templates directory,
      the static mount and the [makedirs] path (46-52), and the uvicorn
      arguments (182-183). [app_routes] is the route table Starlette
      scans: the documentation routes, the mount, then the seven
      decorators. [cors_send] is the header logic of [CORSMiddleware] for
      simple requests. Theorems: every route tag is declared, and any
      origin is echoed with credentials allowed.
    - [Models]: the pydantic models [Item] and [ContactForm] (lines 55-84),
      FastAPI's [HTTPException], and the record [Globals] of module globals
      (lines 87-89) with its setters, [print] and the two [append]s.
    - [ItemStore]: [initialize_db], [get_all_items], [get_item] (with its
      loop [scan_items]) and [create_item] (lines 92-134), as [St]
      computations on [Globals]. It defines the store invariant
      [store_inv]: every item has an id, the ids strictly increase along
      [items_db], and all are below [item_id_counter]. Theorems:
      [create_item] keeps the invariant, and [initialize_db] establishes it
      from the module globals. [get_item] finds exactly the stored items
      and raises the 404 exactly on unknown ids. After a creation the new
      id answers the new item and every other id answers as before. The
      caller's [id] is ignored. There is also the seed state, and the
      failure of the invariant when [initialize_db] runs twice.
    - [ItemStoreSpec]: the abstract store the spec describes, a finite map
      from ids to items (stdpp [gmap Z]) with a next id. [get_item] is a
      lookup in the abstraction of [items_db] on every state, and
      [create_item] refines insertion at the next id under [store_inv].
      [get_item] is also equivalent to stdpp's [list_find] on the id. The
      class [ItemService] states what the item handlers promise the
      request layer. Its instance [item_service] is built from
      [ItemStore] and discharges the laws.
    - [SubmissionLog]: [submit_form] and [get_submissions] (lines
      147-174), with the printed notice, and the run of [submit_form].
    - [App]: the routes (lines 108-179) as the inductive [Request], the
      response a route sends ([route], with 201 for [POST /items]),
      [dispatch] (FastAPI's handling of [HTTPException]), [boot] (the
      import of the module), [serve] (requests one after the other) and
      [reachable] (every state a run can reach). The Section [server] proves
      the request layer against [ItemService] only. Every request is
      answered, and the abstract store only grows. Created ids are
      consecutive, and a created item stays retrievable. The theorems after
      the Section instantiate these with the handlers of src/main.py.
      Every reachable state satisfies [store_inv], and its ids are
      exactly 1 .. [item_id_counter - 1]. [GET /items/{k}] succeeds exactly
      on those ids and answers 404 elsewhere. Created items get ids 4, 5,
      ... in request order, whatever requests come between. Listing items
      or submissions after any run gives the seed then the creations, or
      the forms in order. Standard output is the start-up line then one
      notice per form. Finally, the spec's two scenarios and the health
      check.
    - [Codec]: the value [json.loads] returns ([json]), and three pieces of
      the HTTP boundary:
      - pydantic v1's validation of the body of [POST /items] against
        [class Item]: field validators and their coercions ([str] of a
        float by [FloatRepr]), [Optional] defaults, [dict(value)] for
        non-objects, errors collected at their [loc];
      - the [Form(...)] fields of [POST /submit-form];
      - the encoding of responses by [response_model].
      Theorems: decoding inverts the encoding of an item, a price given as
      the string of an integer is that integer's float, and exactly which
      forms decode.
    - [JsonText]: the JSON text on the wire. [loads] is [json.loads] of
      the body bytes: [Utf8.decode_bytes], then the C scanner of
      Modules/_json.c ([scan_once], [parse_members], [parse_items],
      [scanstring], [match_number]) with CPython's error messages and
      positions. [dumps_bytes] is what Starlette's [JSONResponse] writes:
      [json.dumps(ensure_ascii=False, allow_nan=False,
      separators=(",", ":"))] encoded in UTF-8. It fails on a NaN or
      infinite float, on an int of more than 4300 digits, and on a lone
      surrogate. Theorems: the scanner terminates within its fuel, and
      [loads] reads back every value [dumps_bytes] writes whose floats
      have shortest digits and whose objects repeat no key.
    - [Http]: the application on the wire. A request is a method, a path
      and a body. The body is none, form fields, a JSON document, or the
      bytes of a JSON request. [resolve] routes the request over
      [app_routes] as Starlette's [Router] does (full match, 405, the
      trailing-slash 307, 404). It then reads a JSON body with [loads]
      ([read_body]: 422 [value_error.jsondecode] at the error position,
      400 on any other failure) and decodes the parameters. [handle] runs
      [App.dispatch] on the decoded request and renders the result with
      [dumps_bytes]: 422, or 500 on an uncaught exception or a response
      that cannot be written. [serve_raw] runs requests in sequence, and
      [raw_reachable] is the set of states a run reaches. Theorems:
      - every state on the wire is reachable in [App], so [App]'s
        invariants hold for the real server;
      - a typed request written by a client decodes back to itself;
      - every request is answered, with a status among 200, 201, 307,
        400, 404, 405, 422 and 500;
      - the error paths: 422 for a bad id, an empty form field or a JSON
        syntax error, 400 for a body that cannot be read, 500 for a price
        beyond float range, and an item whose JSON cannot be written,
        which breaks [GET /items] from then on;
      - the spec's scenario over HTTP.

    ** What the modelling showed

    The code does not enforce the spec's non-empty item name: pydantic's
    validation of [class Item] accepts an empty name, and the item is
    stored ([Http.post_empty_name_stored]). The counter start 4 is a separate
    module-level assignment, so [initialize_db] is not idempotent
    ([ItemStore.initialize_db_twice_breaks_inv]). [create_item] has no
    [await], so on the event loop the counter race the spec mentions
    cannot happen: the ids of a run are consecutive
    ([App.serve_created_ids]). At the HTTP boundary:
    - a NaN or infinite price, or a name with a lone surrogate (the JSON
      escape \ud800), is stored, its creation answers 500, and
      [GET /items] answers 500 from then on
      ([Http.unencodable_item_poisons_listing],
      [Http.surrogate_name_poisons_listing]);
    - an integer price beyond float range answers 500, not 422
      ([Http.overflowing_price_crashes]);
    - a body that is not JSON answers 422 or 400, outside the spec's
      error taxonomy ([Http.json_body_error]);
    - an empty form field is refused with 422, although the spec says
      submissions always succeed ([Http.empty_form_field_rejected]);
    - a JSON array of pairs is accepted as an item
      ([Http.list_body_creates_item]);
    - the id segment is read by Python's [int()], so " +0_4 " is item 4,
      and a padded segment over 4300 characters is refused
      ([PyInt.int_validator_bounds]);
    - with [allow_origins=["*"]] and [allow_credentials=True], every
      origin is echoed with credentials allowed
      ([Config.cors_reflects_any_origin]).

    ** Choices of representation

    Python [int] is unbounded, so ids and the counter are [Z] and there is
    no wrap-around: [item_id_counter + 1] never overflows. Python [float]
    is an IEEE-754 double, so prices are Rocq's primitive [float]. No
    handler does arithmetic on prices; they are only stored and copied.
    Python's conversions between [int] and [float] are written with the
    binary64 specification of [SpecFloat]: [float(n)] rounds to nearest,
    ties to even, and overflows to an error; [int(f)] truncates.
    A Python [str] is a [String.string] that holds its code points in
    generalized UTF-8, so that a lone surrogate, which [json.loads] can
    produce, is representable. The JSON text itself is a [list Z] of code
    points, as the C scanner reads it, and a body is a [list ascii] of
    bytes. Python [None]/[Optional] is [option].
    A Python list mutated by [append] is a [list] extended with [++ [x]].
    No handler aliases a list that another handler mutates later, so a
    value per global is faithful. Exceptions are the [Err] branch of
    [res]. The state at the point of the [raise] is kept, as in Python.
    A JSON object is its list of pairs in text order, and a lookup takes
    the last pair of a key, as the dict that [json.loads] builds does.
    Pydantic is taken in version 1: the models use [class Config:
    schema_extra], the v1 spelling. Error messages are those of CPython
    up to 3.12.

    ** Bounds and fuel

    The handlers' loops are [for] loops over finite lists, modelled by
    structural recursion. The JSON scanner is recursive through arrays
    and objects. It is modelled with fuel: [loads] gives twice the length
    of the text plus two. Each nesting level consumes at least one
    character and two units of fuel, and each scanner step either
    consumes a character or ends. Theorem [JsonText.scan_fuel_enough]
    shows that this fuel is never exhausted and that more changes
    nothing. The shortest-digits search of [repr] tries at most 17
    digits, which is enough for every double. When no candidate is
    found, [float_repr] falls back to 17 correctly rounded digits. The
    theorems that need the shortest digits state [repr_exact].

    ** Not modelled

    The parsing of a form-encoded or multipart body: form fields are
    given as their pairs, and a form body without fields is taken as
    empty bytes. The recursion limit of the JSON scanner, which
    raises [RecursionError] (a 400) on about a thousand nested arrays,
    while the model reads any depth. Python 3.13's message for a trailing
    comma. The Unicode digits and spaces that [int()] and [float()] also
    accept (the model reads ASCII white space and digits only, so the
    theorems on refused segments are stated for ASCII segments). The
    contents of the documentation pages (generated by FastAPI) and of the
    files under [static/] (the file system), and the CORS preflight
    response. Jinja2's rendering of [contact_form.html] is represented by
    the template name and context that the handler passes. Uvicorn's
    sockets, worker processes and reload are outside the program:
    several workers would each have their own globals. *)

From Stdlib Require Import ZArith String.
From stdpp Require Export base list option sorting sets list_numbers.

Declare Scope py_scope.
Delimit Scope py_scope with py.

(** ** Results and the state-and-exception monad *)

(** The outcome of a Python statement: a value, or a raised exception. *)
Inductive res (E A : Type) : Type :=
| Ok (a : A)
| Err (e : E).
Arguments Ok {E A} a.
Arguments Err {E A} e.

(** A computation on a global state [S] that may raise an [E]. The state
    reached when the exception is raised is kept, as in Python. *)
Definition St (S E A : Type) : Type := S -> res E A * S.

Section monad.
Context {S E : Type}.

#[export] Instance St_ret : MRet (St S E) := fun A a s => (Ok a, s).

#[export] Instance St_bind : MBind (St S E) := fun A B k m s =>
  match m s with
  | (Ok a, s') => k a s'
  | (Err e, s') => (Err e, s')
  end.

Definition raise {A} (e : E) : St S E A := fun s => (Err e, s).
Definition get : St S E S := fun s => (Ok s, s).
Definition gets {A} (f : S -> A) : St S E A := fun s => (Ok (f s), s).
Definition modify (f : S -> S) : St S E unit := fun s => (Ok tt, f s).

(** [for x in l: body(x)], for a body that returns nothing. *)
Fixpoint for_ {A} (l : list A) (body : A -> St S E unit) : St S E unit :=
  match l with
  | [] => mret tt
  | x :: l' => body x ;; for_ l' body
  end.

(** [try: m except E as e: h(e)]. *)
Definition catch {A} (m : St S E A) (h : E -> St S E A) : St S E A := fun s =>
  match m s with
  | (Ok a, s') => (Ok a, s')
  | (Err e, s') => h e s'
  end.

(** The state after running [m] from [s], whatever it returned. *)
Definition exec {A} (m : St S E A) (s : S) : S := snd (m s).

(** [m] keeps the invariant [P]. *)
Definition preserves {A} (P : S -> Prop) (m : St S E A) : Prop :=
  forall s, P s -> P (exec m s).
End monad.

Arguments get {S E}.

Notation "'for' x 'in' l 'do' body" := (for_ l (fun x => body))
  (at level 10, x binder, l at level 100, body at level 200) : py_scope.

(** ** Generic lemmas on runs *)

Create HintDb py discriminated.

Section monad_laws.
Context {S E : Type}.

Lemma run_ret {A} (a : A) (s : S) : (mret a : St S E A) s = (Ok a, s).
Proof. reflexivity. Qed.

Lemma run_bind {A B} (m : St S E A) (k : A -> St S E B) s :
  (m ≫= k) s = match m s with
               | (Ok a, s') => k a s'
               | (Err e, s') => (Err e, s')
               end.
Proof. reflexivity. Qed.

Lemma run_catch {A} (m : St S E A) (h : E -> St S E A) s :
  catch m h s = match m s with
                | (Ok a, s') => (Ok a, s')
                | (Err e, s') => h e s'
                end.
Proof. reflexivity. Qed.

Lemma bind_ret_l {A B} (a : A) (k : A -> St S E B) s :
  (mret a ≫= k) s = k a s.
Proof. reflexivity. Qed.

End monad_laws.

(** Unfold a concrete run of a handler down to its branches. *)
Ltac run_py :=
  repeat first
    [ rewrite run_bind
    | rewrite bind_ret_l
    | progress unfold raise, get, gets, modify, exec in * ];
  simpl in *.

(** Decide a closed decidable proposition (or its negation) by evaluating
    its decision procedure. *)
Ltac decide_vm :=
  lazymatch goal with
  | |- ~ _ => apply (bool_decide_eq_false_1 _); vm_compute; reflexivity
  | |- _ => apply (bool_decide_eq_true_1 _); vm_compute; reflexivity
  end.

(** Linear arithmetic with division and remainder by constants, as byte
    and digit arithmetic needs. *)
Ltac zlia := Z.div_mod_to_equations; lia.

(** ** Generic list lemmas *)

Section lists.
Context {A : Type}.

(** Appending to a strictly sorted list keeps it sorted when the new
    element is above every element. *)
Lemma StronglySorted_snoc (R : relation A) (l : list A) (x : A) :
  StronglySorted R l -> Forall (fun y => R y x) l -> StronglySorted R (l ++ [x]).
Proof.
  intros Hs Hf. apply StronglySorted_app_2; [|done|].
  - intros y z Hy Hz. apply list_elem_of_singleton in Hz as ->.
    rewrite Forall_forall in Hf. by apply Hf.
  - repeat constructor.
Qed.

(** [omap] on a cons, as the option's list before the rest. *)
Lemma omap_cons_list {B} (f : A -> option B) (x : A) (l : list A) :
  omap f (x :: l) = option_list (f x) ++ omap f l.
Proof. simpl. by destruct (f x). Qed.

End lists.

(** [seqZ c (n + 1)] starts with [c]. *)
Lemma seqZ_succ (c : Z) (n : nat) :
  seqZ c (Z.of_nat (S n)) = c :: seqZ (c + 1) (Z.of_nat n).
Proof. rewrite seqZ_cons by lia. f_equal; f_equal; lia. Qed.

(** [seqZ 1 n] extended by the next integer. *)
Lemma seqZ_snoc_1 (n : Z) : (0 <= n)%Z -> seqZ 1 n ++ [(1 + n)%Z] = seqZ 1 (n + 1)%Z.
Proof. intros Hn. rewrite seqZ_app by lia. reflexivity. Qed.

