(* ===== verification/PyInt.v ===== *)
(** * PyInt: the conversion of a path segment to [int]

    [get_item(item_id: int)] (src/main.py line 113) makes FastAPI convert
    the [{item_id}] segment of the path to an [int] before the handler
    runs. Pydantic (v1, the version whose [class Config: schema_extra] the
    models use) does this with [int_validator]: a [str] longer than
    [max_str_int] (4300) characters is refused. Otherwise the result is
    Python's [int(v)], which CPython computes with [PyLong_FromString] in
    base 10: skip leading white space, take an optional sign, then digits
    with single underscores between them, then skip trailing white space
    and require the end of the string.

    The scan is written the way CPython writes it. A character is an
    [ascii]. Python's own 4300-digit limit on [int()] is not modelled:
    pydantic's length test comes first and already implies it. The Unicode
    digits and spaces that [int()] also accepts are not modelled either.
    Every other non-ASCII code point is rejected, as Python rejects it.

    Theorems: [str(n)] ([pretty]) converts back to [n] (the round trip
    that makes the typed route [GET_item n] the same as the path
    ["/items/" + str(n)]), and every accepted segment is at most 4300
    characters long, with a value below [10^4300] in absolute value. *)

From Stdlib Require Import ZArith String Ascii.
From stdpp Require Import strings pretty.
From S2P Require Import Prelude.

Open Scope Z_scope.

(** ** The scan of [PyLong_FromString] *)

(** [Py_ISSPACE] after [_PyUnicode_TransformDecimalAndSpaceToASCII]. The
    transform leaves ASCII as it is (only non-ASCII white space becomes a
    space), and [Py_ISSPACE] is the [PY_CTF_SPACE] class of
    [_Py_ctype_table]: tab, line feed, vertical tab, form feed, carriage
    return and space. The separators 0x1c-0x1f, which [str.isspace]
    accepts, are not white space for [int()] or [float()]. *)
Definition is_py_space (c : ascii) : bool :=
  let n := nat_of_ascii c in
  (n =? 32)%nat || ((9 <=? n) && (n <=? 13))%nat.

(** The loop [while Py_ISSPACE] of [PyLong_FromString]: skip white space. *)
Fixpoint skip_spaces (cs : list ascii) : list ascii :=
  match cs with
  | c :: cs' => if is_py_space c then skip_spaces cs' else cs
  | [] => []
  end.

(** [_PyLong_DigitValue] in base 10: the value of a decimal digit. *)
Definition digit_value (c : ascii) : option Z :=
  let n := Z.of_nat (nat_of_ascii c) in
  if (48 <=? n) && (n <=? 57) then Some (n - 48) else None.

(** The digit loop of [long_from_string_base]: digits accumulate into
    [acc]; an underscore is skipped, but not right after another one.
    [prev_us] records that the last character was an underscore. The loop
    stops at the first character that is neither. The result is the
    value, [prev_us] at the stop, and the rest of the input. *)
Fixpoint scan_digits (cs : list ascii) (acc : Z) (prev_us : bool)
  : option (Z * bool * list ascii) :=
  match cs with
  | [] => Some (acc, prev_us, [])
  | c :: cs' =>
      match digit_value c with
      | Some d => scan_digits cs' (acc * 10 + d) false
      | None =>
          if decide (c = "_"%char) then
            if prev_us then None else scan_digits cs' acc true
          else Some (acc, prev_us, cs)
      end
  end.

(** The optional sign. *)
Definition scan_sign (cs : list ascii) : Z * list ascii :=
  match cs with
  | "+"%char :: cs' => (1, cs')
  | "-"%char :: cs' => (-1, cs')
  | _ => (1, cs)
  end.

(** [long_from_string_base]: the digit loop from the start of [cs]; a
    trailing underscore is an error. The value and the rest of the input. *)
Definition long_from_string_base (cs : list ascii) : option (Z * list ascii) :=
  match scan_digits cs 0 false with
  | Some (v, false, rest) => Some (v, rest)
  | _ => None
  end.

(** [int(s)] for a [str] [s], base 10, as [PyLong_FromString]: [None] is
    the [ValueError]. After the sign, the first character must be a digit:
    an underscore there is refused, and so is an empty digit run. After
    the digits, only white space may remain. *)
Definition py_int (s : string) : option Z :=
  let '(sign, cs) := scan_sign (skip_spaces (list_ascii_of_string s)) in
  match cs with
  | c :: _ =>
      match digit_value c with
      | None => None
      | Some _ =>
          match long_from_string_base cs with
          | Some (v, rest) => if decide (skip_spaces rest = []) then Some (sign * v) else None
          | None => None
          end
      end
  | [] => None
  end.

(** [pydantic.validators.max_str_int]. *)
Definition max_str_int : nat := 4300.

(** [int_validator] on a [str]: the length guard, then [int(v)]. [None]
    is pydantic's [IntegerError] ("value is not a valid integer"). *)
Definition int_validator (s : string) : option Z :=
  if decide (max_str_int < String.length s)%nat then None else py_int s.

(** ** Lemmas on the scan *)

Definition is_digit (c : ascii) : Prop := is_Some (digit_value c).

(** The value a run of digits denotes, from an accumulator. *)
Definition digit_step (acc : Z) (c : ascii) : Z := acc * 10 + default 0 (digit_value c).

Lemma digit_value_range c d :
  digit_value c = Some d -> 48 <= Z.of_nat (nat_of_ascii c) <= 57 /\ d = Z.of_nat (nat_of_ascii c) - 48.
Proof.
  unfold digit_value. destruct (_ && _) eqn:E; [|done].
  apply andb_true_iff in E as [E1 E2]. apply Z.leb_le in E1, E2. intros [= <-]. lia.
Qed.

Lemma digit_not_space c : is_digit c -> is_py_space c = false.
Proof.
  intros [d Hd]. apply digit_value_range in Hd as [Hr _].
  unfold is_py_space. set (n := nat_of_ascii c) in *.
  destruct (Nat.eqb_spec n 32), (Nat.leb_spec0 9 n), (Nat.leb_spec0 n 13); simpl; done || lia.
Qed.

Lemma digit_not_sign c cs : is_digit c -> scan_sign (c :: cs) = (1, c :: cs) /\ c <> "_"%char.
Proof.
  intros [d Hd]. split; [|intros ->; discriminate Hd].
  destruct c as [[] [] [] [] [] [] [] []]; reflexivity || discriminate Hd.
Qed.

Lemma digit_value_bound c d : digit_value c = Some d -> 0 <= d <= 9.
Proof. intros Hd. apply digit_value_range in Hd. lia. Qed.

#[export] Hint Resolve digit_not_space : py.

(** A run of digits is read left to right, [acc * 10 + d] at each step. *)
Lemma scan_digits_app l rest acc :
  Forall is_digit l ->
  scan_digits (l ++ rest) acc false = scan_digits rest (foldl digit_step acc l) false.
Proof.
  intros Hl. revert acc. induction Hl as [|c l [d Hd] _ IH]; intros acc; [done|].
  simpl. rewrite Hd. rewrite IH. unfold digit_step. by rewrite Hd.
Qed.

(** The value read is below [(acc + 1) * 10 ^ length cs]. *)
Lemma scan_digits_bound cs acc b v b' rest :
  scan_digits cs acc b = Some (v, b', rest) -> 0 <= acc ->
  0 <= v /\ v + 1 <= (acc + 1) * 10 ^ Z.of_nat (length cs).
Proof.
  revert acc b. induction cs as [|c cs IH]; intros acc b Hs Hacc; simpl in Hs.
  - injection Hs as <- _ _. simpl. lia.
  - assert (0 < 10 ^ Z.of_nat (length cs)) by (apply Z.pow_pos_nonneg; lia).
    rewrite length_cons, Nat2Z.inj_succ, Z.pow_succ_r by lia.
    destruct (digit_value c) as [d|] eqn:Hd.
    + apply digit_value_bound in Hd.
      destruct (IH _ _ Hs) as [Hv Hb]; [lia|]. split; [lia|nia].
    + destruct (decide (c = "_"%char)).
      * destruct b; [done|]. destruct (IH _ _ Hs) as [Hv Hb]; [lia|]. split; [lia|nia].
      * injection Hs as <- _ _. split; [lia|nia].
Qed.

Lemma skip_spaces_length cs : (length (skip_spaces cs) <= length cs)%nat.
Proof. induction cs as [|c cs IH]; simpl; [lia|]. destruct (is_py_space c); simpl; lia. Qed.

Lemma skip_spaces_digit c cs : is_digit c -> skip_spaces (c :: cs) = c :: cs.
Proof. intros Hc. simpl. by rewrite digit_not_space. Qed.

Lemma length_list_ascii_of_string s : length (list_ascii_of_string s) = String.length s.
Proof. induction s as [|c s IH]; simpl; congruence. Qed.

Lemma scan_sign_cases cs :
  (scan_sign cs).1 ∈ [1; -1] /\ (length (scan_sign cs).2 <= length cs)%nat.
Proof.
  destruct cs as [|c cs]; [split; [set_solver|done]|].
  destruct c as [[] [] [] [] [] [] [] []]; simpl; split; set_solver || lia.
Qed.

(** Every value [int(s)] returns is below [10 ^ len(s)] in absolute value. *)
Lemma py_int_bound s z : py_int s = Some z -> Z.abs z < 10 ^ Z.of_nat (String.length s).
Proof.
  unfold py_int. rewrite <- length_list_ascii_of_string.
  pose proof (skip_spaces_length (list_ascii_of_string s)).
  destruct (scan_sign_cases (skip_spaces (list_ascii_of_string s))) as [Hsign Hlen].
  destruct (scan_sign _) as [sign cs]. simpl in Hsign, Hlen.
  destruct cs as [|c cs']; [done|]. destruct (digit_value c); [|done].
  unfold long_from_string_base. destruct (scan_digits _ _ _) as [[[v []] rest]|] eqn:Hs; [done| |done].
  destruct (decide _); [|done]. intros [= <-].
  destruct (scan_digits_bound _ _ _ _ _ _ Hs) as [Hv Hb]; [lia|].
  assert (10 ^ Z.of_nat (length (c :: cs')) <= 10 ^ Z.of_nat (length (list_ascii_of_string s)))
    by (apply Z.pow_le_mono_r; lia).
  apply list_elem_of_In in Hsign. destruct Hsign as [<-|[<-|[]]]; lia.
Qed.

(** A run of digits to the end is read as its value. *)
Lemma long_from_string_base_digits l :
  Forall is_digit l -> long_from_string_base l = Some (foldl digit_step 0 l, []).
Proof.
  intros Hl. unfold long_from_string_base.
  pose proof (scan_digits_app l [] 0 Hl) as H. rewrite app_nil_r in H. by rewrite H.
Qed.

(** A sign followed by a nonempty run of digits is read as the signed value. *)
Lemma py_int_signed s sign l :
  scan_sign (skip_spaces (list_ascii_of_string s)) = (sign, l) ->
  l <> [] -> Forall is_digit l -> py_int s = Some (sign * foldl digit_step 0 l).
Proof.
  intros Hs Hne Hl. unfold py_int. rewrite Hs.
  destruct l as [|c l']; [done|]. apply Forall_cons in Hl as Hc. destruct Hc as [[d Hd] _].
  rewrite Hd, long_from_string_base_digits by done. reflexivity.
Qed.

Lemma digit_value_pretty_N_char d :
  (d < 10)%N -> digit_value (pretty_N_char d) = Some (Z.of_N d).
Proof.
  intros Hd. assert (d = 0 \/ d = 1 \/ d = 2 \/ d = 3 \/ d = 4 \/ d = 5 \/ d = 6
    \/ d = 7 \/ d = 8 \/ d = 9)%N as H by lia. destruct_or! H; subst; reflexivity.
Qed.

(** [pretty_N_go x s] writes the digits of [x] in front of [s]. *)
Lemma pretty_N_go_digits x s :
  exists l, list_ascii_of_string (pretty_N_go x s) = l ++ list_ascii_of_string s /\
    Forall is_digit l /\ foldl digit_step 0 l = Z.of_N x /\ (x <> 0%N -> l <> []).
Proof.
  revert s. induction (N.lt_wf_0 x) as [x _ IH]; intros s.
  destruct (decide (x = 0%N)) as [->|Hx]; [by exists []|].
  rewrite pretty_N_go_step by lia.
  destruct (IH (x `div` 10)%N ltac:(apply N.div_lt; lia)
              (String (pretty_N_char (x `mod` 10)) s)) as (l & Hl & Hd & Hv & _).
  pose proof (digit_value_pretty_N_char (x `mod` 10) ltac:(apply N.mod_lt; lia)) as Hc.
  exists (l ++ [pretty_N_char (x `mod` 10)]). rewrite Hl, <- app_assoc.
  split_and!; [done| | |intros _; by destruct l].
  - apply Forall_app. split; [done|]. constructor; [by eexists|done].
  - rewrite foldl_app, Hv. simpl. unfold digit_step. rewrite Hc. simpl.
    pose proof (N.div_mod x 10 ltac:(lia)). lia.
Qed.

(** [str(n)] of a nonzero natural is a nonempty run of its digits. *)
Lemma pretty_pos_digits p :
  exists l, list_ascii_of_string (pretty (Npos p)) = l /\ l <> [] /\
    Forall is_digit l /\ foldl digit_step 0 l = Zpos p.
Proof.
  destruct (pretty_N_go_digits (Npos p) "") as (l & Hl & Hd & Hv & Hne).
  exists l. unfold pretty, pretty_N. rewrite decide_False by done.
  rewrite Hl, app_nil_r. split_and!; auto.
Qed.

(** [int(str(n)) = n]. *)
Lemma py_int_pretty z : py_int (pretty z) = Some z.
Proof.
  destruct z as [|p|p]; [reflexivity| |].
  - destruct (pretty_pos_digits p) as (l & Hl & Hne & Hd & Hv).
    rewrite (py_int_signed (pretty (Zpos p)) 1 l); [by rewrite Hv| |done|done].
    change (pretty (Zpos p)) with (pretty (Npos p)). rewrite Hl.
    destruct l as [|c l']; [done|]. apply Forall_cons in Hd as [Hc _].
    rewrite skip_spaces_digit by done. by apply digit_not_sign.
  - destruct (pretty_pos_digits p) as (l & Hl & Hne & Hd & Hv).
    rewrite (py_int_signed (pretty (Zneg p)) (-1) l); [by rewrite Hv| |done|done].
    change (list_ascii_of_string (pretty (Zneg p)))
      with ("-"%char :: list_ascii_of_string (pretty (Npos p))).
    by rewrite Hl.
Qed.

(** The round trip through pydantic's length guard. *)
Lemma int_validator_of_pretty z :
  (String.length (pretty z) <= max_str_int)%nat -> int_validator (pretty z) = Some z.
Proof.
  intros Hlen. unfold int_validator. rewrite decide_False by lia. apply py_int_pretty.
Qed.

(** A string of [n] zeros, to build padded segments. *)
Fixpoint zeros (n : nat) : string :=
  match n with O => "" | S n' => String "0" (zeros n') end.

(** ** Theorems *)

(** C25: The path segment [str(n)] of any integer [n] whose decimal
    form is at most 4300 characters long converts back to [n]: pydantic's
    [int_validator] inverts Python's [str] on every id a client can write
    in the path. *)
Theorem int_validator_pretty z :
  (String.length (pretty z) <= max_str_int)%nat -> int_validator (pretty z) = Some z.
Proof. exact (int_validator_of_pretty z). Qed.

Lemma int_validator_pretty_witness :
  (String.length (pretty (-120)%Z) <= max_str_int)%nat /\ int_validator (pretty (-120)%Z) = Some (-120).
Proof. split; [decide_vm|]. apply int_validator_pretty. decide_vm. Defined.

(** C26: Every segment pydantic accepts as an [int] has at most 4300
    characters, and its value is below [10 ^ 4300] in absolute value. *)
Theorem int_validator_bounds s z :
  int_validator s = Some z -> (String.length s <= max_str_int)%nat /\ Z.abs z < 10 ^ 4300.
Proof.
  unfold int_validator. destruct (decide _) as [|Hlen]; [done|]. intros Hz.
  apply py_int_bound in Hz. split; [lia|].
  eapply Z.lt_le_trans; [exact Hz|]. apply Z.pow_le_mono_r; unfold max_str_int in Hlen; lia.
Qed.

Lemma int_validator_bounds_witness :
  int_validator " +0_4 " = Some 4 /\ (String.length " +0_4 " <= max_str_int)%nat /\ Z.abs 4 < 10 ^ 4300.
Proof.
  assert (H : int_validator " +0_4 " = Some 4) by reflexivity.
  split; [exact H|]. exact (int_validator_bounds _ _ H).
Defined.

(** The length guard comes before [int()]: the segment of 4300 zeros
    then "4" is a valid Python integer literal for [int()], with value 4,
    and pydantic still refuses it, because it is 4301 characters long. *)
Example int_validator_rejects_padded : py_int (zeros 4300 +:+ "4") = Some 4 /\ int_validator (zeros 4300 +:+ "4") = None.
Proof. split; vm_compute; reflexivity. Qed.
