(* ===== verification/PyFloat.v ===== *)
(** * PyFloat: Python's [float()] of a string

    Pydantic v1's [float_validator] calls [float(v)] on a string price
    ([price: float], src/main.py line 59). CPython's [PyFloat_FromString]
    does this in three steps:
    - [_Py_string_to_number_with_underscores] checks that every underscore
      sits between two digits, and removes them;
    - [float_from_string_inner] strips white space at both ends;
    - [PyOS_string_to_double] reads the rest, and must read all of it. It
      first tries a decimal ([_Py_dg_strtod]): an optional sign, digits, an
      optional fraction, an optional exponent. Then it tries
      [_Py_parse_inf_or_nan]: [inf], [infinity] or [nan] in any case, with
      an optional sign.
    The decimal [M * 10^E] is rounded to the nearest double, ties to even.
    A value beyond the largest double becomes an infinity, not an error,
    and a tiny one becomes a zero of its sign.

    The rounding is SpecFloat's [binary_normalize] on an integer scaled by
    a power of two, with a sticky bit for the discarded remainder: the
    scaled integer keeps at least 55 bits, so the result is the correctly
    rounded one. Exponents beyond any double are cut off before the
    arithmetic (above [10^400], below [2^-1100]).

    Theorem: the string [str(n)] of an integer gives the same float as
    [float(n)] whenever [float(n)] does not overflow. *)

From Stdlib Require Import ZArith String Ascii PrimFloat SpecFloat FloatOps.
From stdpp Require Import strings pretty.
From S2P Require Import Prelude PyInt.

Open Scope Z_scope.

(** ** Python's conversions between [int] and [float] *)

(** [int(f)]: truncation toward zero; [None] for NaN ([ValueError]) and
    the infinities ([OverflowError]). *)
Definition int_of_float (f : float) : option Z :=
  match Prim2SF f with
  | S754_zero _ => Some 0
  | S754_finite s m e =>
      Some (cond_Zopp s (if 0 <=? e then Zpos m * 2 ^ e else Zpos m / 2 ^ (- e)))
  | _ => None
  end.

(** [float(n)]: the double nearest to [n], ties to even; [None] when it
    overflows ([OverflowError: int too large to convert to float]). *)
Definition float_of_int (n : Z) : option float :=
  match binary_normalize prec emax n 0 false with
  | S754_infinity _ => None
  | f => Some (SF2Prim f)
  end.

(** ** Underscores and white space *)

Definition is_digit_b (c : ascii) : bool := bool_decide (is_digit c).

(** The loop of [_Py_string_to_number_with_underscores]: an underscore
    must follow a digit, the character after an underscore must be a digit,
    and the string must not end with one. [prev] is the previous
    character (NUL at the start). *)
Fixpoint remove_underscores (prev : ascii) (cs : list ascii) : option (list ascii) :=
  match cs with
  | [] => if decide (prev = "_"%char) then None else Some []
  | c :: cs' =>
      if decide (c = "_"%char) then
        if is_digit_b prev then remove_underscores c cs' else None
      else if bool_decide (prev = "_"%char) && negb (is_digit_b c) then None
      else (c ::.) <$> remove_underscores c cs'
  end.

(** Both ends stripped of white space. *)
Definition strip_spaces (cs : list ascii) : list ascii :=
  reverse (skip_spaces (reverse (skip_spaces cs))).

(** ** The decimal of [_Py_dg_strtod] *)

(** The longest run of digits at the start, and the rest. *)
Fixpoint span_digits (cs : list ascii) : list ascii * list ascii :=
  match cs with
  | c :: cs' =>
      if is_digit_b c then let '(ds, rest) := span_digits cs' in (c :: ds, rest) else ([], cs)
  | [] => ([], [])
  end.

Definition digits_value (ds : list ascii) : Z := foldl digit_step 0 ds.

(** The optional exponent: [e] or [E], a sign, digits. Without digits
    the exponent is not read at all. *)
Definition scan_exponent (cs : list ascii) : Z * list ascii :=
  match cs with
  | c :: cs' =>
      if decide (c = "e"%char \/ c = "E"%char) then
        let '(sign, cs1) := scan_sign cs' in
        match span_digits cs1 with
        | ([], _) => (0, cs)
        | (ds, rest) => (sign * digits_value ds, rest)
        end
      else (0, cs)
  | [] => (0, [])
  end.

(** The optional sign that [_Py_dg_strtod] and [_Py_parse_inf_or_nan]
    read: whether it is [-], and the rest. *)
Definition strtod_sign (cs : list ascii) : bool * list ascii :=
  match cs with
  | "-"%char :: r => (true, r)
  | "+"%char :: r => (false, r)
  | _ => (false, cs)
  end.

(** A decimal: sign (negative?), mantissa [M], exponent [E] with value
    [M * 10^E], and the rest of the input. [None] when there is no digit
    before or after the point. *)
Definition strtod_decimal (cs : list ascii) : option (bool * Z * Z * list ascii) :=
  let '(neg, cs1) := strtod_sign cs in
  let '(ip, cs2) := span_digits cs1 in
  let '(fp, cs3) := match cs2 with "."%char :: r => span_digits r | _ => ([], cs2) end in
  if decide (ip = [] /\ fp = []) then None
  else let '(e, rest) := scan_exponent cs3 in
       Some (neg, digits_value (ip ++ fp), e - Z.of_nat (length fp), rest).

(** ** Correct rounding *)

(** The double nearest to [(-1)^neg * M * 10^E], ties to even. *)
Definition round_decimal (neg : bool) (M E : Z) : float :=
  let signed m := if neg then - m else m in
  if decide (M = 0) then SF2Prim (S754_zero neg)
  else if decide (0 <= E) then
    if decide (400 < E) then SF2Prim (S754_infinity neg)
    else SF2Prim (binary_normalize prec emax (signed (M * 10 ^ E)) 0 neg)
  else
    let k := - E in
    if decide (Z.log2 M + 1 - 3 * k < -1100) then SF2Prim (S754_zero neg)
    else
      let s := 54 + 4 * k in
      let q := (M * 2 ^ s) / 10 ^ k in
      let sticky := if decide ((M * 2 ^ s) mod 10 ^ k = 0) then 0 else 1 in
      SF2Prim (binary_normalize prec emax (signed (2 * q + sticky)) (- (s + 1)) neg).

(** [_Py_dg_strtod] strips the trailing zeros of the digits it read
    ("strip trailing zeros", [e += nd - i]). Here they are dropped while
    the exponent is negative: that leaves a mantissa without trailing zero
    or an integer, and the value is the same. *)
Fixpoint drop_zeros (fuel : nat) (M E : Z) : Z * Z :=
  match fuel with
  | O => (M, E)
  | S fuel' =>
      if decide (E < 0 /\ M <> 0 /\ M mod 10 = 0) then drop_zeros fuel' (M / 10) (E + 1) else (M, E)
  end.

Definition decimal_to_float (neg : bool) (M E : Z) : float :=
  let '(M', E') := drop_zeros (Z.to_nat (- E)) M E in round_decimal neg M' E'.

(** ** [inf] and [nan] *)

(** A lower-case ASCII letter for an upper-case one. *)
Definition to_lower (c : ascii) : ascii :=
  let n := nat_of_ascii c in
  if ((65 <=? n) && (n <=? 90))%nat then ascii_of_nat (n + 32) else c.

(** [case_insensitive_match]: [cs] starts with the lower-case word [w]. *)
Fixpoint match_word (w : list ascii) (cs : list ascii) : option (list ascii) :=
  match w, cs with
  | [], _ => Some cs
  | a :: w', c :: cs' => if decide (to_lower c = a) then match_word w' cs' else None
  | _ :: _, [] => None
  end.

(** [_Py_parse_inf_or_nan]: the value and the rest, [None] when neither
    word follows the sign. *)
Definition parse_inf_or_nan (cs : list ascii) : option (float * list ascii) :=
  let '(neg, cs1) := strtod_sign cs in
  let sign f := if neg then (- f)%float else f in
  match match_word (list_ascii_of_string "inf") cs1 with
  | Some r =>
      Some (sign infinity, default r (match_word (list_ascii_of_string "inity") r))
  | None =>
      (fun r => (sign nan, r)) <$> match_word (list_ascii_of_string "nan") cs1
  end.

(** [float(s)] for a [str]: [None] is the [ValueError]. *)
Definition py_float (s : string) : option float :=
  let cs := list_ascii_of_string s in
  cs' ← (if decide ("_"%char ∈ cs) then remove_underscores "000"%char cs else Some cs);
  let t := strip_spaces cs' in
  match strtod_decimal t with
  | Some (neg, M, E, []) => Some (decimal_to_float neg M E)
  | Some _ => None
  | None =>
      match parse_inf_or_nan t with
      | Some (f, []) => Some f
      | _ => None
      end
  end.

(** ** Lemmas *)

Lemma strtod_sign_digit c cs : is_digit c -> strtod_sign (c :: cs) = (false, c :: cs).
Proof. intros [d Hd]. destruct c as [[] [] [] [] [] [] [] []]; reflexivity || discriminate Hd. Qed.

Lemma span_digits_all l : Forall is_digit l -> span_digits l = (l, []).
Proof.
  induction 1 as [|c l Hc _ IH]; [done|]. simpl. unfold is_digit_b.
  rewrite bool_decide_true by done. by rewrite IH.
Qed.

Lemma underscore_not_digit l : Forall is_digit l -> "_"%char ∉ l.
Proof. intros Hl Hin. rewrite Forall_forall in Hl. destruct (Hl _ Hin) as [d Hd]. discriminate Hd. Qed.

Lemma skip_spaces_none cs : Forall (fun c => is_py_space c = false) cs -> skip_spaces cs = cs.
Proof. destruct 1 as [|c cs Hc _]; [done|]. simpl. by rewrite Hc. Qed.

(** Nothing to strip when no character is white space. *)
Lemma strip_spaces_none cs : Forall (fun c => is_py_space c = false) cs -> strip_spaces cs = cs.
Proof.
  intros Hcs. unfold strip_spaces. rewrite (skip_spaces_none cs Hcs).
  rewrite skip_spaces_none; [apply reverse_involutive|]. by apply Forall_reverse.
Qed.

Lemma digits_nonspace l : Forall is_digit l -> Forall (fun c => is_py_space c = false) l.
Proof. intros Hl. eapply Forall_impl; [exact Hl|]. apply digit_not_space. Qed.

(** A run of digits, after an optional minus sign, is a decimal with
    exponent 0. *)
Lemma strtod_decimal_digits (neg : bool) (l : list ascii) :
  l <> [] -> Forall is_digit l ->
  strtod_decimal ((if neg then ["-"%char] else []) ++ l) = Some (neg, digits_value l, 0, []).
Proof.
  intros Hne Hl. destruct l as [|c l']; [done|]. apply Forall_cons in Hl as Hc. destruct Hc as [Hc _].
  unfold strtod_decimal.
  assert (Hs : strtod_sign ((if neg then ["-"%char] else []) ++ c :: l') = (neg, c :: l'))
    by (destruct neg; [reflexivity|by apply strtod_sign_digit]).
  rewrite Hs, span_digits_all by done. simpl. by rewrite app_nil_r.
Qed.

(** [binary_normalize] uses its sign of zero only for a zero mantissa. *)
Lemma binary_normalize_szero m e s1 s2 :
  m <> 0 -> binary_normalize prec emax m e s1 = binary_normalize prec emax m e s2.
Proof. destruct m; done || reflexivity. Qed.

Lemma decimal_to_float_int (neg : bool) (M : Z) :
  M <> 0 -> decimal_to_float neg M 0 = SF2Prim (binary_normalize prec emax (if neg then - M else M) 0 false).
Proof.
  intros HM. unfold decimal_to_float. change (drop_zeros (Z.to_nat (- 0)) M 0) with (M, 0). unfold round_decimal.
  rewrite decide_False, decide_True, decide_False by lia.
  rewrite Z.pow_0_r, Z.mul_1_r. f_equal. apply binary_normalize_szero. destruct neg; lia.
Qed.

(** [float(s)] of a string without underscores and white space that is
    a decimal with exponent 0. *)
Lemma py_float_decimal s neg M :
  "_"%char ∉ list_ascii_of_string s ->
  Forall (fun c => is_py_space c = false) (list_ascii_of_string s) ->
  strtod_decimal (list_ascii_of_string s) = Some (neg, M, 0, []) ->
  py_float s = Some (decimal_to_float neg M 0).
Proof.
  intros Hu Hsp Hd. unfold py_float. rewrite decide_False by done. simpl.
  rewrite strip_spaces_none, Hd by done. reflexivity.
Qed.

(** [float(str(n)) = float(n)], as a lemma the request layer shares. *)
Lemma py_float_of_pretty z f : float_of_int z = Some f -> py_float (pretty z) = Some f.
Proof.
  unfold float_of_int. intros Hf.
  assert (Hf' : SF2Prim (binary_normalize prec emax z 0 false) = f)
    by (destruct (binary_normalize _ _ _ _ _); congruence).
  destruct z as [|p|p]; [by subst|..].
  - destruct (pretty_pos_digits p) as (l & Hl & Hne & Hd & Hv).
    change (pretty (Zpos p)) with (pretty (Npos p)).
    rewrite (py_float_decimal _ false (Zpos p)); rewrite ?Hl.
    + by rewrite decimal_to_float_int, Hf'.
    + by apply underscore_not_digit.
    + by apply digits_nonspace.
    + rewrite <- Hv. exact (strtod_decimal_digits false l Hne Hd).
  - destruct (pretty_pos_digits p) as (l & Hl & Hne & Hd & Hv).
    assert (Hs : list_ascii_of_string (pretty (Zneg p)) = ["-"%char] ++ l)
      by (change (list_ascii_of_string (pretty (Zneg p)))
            with ("-"%char :: list_ascii_of_string (pretty (Npos p))); by rewrite Hl).
    rewrite (py_float_decimal _ true (Zpos p)); rewrite ?Hs.
    + rewrite decimal_to_float_int by done. by rewrite <- Hf'.
    + rewrite elem_of_app, list_elem_of_singleton. intros [?|Hin]; [done|].
      by apply (underscore_not_digit l).
    + apply Forall_app. split; [by repeat constructor|]. by apply digits_nonspace.
    + rewrite <- Hv. exact (strtod_decimal_digits true l Hne Hd).
Qed.
