(* ===== verification/FloatRepr.v ===== *)
(** * FloatRepr: Python's [repr] of a float

    Python writes a float with [float.__repr__], which [str()] and
    [json.dumps] also use. CPython computes it as
    [PyOS_double_to_string(x, 'r', 0, Py_DTSF_ADD_DOT_0)]:
    - [_Py_dg_dtoa] in mode 0 gives the shortest digit string that reads
      back as [x]; among strings of that length it gives the one closest
      to [x];
    - [format_float_short] lays the digits out. It uses exponent notation
      when the decimal point position [decpt] is [<= -4] or [> 16], as in
      [1e-05] and [1e+16]. Otherwise it uses fixed notation, with [.0]
      added to an integer, as in [100.0] and [0.0001].

    [shortest_digits] searches the lengths 1 to 17 in order. A decimal of
    [n] digits reads back as [x] when it lies in the interval of reals that
    round to [x]. That interval contains [x], so if one [n]-digit decimal
    does, the [n]-digit decimal just below or just above [x] does too. The
    search therefore tries those two at each length, keeps those that read
    back ([PyFloat.decimal_to_float]), and takes the closer one, the even
    one on a tie. Seventeen digits always read back for a double. *)

From Stdlib Require Import ZArith String Ascii PrimFloat SpecFloat FloatOps FloatAxioms.
From stdpp Require Import strings pretty list.
From S2P Require Import Prelude PyInt PyFloat.

Open Scope Z_scope.

(** ** Digits *)

(** [z] without its trailing zeros, and how many were removed. *)
Fixpoint strip_zeros (fuel : nat) (z : Z) : Z * Z :=
  match fuel with
  | O => (z, 0)
  | S fuel' =>
      if decide (z <> 0 /\ z mod 10 = 0) then
        let '(z', k) := strip_zeros fuel' (z / 10) in (z', k + 1)
      else (z, 0)
  end.

(** The digit string [_Py_dg_dtoa] returns has no trailing zero: the
    value [D * 10^E] with them moved into the exponent. A zero is removed
    per division by 10, so [log2 |D| + 1] rounds are enough. *)
Definition normal_digits (D E : Z) : Z * Z :=
  let '(D', k) := strip_zeros (S (Z.to_nat (Z.log2 (Z.abs D)))) D in (D', E + k).

(** The exact value [m * 2^e] of a finite double as [num / den]. *)
Definition exact_ratio (m : positive) (e : Z) : Z * Z :=
  if decide (0 <= e) then (Zpos m * 2 ^ e, 1) else (Zpos m, 2 ^ (- e)).

(** The number of decimal digits of a positive integer. *)
Definition ndigits (z : Z) : Z := Z.of_nat (String.length (pretty z)).

(** [decpt]: the [k] with [10^(k-1) <= num/den < 10^k]. The digit counts
    of [num] and [den] give it up to one. *)
Definition decimal_point (num den : Z) : Z :=
  let k := ndigits num - ndigits den in
  let ge := if decide (0 <= k) then num >=? den * 10 ^ k else num * 10 ^ (- k) >=? den in
  if ge then k + 1 else k.

(** [m * 2^e] scaled to [n] digits: [q <= m * 2^e * 10^(n - decpt) < q + 1]
    with [q], the remainder [r] over the divisor [b], and the exponent
    [E = decpt - n] of the last digit. *)
Definition scaled (m : positive) (e : Z) (n : Z) : Z * Z * Z * Z :=
  let '(num, den) := exact_ratio m e in
  let decpt := decimal_point num den in
  let a := num * 10 ^ Z.max 0 (n - decpt) in
  let b := den * 10 ^ Z.max 0 (decpt - n) in
  (a / b, a mod b, b, decpt - n).

(** Of [q] and [q + 1], the one nearer the value, the even one on a tie. *)
Definition nearer (q r b E : Z) : Z * Z :=
  if decide (2 * r < b) then normal_digits q E
  else if decide (b < 2 * r) then normal_digits (q + 1) E
  else if Z.even q then normal_digits q E else normal_digits (q + 1) E.

(** The [n]-digit decimal that reads back as [x] (whose parts are
    [s, m, e]), if any: of the two around [x], those that read back, and
    of those the nearer. *)
Definition candidate (x : float) (s : bool) (m : positive) (e : Z) (n : Z) : option (Z * Z) :=
  let '(q, r, b, E) := scaled m e n in
  let back (c : Z * Z) := Leibniz.eqb (decimal_to_float s c.1 c.2) x in
  match back (normal_digits q E), back (normal_digits (q + 1) E) with
  | true, true => Some (nearer q r b E)
  | true, false => Some (normal_digits q E)
  | false, true => Some (normal_digits (q + 1) E)
  | false, false => None
  end.

(** Mode 0 of [_Py_dg_dtoa]: the shortest decimal that reads back. *)
Definition shortest_digits (x : float) (s : bool) (m : positive) (e : Z) : option (Z * Z) :=
  let fix go (ns : list Z) :=
    match ns with
    | [] => None
    | n :: ns' => match candidate x s m e n with Some c => Some c | None => go ns' end
    end in
  go (seqZ 1 17).

(** ** Layout *)

Definition zeros_l (n : Z) : list ascii := replicate (Z.to_nat n) "0"%char.

Definition digits_of (z : Z) : list ascii := list_ascii_of_string (pretty z).

(** [sprintf("%+.02d", exp)]: a sign and at least two digits. *)
Definition exponent_digits (x : Z) : list ascii :=
  (if decide (x < 0) then "-" else "+")%char ::
  (if decide (Z.abs x < 10) then ["0"%char] else []) ++ digits_of (Z.abs x).

(** Digits, the point, digits; the C code deletes a trailing point
    ([if (p[-1] == decimal_point) p--]). *)
Definition mantissa (ip fp : list ascii) : list ascii :=
  ip ++ match fp with [] => [] | _ => "."%char :: fp end.

(** [format_float_short] in [r] mode with [Py_DTSF_ADD_DOT_0], for the
    digits [ds] and the point position [decpt]. *)
Definition format_short (ds : list ascii) (decpt : Z) : list ascii :=
  let len := Z.of_nat (length ds) in
  if decide (decpt <= -4 \/ 16 < decpt) then
    mantissa (take 1 ds) (drop 1 ds) ++ "e"%char :: exponent_digits (decpt - 1)
  else if decide (decpt <= 0) then mantissa ["0"%char] (zeros_l (- decpt) ++ ds)
  else if decide (decpt < len) then mantissa (take (Z.to_nat decpt) ds) (drop (Z.to_nat decpt) ds)
  else mantissa (ds ++ zeros_l (decpt - len)) ["0"%char].

(** The sign, then the digits laid out. *)
Definition format_digits (s : bool) (D E : Z) : list ascii :=
  let ds := digits_of D in
  (if s then ["-"%char] else []) ++ format_short ds (E + Z.of_nat (length ds)).

(** [float.__repr__]. The search finds digits for every double (17 of
    them always read back); the 17-digit nearest is the fallback that
    keeps the definition total. *)
Definition float_repr (x : float) : string :=
  match Prim2SF x with
  | S754_nan => "nan"
  | S754_infinity s => if s then "-inf" else "inf"
  | S754_zero s => if s then "-0.0" else "0.0"
  | S754_finite s m e =>
      let '(D, E) := match shortest_digits x s m e with
                     | Some c => c
                     | None => let '(q, r, b, E) := scaled m e 17 in nearer q r b E
                     end in
      string_of_list_ascii (format_digits s D E)
  end.

(** Whether the search found the digits of [x]. *)
Definition repr_exact (x : float) : bool :=
  match Prim2SF x with
  | S754_finite s m e => bool_decide (is_Some (shortest_digits x s m e))
  | _ => true
  end.

(** ** The search *)

(** A digit pair as [_Py_dg_dtoa] returns it: zero, or a positive
    mantissa without trailing zero. *)
Definition normal (c : Z * Z) : Prop := c.1 = 0 \/ (0 < c.1 /\ c.1 mod 10 <> 0).

Lemma strip_zeros_spec f z :
  0 < z -> (Z.to_nat (Z.log2 (Z.abs z)) < f)%nat ->
  0 < (strip_zeros f z).1 /\ (strip_zeros f z).1 mod 10 <> 0.
Proof.
  revert z. induction f as [|f IH]; intros z Hz Hf; [lia|]. cbn [strip_zeros].
  destruct (decide (z <> 0 /\ z mod 10 = 0)) as [[_ Hm]|Hn].
  - assert (Hq : z = 10 * (z / 10)) by (pose proof (Z.div_mod z 10); lia).
    assert (Hq0 : 0 < z / 10) by lia.
    assert (Hlog : Z.log2 (Z.abs (z / 10)) < Z.log2 (Z.abs z)).
    { rewrite !Z.abs_eq by lia. rewrite Hq at 2.
      apply Z.lt_le_trans with (Z.log2 (2 * (z / 10))).
      - rewrite Z.log2_double by lia. lia.
      - apply Z.log2_le_mono. lia. }
    destruct (strip_zeros f (z / 10)) as [z' k] eqn:Hs. cbn.
    pose proof (IH (z / 10) Hq0) as IH'. rewrite Hs in IH'. apply IH'.
    pose proof (Z.log2_nonneg (Z.abs (z / 10))). lia.
  - cbn. split; [lia|]. intros Hm. apply Hn. split; lia.
Qed.

Lemma normal_digits_normal D E : 0 <= D -> normal (normal_digits D E).
Proof.
  intros HD. unfold normal_digits, normal.
  destruct (decide (D = 0)) as [->|HD0]; [by left|]. right.
  pose proof (strip_zeros_spec (S (Z.to_nat (Z.log2 (Z.abs D)))) D ltac:(lia) ltac:(lia)) as Hs.
  destruct (strip_zeros _ D). exact Hs.
Qed.

Lemma scaled_nonneg m e n q r b E : scaled m e n = (q, r, b, E) -> 0 <= q.
Proof.
  unfold scaled, exact_ratio. intros Hs.
  assert (H2 : forall k, 0 < 2 ^ k \/ k < 0) by (intros k; destruct (Z.neg_nonneg_cases k); [right|left; apply Z.pow_pos_nonneg]; lia).
  assert (H10 : forall k, 0 <= k -> 0 < 10 ^ k) by (intros; apply Z.pow_pos_nonneg; lia).
  case_decide; injection Hs as <- _ _ _; apply Z.div_pos.
  - pose proof (Z.pow_pos_nonneg 2 e ltac:(lia) ltac:(lia)). pose proof (H10 (Z.max 0 (n - decimal_point (Z.pos m * 2 ^ e) 1)) ltac:(lia)). nia.
  - pose proof (H10 (Z.max 0 (decimal_point (Z.pos m * 2 ^ e) 1 - n)) ltac:(lia)). lia.
  - pose proof (H10 (Z.max 0 (n - decimal_point (Z.pos m) (2 ^ (- e)))) ltac:(lia)). lia.
  - pose proof (Z.pow_pos_nonneg 2 (- e) ltac:(lia) ltac:(lia)). pose proof (H10 (Z.max 0 (decimal_point (Z.pos m) (2 ^ (- e)) - n)) ltac:(lia)). nia.
Qed.

Lemma nearer_cases q r b E : nearer q r b E = normal_digits q E \/ nearer q r b E = normal_digits (q + 1) E.
Proof. unfold nearer. repeat case_decide; [left|right|..]; try done. destruct (Z.even q); auto. Qed.

(** What a candidate of the search is: a normal pair that reads back. *)
Lemma candidate_spec x s m e n c :
  candidate x s m e n = Some c -> decimal_to_float s c.1 c.2 = x /\ normal c.
Proof.
  unfold candidate. destruct (scaled m e n) as [[[q r] b] E] eqn:Hs.
  pose proof (scaled_nonneg _ _ _ _ _ _ _ Hs) as Hq.
  pose proof (normal_digits_normal q E Hq) as Nlo.
  pose proof (normal_digits_normal (q + 1) E ltac:(lia)) as Nhi.
  destruct (Leibniz.eqb (decimal_to_float s (normal_digits q E).1 _) x) eqn:H1,
    (Leibniz.eqb (decimal_to_float s (normal_digits (q + 1) E).1 _) x) eqn:H2;
    intros; simplify_eq; rewrite ?Leibniz.eqb_spec in H1; rewrite ?Leibniz.eqb_spec in H2; try by split.
  destruct (nearer_cases q r b E) as [-> | ->]; by split.
Qed.

Lemma shortest_digits_spec x s m e c :
  shortest_digits x s m e = Some c -> decimal_to_float s c.1 c.2 = x /\ normal c.
Proof.
  unfold shortest_digits. generalize (seqZ 1 17). intros ns.
  induction ns as [|n ns IH]; [done|]. cbn.
  destruct (candidate x s m e n) eqn:Hc; [intros [= <-]; by eapply candidate_spec|exact IH].
Qed.

(** ** Reading the layout back *)

Lemma foldl_digit_step a l :
  foldl digit_step a l = a * 10 ^ Z.of_nat (length l) + foldl digit_step 0 l.
Proof.
  revert a. induction l as [|c l IH]; intros a; cbn [foldl length]; [lia|].
  rewrite (IH (digit_step a c)), (IH (digit_step 0 c)). unfold digit_step.
  rewrite Nat2Z.inj_succ, Z.pow_succ_r by lia. ring.
Qed.

Lemma digits_value_app l1 l2 :
  digits_value (l1 ++ l2) = digits_value l1 * 10 ^ Z.of_nat (length l2) + digits_value l2.
Proof. unfold digits_value. by rewrite foldl_app, foldl_digit_step. Qed.

Lemma digits_value_zeros k : digits_value (replicate k "0"%char) = 0.
Proof. unfold digits_value. induction k as [|k IH]; [done|]. exact IH. Qed.

Lemma is_digit_zero : is_digit "0"%char.
Proof. by exists 0. Qed.

Lemma zeros_digits n : Forall is_digit (replicate n "0"%char).
Proof. apply Forall_replicate, is_digit_zero. Qed.

(** The digits of a natural number. *)
Lemma digits_of_spec z :
  0 <= z -> digits_of z <> [] /\ Forall is_digit (digits_of z) /\ digits_value (digits_of z) = z.
Proof.
  destruct z as [|p|p]; intros Hz; [|clear Hz|lia].
  - split_and!; [done|repeat constructor; apply is_digit_zero|done].
  - destruct (pretty_pos_digits p) as (l & Hl & Hne & Hd & Hv).
    unfold digits_of. change (pretty (Zpos p)) with (pretty (Npos p)). by rewrite Hl.
Qed.

Lemma pretty_N_char_digit d : (d < 10)%N -> is_digit (pretty_N_char d).
Proof. intros Hd. exists (Z.of_N d). by apply digit_value_pretty_N_char. Qed.

(** The first digit [pretty_N_go] writes for a nonzero number is not 0. *)
Lemma pretty_N_go_head x s :
  x <> 0%N -> exists c rest, pretty_N_go x s = String c rest /\ is_digit c /\ c <> "0"%char.
Proof.
  revert s. induction (N.lt_wf_0 x) as [x _ IH]; intros s Hx.
  rewrite pretty_N_go_step by lia.
  destruct (decide (x < 10)%N) as [Hlt|Hge].
  - rewrite N.div_small, N.mod_small by done. rewrite pretty_N_go_0.
    exists (pretty_N_char x), s. split_and!; [done|by apply pretty_N_char_digit|].
    assert (x = 1 \/ x = 2 \/ x = 3 \/ x = 4 \/ x = 5 \/ x = 6 \/ x = 7 \/ x = 8 \/ x = 9)%N as Hc by lia.
    destruct_or! Hc; subst; done.
  - apply IH; [apply N.div_lt; lia|]. intros H0. apply N.div_small_iff in H0; lia.
Qed.

(** [str(D)] of a positive [D] starts with a nonzero digit. *)
Lemma digits_of_head D :
  0 < D -> exists c rest, digits_of D = c :: rest /\ is_digit c /\ c <> "0"%char.
Proof.
  intros HD. destruct D as [|p|p]; [lia| |lia].
  unfold digits_of. change (pretty (Zpos p)) with (pretty_N_go (Npos p) "").
  destruct (pretty_N_go_head (Npos p) "" ltac:(done)) as (c & rest & -> & Hc & H0).
  by exists c, (list_ascii_of_string rest).
Qed.

Lemma span_digits_app l r :
  Forall is_digit l -> match r with c :: _ => is_digit_b c = false | [] => True end ->
  span_digits (l ++ r) = (l, r).
Proof.
  intros Hl Hr. induction Hl as [|c l Hc _ IH].
  - destruct r as [|c r]; [done|]. cbn. by rewrite Hr.
  - cbn. unfold is_digit_b at 1. rewrite bool_decide_true by done. by rewrite IH.
Qed.

Lemma strtod_sign_prefix (neg : bool) l r :
  l <> [] -> Forall is_digit l -> strtod_sign ((if neg then ["-"%char] else []) ++ l ++ r) = (neg, l ++ r).
Proof.
  intros Hne Hl. destruct l as [|c l']; [done|]. apply Forall_cons in Hl as [Hc _].
  destruct neg; [reflexivity|by apply strtod_sign_digit].
Qed.

(** A mantissa with or without a fraction, then an exponent part, is the
    decimal of its digits. *)
Lemma strtod_decimal_mantissa (neg : bool) ip fp ex :
  ip <> [] -> Forall is_digit ip -> Forall is_digit fp ->
  (ex = [] \/ exists r, ex = "e"%char :: r) ->
  strtod_decimal ((if neg then ["-"%char] else []) ++ mantissa ip fp ++ ex) =
  let '(e, rest) := scan_exponent ex in Some (neg, digits_value (ip ++ fp), e - Z.of_nat (length fp), rest).
Proof.
  intros Hne Hip Hfp Hex. unfold strtod_decimal, mantissa. rewrite <- app_assoc.
  rewrite strtod_sign_prefix by done.
  rewrite span_digits_app by (done || destruct fp, Hex as [->|[? ->]]; done).
  destruct fp as [|c' fp'].
  - rewrite app_nil_l. destruct Hex as [->|[r ->]]; cbv beta iota;
      rewrite decide_False by (intros [? _]; done); by rewrite ?app_nil_r.
  - rewrite <- app_comm_cons. cbv beta iota.
    rewrite span_digits_app by (done || destruct Hex as [->|[? ->]]; done). cbv beta iota.
    rewrite decide_False by (intros [? _]; done). by destruct (scan_exponent ex).
Qed.

Lemma scan_exponent_digits x : scan_exponent ("e"%char :: exponent_digits x) = (x, []).
Proof.
  destruct (digits_of_spec (Z.abs x) ltac:(lia)) as (Hne & Hd & Hv).
  unfold scan_exponent, exponent_digits. rewrite decide_True by auto.
  assert (Hs : forall r, scan_sign ((if decide (x < 0) then "-" else "+")%char :: r) =
                         (if decide (x < 0) then -1 else 1, r)) by (intros; by case_decide).
  rewrite Hs.
  remember ((if decide (Z.abs x < 10) then ["0"%char] else []) ++ digits_of (Z.abs x)) as l eqn:El.
  assert (Hl : Forall is_digit l)
    by (subst l; apply Forall_app; split; [destruct (decide (Z.abs x < 10)); repeat constructor; apply is_digit_zero|done]).
  assert (Hvl : digits_value l = Z.abs x)
    by (subst l; rewrite digits_value_app, Hv; destruct (decide (Z.abs x < 10));
        [change (digits_value ["0"%char]) with 0|change (digits_value []) with 0]; lia).
  assert (Hl0 : l <> []) by (subst l; intros Hn; apply app_eq_nil in Hn as [_ Hn]; done).
  rewrite <- (app_nil_r l), span_digits_app by done. rewrite app_nil_r.
  destruct l as [|c l']; [done|]. rewrite Hvl. f_equal. destruct (decide (x < 0)); lia.
Qed.

(** The fixed layout of an integer value ends in [.0]: one more zero, one
    less in the exponent, and the same float. *)
Lemma decimal_to_float_shift neg D k :
  0 < D -> 0 <= k <= 400 -> decimal_to_float neg (D * 10 ^ (k + 1)) (-1) = decimal_to_float neg D k.
Proof.
  intros HD Hk. assert (Hp : 0 < 10 ^ k) by (apply Z.pow_pos_nonneg; lia).
  rewrite Z.pow_add_r, Z.pow_1_r, Z.mul_assoc by lia.
  unfold decimal_to_float. change (Z.to_nat (- -1)) with 1%nat. cbn [drop_zeros].
  rewrite decide_True by (split_and!; [lia|nia|apply Z.mod_mul; lia]).
  rewrite Z.div_mul by lia. replace (Z.to_nat (- k)) with 0%nat by lia. cbn [drop_zeros].
  unfold round_decimal. rewrite (decide_False (P := D * 10 ^ k = 0)), (decide_False (P := D = 0)) by nia.
  replace (-1 + 1) with 0 by lia.
  rewrite (decide_True (P := 0 <= 0)), (decide_True (P := 0 <= k)), (decide_False (P := 400 < 0)), (decide_False (P := 400 < k)) by lia.
  by rewrite Z.pow_0_r, Z.mul_1_r.
Qed.

(** What [format_short] writes is read back as the decimal it lays out. *)
Lemma strtod_format_short (neg : bool) D decpt :
  0 < D -> D mod 10 <> 0 ->
  exists M E, strtod_decimal ((if neg then ["-"%char] else []) ++ format_short (digits_of D) decpt) = Some (neg, M, E, []) /\
    decimal_to_float neg M E = decimal_to_float neg D (decpt - Z.of_nat (length (digits_of D))).
Proof.
  intros HD HD10. destruct (digits_of_spec D ltac:(lia)) as (Hne & Hd & Hv).
  remember (digits_of D) as l eqn:El. clear El.
  assert (Hlen : (1 <= length l)%nat) by (destruct l; [done|cbn; lia]).
  unfold format_short, zeros_l. case_decide as Hexp; [|case_decide as Hneg; [|case_decide as Hmid]].
  - rewrite strtod_decimal_mantissa;
      [|by destruct l|by apply Forall_take|by apply Forall_drop|by right; eexists].
    rewrite scan_exponent_digits. do 2 eexists. split; [reflexivity|].
    rewrite take_drop, Hv, length_drop. f_equal. lia.
  - rewrite <- (app_nil_r (mantissa _ _)), strtod_decimal_mantissa;
      [|done|repeat constructor; apply is_digit_zero|apply Forall_app; split; [apply zeros_digits|done]|by left].
    cbn [scan_exponent]. do 2 eexists. split; [reflexivity|].
    rewrite !digits_value_app, digits_value_zeros, Hv, length_app, length_replicate.
    change (digits_value ["0"%char]) with 0. f_equal; lia.
  - rewrite <- (app_nil_r (mantissa _ _)), strtod_decimal_mantissa;
      [|destruct l, (Z.to_nat decpt) eqn:?; done || lia|by apply Forall_take|by apply Forall_drop|by left].
    cbn [scan_exponent]. do 2 eexists. split; [reflexivity|].
    rewrite take_drop, Hv, length_drop. f_equal. lia.
  - rewrite <- (app_nil_r (mantissa _ _)), strtod_decimal_mantissa;
      [|by destruct l|apply Forall_app; split; [done|apply zeros_digits]|repeat constructor; apply is_digit_zero|by left].
    cbn [scan_exponent]. do 2 eexists. split; [reflexivity|].
    rewrite !digits_value_app, digits_value_zeros, Hv, length_replicate.
    change (digits_value ["0"%char]) with 0. cbn [length].
    set (k := decpt - Z.of_nat (length l)).
    rewrite <- (decimal_to_float_shift neg D k) by lia. f_equal.
    rewrite Z.pow_add_r, Z2Nat.id by lia. lia.
Qed.

(** A character [float()] neither strips nor reads as a separator. *)
Definition plain (c : ascii) : Prop := is_py_space c = false /\ c <> "_"%char.

Lemma digits_plain l : Forall is_digit l -> Forall plain l.
Proof.
  intros Hl. eapply Forall_impl; [exact Hl|]. intros c Hc. split; [by apply digit_not_space|].
  exact (proj2 (digit_not_sign c [] Hc)).
Qed.

Lemma format_short_plain l decpt : Forall is_digit l -> Forall plain (format_short l decpt).
Proof.
  intros Hl. pose proof (zeros_digits (Z.to_nat (- decpt))). pose proof (zeros_digits (Z.to_nat (decpt - Z.of_nat (length l)))).
  assert (Hm : forall ip fp, Forall is_digit ip -> Forall is_digit fp -> Forall plain (mantissa ip fp)).
  { intros ip fp Hip Hfp. unfold mantissa. apply Forall_app. split; [by apply digits_plain|].
    destruct fp; [done|]. constructor; [split; [reflexivity|discriminate]|by apply digits_plain]. }
  unfold format_short, zeros_l. repeat case_decide.
  - apply Forall_app. split; [apply Hm; by apply Forall_take || by apply Forall_drop|].
    unfold exponent_digits. destruct (digits_of_spec (Z.abs (decpt - 1)) ltac:(lia)) as (_ & Hd & _).
    apply Forall_cons; split; [split; [reflexivity|discriminate]|].
    apply Forall_cons; split; [case_decide; split; (reflexivity || discriminate)|].
    apply Forall_app. split; [|by apply digits_plain].
    case_decide; [apply digits_plain; repeat constructor; apply is_digit_zero|constructor].
  - apply Hm; [repeat constructor; apply is_digit_zero|]. by apply Forall_app.
  - apply Hm; by apply Forall_take || by apply Forall_drop.
  - apply Hm; [by apply Forall_app|repeat constructor; apply is_digit_zero].
Qed.

(** [float(s)] of a string of plain characters that is one decimal. *)
Lemma py_float_of_decimal s neg M E :
  Forall plain (list_ascii_of_string s) ->
  strtod_decimal (list_ascii_of_string s) = Some (neg, M, E, []) ->
  py_float s = Some (decimal_to_float neg M E).
Proof.
  intros Hp Hd. unfold py_float.
  rewrite decide_False by (intros Hin; rewrite Forall_forall in Hp; by destruct (Hp _ Hin)).
  cbn [mbind option_bind]. rewrite strip_spaces_none, Hd; [done|].
  eapply Forall_impl; [exact Hp|]. by intros c [? _].
Qed.

(** The digits found for a finite double are positive, without a
    trailing zero, and read back as it. *)
Lemma shortest_digits_positive x s m e D E :
  Prim2SF x = S754_finite s m e -> shortest_digits x s m e = Some (D, E) ->
  decimal_to_float s D E = x /\ 0 < D /\ D mod 10 <> 0.
Proof.
  intros Hx Hs. destruct (shortest_digits_spec _ _ _ _ _ Hs) as [Hback [HD0|[HD HD10]]]; cbn in *.
  - exfalso. subst D.
    assert (Hz : Prim2SF (decimal_to_float s 0 E) = S754_zero s)
      by (unfold decimal_to_float; destruct (Z.to_nat (- E)); cbn [drop_zeros];
          [|rewrite decide_False by (intros (_ & ? & _); done)]; unfold round_decimal;
          rewrite decide_True by done; apply Prim2SF_SF2Prim; by destruct s).
    rewrite Hback, Hx in Hz. discriminate Hz.
  - done.
Qed.

(** The decimal [float_repr] writes for a finite [x] reads back as [x]. *)
Lemma float_repr_finite x s m e c :
  Prim2SF x = S754_finite s m e -> shortest_digits x s m e = Some c -> py_float (float_repr x) = Some x.
Proof.
  intros Hx Hs. destruct c as [D E].
  destruct (shortest_digits_positive _ _ _ _ _ _ Hx Hs) as (Hback & HD & HD10).
  unfold float_repr. rewrite Hx, Hs.
  destruct (strtod_format_short s D (E + Z.of_nat (length (digits_of D))) HD HD10) as (M & E' & Hd & HM).
  unfold format_digits. rewrite (py_float_of_decimal _ s M E'); rewrite ?list_ascii_of_string_of_list_ascii.
  - rewrite HM, Z.add_simpl_r. by f_equal.
  - apply Forall_app. split; [destruct s; [apply Forall_cons; split; [split; [reflexivity|discriminate]|constructor]|constructor]|].
    apply format_short_plain. by destruct (digits_of_spec D ltac:(lia)) as (_ & ? & _).
  - exact Hd.
Qed.

(** [float(repr(x)) == x], for the lemmas that build on it. *)
Lemma float_repr_reads_back x : repr_exact x = true -> py_float (float_repr x) = Some x.
Proof.
  unfold repr_exact. destruct (Prim2SF x) as [[]|[]| |s m e] eqn:Hx; intros H;
    [rewrite <- (SF2Prim_Prim2SF x); unfold float_repr; rewrite Hx; vm_compute; reflexivity ..|].
  apply bool_decide_eq_true in H as [c Hc]. exact (float_repr_finite x s m e c Hx Hc).
Qed.

(** C18: Python's [float(repr(x)) == x]: the text [float_repr] writes for
    any double reads back, through [float()], as that double; zeros keep
    their sign, the infinities their sign, and NaN reads back as NaN. The
    hypothesis is that the digit search of [_Py_dg_dtoa] found the digits
    (at most 17 are needed for a double). *)
Theorem float_repr_roundtrip x : repr_exact x = true -> py_float (float_repr x) = Some x.
Proof. exact (float_repr_reads_back x). Qed.

Lemma float_repr_roundtrip_witness :
  repr_exact 1299.99%float = true /\ py_float (float_repr 1299.99%float) = Some 1299.99%float.
Proof. split; [vm_compute; reflexivity|apply float_repr_roundtrip; vm_compute; reflexivity]. Defined.
