(* ===== verification/Utf8.v ===== *)
(** * Utf8: the bytes of a body and the characters of a [str]

    [json.loads] on the bytes of a request body first picks an encoding
    with [json.detect_encoding] (a byte-order mark, or the zero bytes
    that UTF-16 and UTF-32 put in the first four bytes, else UTF-8) and
    decodes with the error handler [surrogatepass]: a lone surrogate is
    accepted as a character, any other malformed input raises
    [UnicodeDecodeError]. Starlette's [JSONResponse] encodes its text with
    [.encode("utf-8")], which refuses a lone surrogate.

    A character is its code point, a [Z]. A Python [str] is kept, where
    the development needs a [string] (names, descriptions, the [JStr] of
    a JSON value), as the generalized UTF-8 of its code points: UTF-8,
    with a surrogate written as the three bytes UTF-8 would give it. That
    is what CPython itself writes with [surrogatepass], and it keeps every
    [str], lone surrogates included. *)

From Stdlib Require Import ZArith String Ascii.
From stdpp Require Import base list strings.
From S2P Require Import Prelude.

Open Scope Z_scope.

(** ** Bytes *)

Definition byte (c : ascii) : Z := Z.of_nat (nat_of_ascii c).
Definition of_byte (z : Z) : ascii := ascii_of_nat (Z.to_nat z).

Definition is_cont (c : ascii) : bool := bool_decide (128 <= byte c < 192).
Definition cont (c : ascii) : Z := byte c - 128.

Definition is_surrogate (cp : Z) : bool := bool_decide (55296 <= cp <= 57343).
Definition is_high_surrogate (cp : Z) : bool := bool_decide (55296 <= cp <= 56319).
Definition is_low_surrogate (cp : Z) : bool := bool_decide (56320 <= cp <= 57343).

(** ** UTF-8 *)

(** The UTF-8 decoder; with [sp] ([surrogatepass]) the three-byte form of
    a surrogate is accepted. A lead byte fixes the length; the sequence
    must be of continuation bytes and give a code point of that length
    (no overlong form), at most [0x10FFFF]. [None] is the
    [UnicodeDecodeError]. *)
Fixpoint utf8_decode (sp : bool) (cs : list ascii) : option (list Z) :=
  match cs with
  | [] => Some []
  | c0 :: r =>
      let b0 := byte c0 in
      if decide (b0 < 128) then (b0 ::.) <$> utf8_decode sp r
      else if decide (194 <= b0 <= 223) then
        match r with
        | c1 :: r1 =>
            if is_cont c1 then ((b0 - 192) * 64 + cont c1 ::.) <$> utf8_decode sp r1 else None
        | [] => None
        end
      else if decide (224 <= b0 <= 239) then
        match r with
        | c1 :: c2 :: r2 =>
            let cp := (b0 - 224) * 4096 + cont c1 * 64 + cont c2 in
            if is_cont c1 && is_cont c2 && bool_decide (2048 <= cp) && (sp || negb (is_surrogate cp))
            then (cp ::.) <$> utf8_decode sp r2 else None
        | _ => None
        end
      else if decide (240 <= b0 <= 244) then
        match r with
        | c1 :: c2 :: c3 :: r3 =>
            let cp := (b0 - 240) * 262144 + cont c1 * 4096 + cont c2 * 64 + cont c3 in
            if is_cont c1 && is_cont c2 && is_cont c3 && bool_decide (65536 <= cp <= 1114111)
            then (cp ::.) <$> utf8_decode sp r3 else None
        | _ => None
        end
      else None
  end.

(** The bytes of one code point in (generalized) UTF-8. *)
Definition encode_cp (cp : Z) : list ascii :=
  if decide (cp < 128) then [of_byte cp]
  else if decide (cp < 2048) then [of_byte (192 + cp / 64); of_byte (128 + cp mod 64)]
  else if decide (cp < 65536) then
    [of_byte (224 + cp / 4096); of_byte (128 + (cp / 64) mod 64); of_byte (128 + cp mod 64)]
  else [of_byte (240 + cp / 262144); of_byte (128 + (cp / 4096) mod 64);
        of_byte (128 + (cp / 64) mod 64); of_byte (128 + cp mod 64)].

Definition wtf8_encode (cps : list Z) : list ascii := cps ≫= encode_cp.

(** [str.encode("utf-8")]: [None] is the [UnicodeEncodeError] of a lone
    surrogate. *)
Definition utf8_encode (cps : list Z) : option (list ascii) :=
  if existsb is_surrogate cps then None else Some (wtf8_encode cps).

(** The [str] a [string] of the development holds. *)
Definition chars_of (s : string) : option (list Z) := utf8_decode true (list_ascii_of_string s).

(** The [string] that holds a [str]. *)
Definition string_of_chars (cps : list Z) : string := string_of_list_ascii (wtf8_encode cps).

(** ** UTF-16 and UTF-32 *)

Inductive Endian := LE | BE.

Definition unit16 (e : Endian) (a b : ascii) : Z :=
  match e with LE => byte b * 256 + byte a | BE => byte a * 256 + byte b end.

(** The UTF-16 decoder with [surrogatepass]: a surrogate pair is joined,
    a lone surrogate is kept; an odd last byte is truncated data. *)
Fixpoint utf16_decode (e : Endian) (cs : list ascii) : option (list Z) :=
  match cs with
  | [] => Some []
  | a :: b :: r =>
      let u := unit16 e a b in
      match r with
      | a' :: b' :: r' =>
          let u' := unit16 e a' b' in
          if is_high_surrogate u && is_low_surrogate u'
          then ((u - 55296) * 1024 + (u' - 56320) + 65536 ::.) <$> utf16_decode e r'
          else (u ::.) <$> utf16_decode e r
      | _ => (u ::.) <$> utf16_decode e r
      end
  | [_] => None
  end.

(** The UTF-32 decoder with [surrogatepass]: a unit beyond [0x10FFFF], or
    a truncated one, is an error. *)
Fixpoint utf32_decode (e : Endian) (cs : list ascii) : option (list Z) :=
  match cs with
  | [] => Some []
  | a :: b :: c :: d :: r =>
      let u := match e with
               | LE => unit16 LE c d * 65536 + unit16 LE a b
               | BE => unit16 BE a b * 65536 + unit16 BE c d
               end in
      if decide (u <= 1114111) then (u ::.) <$> utf32_decode e r else None
  | _ => None
  end.

(** ** [json.detect_encoding] and the decoding of a body *)

Inductive Encoding := Utf8 | Utf8Sig | Utf16 | Utf16Of (e : Endian) | Utf32 | Utf32Of (e : Endian).

Definition bytes_of (l : list Z) : list ascii := of_byte <$> l.

Definition starts_with (p cs : list ascii) : bool := bool_decide (p `prefix_of` cs).

(** [detect_encoding(b)] (Lib/json/__init__.py). *)
Definition detect_encoding (b : list ascii) : Encoding :=
  if starts_with (bytes_of [0; 0; 254; 255]) b || starts_with (bytes_of [255; 254; 0; 0]) b then Utf32
  else if starts_with (bytes_of [254; 255]) b || starts_with (bytes_of [255; 254]) b then Utf16
  else if starts_with (bytes_of [239; 187; 191]) b then Utf8Sig
  else match b with
       | b0 :: b1 :: b2 :: b3 :: _ =>
           if decide (byte b0 = 0) then (if decide (byte b1 = 0) then Utf32Of BE else Utf16Of BE)
           else if decide (byte b1 = 0) then
             (if decide (byte b2 = 0 /\ byte b3 = 0) then Utf32Of LE else Utf16Of LE)
           else Utf8
       | [b0; b1] =>
           if decide (byte b0 = 0) then Utf16Of BE
           else if decide (byte b1 = 0) then Utf16Of LE
           else Utf8
       | _ => Utf8
       end.

(** [b.decode(detect_encoding(b), 'surrogatepass')]. The codecs [utf-16]
    and [utf-32] read the byte-order mark and drop it, as [utf-8-sig]
    drops its signature. *)
Definition decode_bytes (b : list ascii) : option (list Z) :=
  match detect_encoding b with
  | Utf8 => utf8_decode true b
  | Utf8Sig => utf8_decode true (drop 3 b)
  | Utf16 => utf16_decode (if starts_with (bytes_of [255; 254]) b then LE else BE) (drop 2 b)
  | Utf16Of e => utf16_decode e b
  | Utf32 => utf32_decode (if starts_with (bytes_of [255; 254; 0; 0]) b then LE else BE) (drop 4 b)
  | Utf32Of e => utf32_decode e b
  end.

(** ** Lemmas *)

Lemma byte_of_byte z : 0 <= z < 256 -> byte (of_byte z) = z.
Proof.
  intros Hz. unfold byte, of_byte. rewrite nat_ascii_embedding by lia. lia.
Qed.

Lemma of_byte_byte c : of_byte (byte c) = c.
Proof. unfold byte, of_byte. rewrite Nat2Z.id. apply ascii_nat_embedding. Qed.

Lemma byte_range c : 0 <= byte c < 256.
Proof. unfold byte. pose proof (nat_ascii_bounded c). lia. Qed.

(** A scalar value or a surrogate: what a [str] holds. *)
Definition code_point (cp : Z) : Prop := 0 <= cp <= 1114111.

(** Decoding one encoded code point in front of more bytes. *)
Lemma utf8_decode_encode_cp cp rest :
  code_point cp ->
  utf8_decode true (encode_cp cp ++ rest) = (cp ::.) <$> utf8_decode true rest.
Proof.
  unfold code_point, encode_cp. intros Hcp.
  repeat case_decide; cbn [app utf8_decode]; rewrite ?byte_of_byte by zlia;
    repeat first [rewrite decide_True by zlia | rewrite decide_False by zlia]; cbn; [done|..];
    unfold is_cont, cont; rewrite ?byte_of_byte by zlia; rewrite ?bool_decide_true by zlia;
    cbn; do 2 f_equal; zlia.
Qed.

(** Decoding inverts the encoding of any [str]. *)
Lemma utf8_decode_wtf8 cps : Forall code_point cps -> utf8_decode true (wtf8_encode cps) = Some cps.
Proof.
  induction 1 as [|cp cps Hcp _ IH]; [done|].
  change (wtf8_encode (cp :: cps)) with (encode_cp cp ++ wtf8_encode cps).
  by rewrite utf8_decode_encode_cp, IH.
Qed.

Lemma encode_cp_1 c0 : byte c0 < 128 -> encode_cp (byte c0) = [c0].
Proof. intros H. unfold encode_cp. rewrite decide_True by done. by rewrite of_byte_byte. Qed.

Lemma encode_cp_2 c0 c1 :
  194 <= byte c0 <= 223 -> is_cont c1 = true -> encode_cp ((byte c0 - 192) * 64 + cont c1) = [c0; c1].
Proof.
  unfold is_cont, cont. intros H0 H1%bool_decide_eq_true_1. unfold encode_cp.
  rewrite decide_False, decide_True by lia.
  replace (192 + _ / 64) with (byte c0) by zlia. replace (128 + _ mod 64) with (byte c1) by zlia.
  by rewrite !of_byte_byte.
Qed.

Lemma encode_cp_3 c0 c1 c2 :
  224 <= byte c0 <= 239 -> is_cont c1 = true -> is_cont c2 = true ->
  2048 <= (byte c0 - 224) * 4096 + cont c1 * 64 + cont c2 ->
  encode_cp ((byte c0 - 224) * 4096 + cont c1 * 64 + cont c2) = [c0; c1; c2].
Proof.
  unfold is_cont, cont. intros H0 H1%bool_decide_eq_true_1 H2%bool_decide_eq_true_1 H3. unfold encode_cp.
  rewrite decide_False, decide_False, decide_True by lia.
  replace (224 + _ / 4096) with (byte c0) by zlia. replace (128 + (_ / 64) mod 64) with (byte c1) by zlia.
  replace (128 + _ mod 64) with (byte c2) by zlia. by rewrite !of_byte_byte.
Qed.

Lemma encode_cp_4 c0 c1 c2 c3 :
  240 <= byte c0 <= 244 -> is_cont c1 = true -> is_cont c2 = true -> is_cont c3 = true ->
  65536 <= (byte c0 - 240) * 262144 + cont c1 * 4096 + cont c2 * 64 + cont c3 ->
  encode_cp ((byte c0 - 240) * 262144 + cont c1 * 4096 + cont c2 * 64 + cont c3) = [c0; c1; c2; c3].
Proof.
  unfold is_cont, cont. intros H0 H1%bool_decide_eq_true_1 H2%bool_decide_eq_true_1 H3%bool_decide_eq_true_1 H4.
  unfold encode_cp. rewrite !decide_False by lia.
  replace (240 + _ / 262144) with (byte c0) by zlia. replace (128 + (_ / 4096) mod 64) with (byte c1) by zlia.
  replace (128 + (_ / 64) mod 64) with (byte c2) by zlia. replace (128 + _ mod 64) with (byte c3) by zlia.
  by rewrite !of_byte_byte.
Qed.

Lemma wtf8_encode_cons cp cps : wtf8_encode (cp :: cps) = encode_cp cp ++ wtf8_encode cps.
Proof. reflexivity. Qed.

(** Encoding inverts a successful decoding: the bytes of a [string] are
    those of the [str] it holds. *)
Lemma wtf8_utf8_decode sp cs cps : utf8_decode sp cs = Some cps -> wtf8_encode cps = cs.
Proof.
  remember (length cs) as n eqn:Hn. revert cs cps Hn.
  induction n as [n IH] using lt_wf_ind. intros cs cps Hn.
  destruct cs as [|c0 r]; [by intros [= <-]|]. cbn [utf8_decode].
  repeat case_decide;
    repeat match goal with
    | |- (if ?b then _ else None) = Some _ -> _ => destruct b eqn:Hb; [|done]
    | |- match ?r with _ => _ end = Some _ -> _ => destruct r
    end;
    try done;
    match goal with |- cons ?cp <$> utf8_decode sp ?rest = Some _ -> _ =>
      destruct (utf8_decode sp rest) as [k|] eqn:Hk; [|done]; intros [= <-];
      rewrite wtf8_encode_cons, (IH (length rest) ltac:(cbn in Hn; lia) rest k eq_refl Hk)
    end; try rewrite !andb_true_iff in Hb.
  - rewrite encode_cp_1; [reflexivity|lia].
  - rewrite encode_cp_2; [reflexivity|lia|assumption].
  - destruct Hb as [[[? ?] ?%bool_decide_eq_true_1] _]. rewrite encode_cp_3; [reflexivity|lia|assumption..].
  - destruct Hb as [[[? ?] ?] ?%bool_decide_eq_true_1]. rewrite encode_cp_4; [reflexivity|lia|assumption..|lia].
Qed.

Lemma encode_cp_nonzero cp : code_point cp -> cp <> 0 -> Forall (fun c => byte c <> 0) (encode_cp cp).
Proof.
  unfold code_point, encode_cp. intros Hcp H0.
  repeat case_decide; repeat constructor; rewrite byte_of_byte; zlia.
Qed.

Lemma wtf8_encode_nonzero cps :
  Forall code_point cps -> Forall (fun cp => cp <> 0) cps -> Forall (fun c => byte c <> 0) (wtf8_encode cps).
Proof.
  induction 1 as [|cp cps Hcp _ IH]; intros Hnz; [constructor|]. apply Forall_cons in Hnz as [Hnz1 Hnz2].
  rewrite wtf8_encode_cons. apply Forall_app. split; [by apply encode_cp_nonzero|by apply IH].
Qed.

Lemma not_prefix_bytes_of z l c0 rest :
  byte c0 <> z -> 0 <= z < 256 -> starts_with (bytes_of (z :: l)) (c0 :: rest) = false.
Proof.
  intros Hne Hz. unfold starts_with. apply bool_decide_eq_false_2. intros [k Hk].
  injection Hk as Hc _. apply Hne. rewrite Hc. by apply byte_of_byte.
Qed.

(** A text that starts with an ASCII character and has no NUL is read as
    UTF-8. *)
Lemma detect_encoding_utf8 c0 rest :
  0 < byte c0 < 128 -> Forall (fun c => byte c <> 0) rest -> detect_encoding (c0 :: rest) = Utf8.
Proof.
  intros H0 Hr. unfold detect_encoding.
  rewrite !not_prefix_bytes_of by lia. cbn [orb].
  destruct rest as [|b1 [|b2 [|b3 rest']]]; [done|..];
    repeat match goal with H : Forall _ (_ :: _) |- _ => apply Forall_cons in H as [? H] end;
    rewrite ?decide_False by (intros ?; lia || naive_solver); reflexivity.
Qed.

(** The body bytes of a [str] that starts with an ASCII character and
    has no NUL decode back to it. *)
Lemma decode_bytes_wtf8 cp cps :
  0 < cp < 128 -> Forall code_point cps -> Forall (fun c => c <> 0) cps ->
  decode_bytes (wtf8_encode (cp :: cps)) = Some (cp :: cps).
Proof.
  intros Hcp Hv Hnz. unfold decode_bytes.
  assert (He : encode_cp cp = [of_byte cp]) by (unfold encode_cp; by rewrite decide_True by lia).
  rewrite wtf8_encode_cons, He. cbn [app]. rewrite detect_encoding_utf8.
  - change (of_byte cp :: wtf8_encode cps) with ([of_byte cp] ++ wtf8_encode cps).
    rewrite <- He, <- wtf8_encode_cons.
    apply utf8_decode_wtf8. constructor; [unfold code_point; lia|done].
  - rewrite byte_of_byte; lia.
  - by apply wtf8_encode_nonzero.
Qed.

(** A decoded [str] holds code points. *)
Lemma utf8_decode_code_points sp cs cps : utf8_decode sp cs = Some cps -> Forall code_point cps.
Proof.
  unfold code_point. remember (length cs) as n eqn:Hn. revert cs cps Hn.
  induction n as [n IH] using lt_wf_ind. intros cs cps Hn.
  destruct cs as [|c0 r]; [by intros [= <-]|]. cbn [utf8_decode]. pose proof (byte_range c0).
  repeat case_decide;
    repeat match goal with
    | |- (if ?b then _ else None) = Some _ -> _ => destruct b eqn:Hb; [|done]
    | |- match ?r with _ => _ end = Some _ -> _ => destruct r
    end;
    try done;
    match goal with |- cons ?cp <$> utf8_decode sp ?rest = Some _ -> _ =>
      destruct (utf8_decode sp rest) as [k|] eqn:Hk; [|done]; intros [= <-];
      constructor; [|exact (IH (length rest) ltac:(cbn in Hn; lia) rest k eq_refl Hk)]
    end;
    unfold is_cont, cont in *; rewrite ?andb_true_iff in *; repeat match goal with H : _ /\ _ |- _ => destruct H end;
    repeat match goal with H : bool_decide _ = true |- _ => apply bool_decide_eq_true_1 in H end;
    repeat match goal with c : ascii |- _ => pose proof (byte_range c); clear c end; lia.
Qed.
