(* ===== verification/Config.v ===== *)
(** * Config: the application object of src/main.py

    Lines 12-52 build the application: [FastAPI(...)] with its metadata
    and the URLs of the documentation (lines 12-34), the CORS middleware
    (lines 37-43), the templates directory (line 46), the static mount
    (line 49), and the directory that [os.makedirs] creates (line 52).
    The route decorators (lines 108, 112, 119, 137, 147, 169, 177) each
    add one route to [app.routes]. Lines 182-183 start uvicorn.

    This file holds that configuration as data, and [app_routes], the
    list that Starlette's router scans, in the order of [app.routes]:
    - first the routes [FastAPI.setup] adds for the documentation: the
      OpenAPI schema, Swagger UI, its OAuth2 redirect page and ReDoc;
    - then the [/static] mount, added at line 49;
    - then the seven decorated routes, in source order.
    A decorated route accepts only its method. A route that Starlette adds
    with no methods accepts [GET] and [HEAD].

    [cors_send] computes the headers that Starlette's [CORSMiddleware]
    adds to a response, with the arguments of lines 38-42. Theorems: every tag a route uses is declared in
    [openapi_tags]; no two routes share a method and a path; and the
    headers answer every origin with credentials allowed, echoing the
    origin when a cookie is sent. *)

From Stdlib Require Import ZArith String.
From stdpp Require Import strings.
From S2P Require Import Prelude.

Open Scope Z_scope.

(** ** [FastAPI(...)] (lines 12-34) *)

Record OpenAPITag : Type := mkTag { tag_name : string; tag_description : string }.

Record AppConfig : Type := mkAppConfig {
  title : string;
  description : string;
  version : string;
  docs_url : string;
  redoc_url : string;
  openapi_url : string;
  openapi_tags : list OpenAPITag;
  swagger_ui_parameters : list (string * Z)
}.

Definition app_config : AppConfig := {|
  title := "FastAPI Web Application";
  description := "A boilerplate for FastAPI applications";
  version := "0.1.0";
  docs_url := "/docs";
  redoc_url := "/redoc";
  openapi_url := "/openapi.json";
  openapi_tags := [mkTag "items" "Operations with items";
                   mkTag "forms" "Form submission operations";
                   mkTag "health" "Health check endpoints"];
  swagger_ui_parameters := [("defaultModelsExpandDepth", -1)]
|}.

(** [swagger_ui_oauth2_redirect_url], left at FastAPI's default. *)
Definition swagger_ui_oauth2_redirect_url : string := "/docs/oauth2-redirect".

(** ** Middleware, templates, static files (lines 36-52) *)

Record CORSConfig : Type := mkCORS {
  allow_origins : list string;
  allow_credentials : bool;
  allow_methods : list string;
  allow_headers : list string
}.

Definition cors_config : CORSConfig := mkCORS ["*"] true ["*"] ["*"].

(** [Jinja2Templates(directory="templates")]. *)
Definition templates_directory : string := "templates".

Record Mount : Type := mkMount { mount_path : string; mount_directory : string; mount_name : string }.

(** [app.mount("/static", StaticFiles(directory="static"), name="static")]. *)
Definition static_mount : Mount := mkMount "/static" "static" "static".

(** [os.makedirs("static/scripts", exist_ok=True)]. *)
Definition makedirs_path : string := "static/scripts".

(** [uvicorn.run("main:app", host="0.0.0.0", port=8000, reload=True)]. *)
Record UvicornConfig : Type := mkUvicorn { app_ref : string; host : string; port : Z; reload : bool }.

Definition uvicorn_config : UvicornConfig := mkUvicorn "main:app" "0.0.0.0" 8000 true.

(** ** The routes *)

(** A path template: a fixed path, a fixed prefix then one [{param}]
    segment, or a mount prefix. *)
Inductive Template : Type :=
| TExact (path : string)
| TParam (prefix : string) (param : string)
| TMount (prefix : string).

#[export] Instance Template_eq_dec : EqDecision Template.
Proof. solve_decision. Defined.

(** What a route runs. *)
Inductive Endpoint : Type :=
| EOpenAPI | ESwaggerUI | EOAuth2Redirect | EReDoc | EStatic
| EGetAllItems | EGetItem | ECreateItem | EGetContactForm | ESubmitForm
| EGetSubmissions | EHealthCheck.

#[export] Instance Endpoint_eq_dec : EqDecision Endpoint.
Proof. solve_decision. Defined.

(** A route of [app.routes]: its methods ([None] for a mount, which
    takes every method), template, tags, status code and endpoint. *)
Record RouteEntry : Type := mkRoute {
  r_methods : option (list string);
  r_template : Template;
  r_tags : list string;
  r_status : Z;
  r_endpoint : Endpoint
}.

(** [app.routes], in order. *)
Definition app_routes : list RouteEntry := [
  mkRoute (Some ["GET"; "HEAD"]) (TExact (openapi_url app_config)) [] 200 EOpenAPI;
  mkRoute (Some ["GET"; "HEAD"]) (TExact (docs_url app_config)) [] 200 ESwaggerUI;
  mkRoute (Some ["GET"; "HEAD"]) (TExact swagger_ui_oauth2_redirect_url) [] 200 EOAuth2Redirect;
  mkRoute (Some ["GET"; "HEAD"]) (TExact (redoc_url app_config)) [] 200 EReDoc;
  mkRoute None (TMount (mount_path static_mount)) [] 200 EStatic;
  (* @app.get('/items', response_model=List[Item], tags=["items"]) *)
  mkRoute (Some ["GET"]) (TExact "/items") ["items"] 200 EGetAllItems;
  (* @app.get('/items/{item_id}', response_model=Item, tags=["items"]) *)
  mkRoute (Some ["GET"]) (TParam "/items/" "item_id") ["items"] 200 EGetItem;
  (* @app.post('/items', ..., status_code=status.HTTP_201_CREATED, tags=["items"]) *)
  mkRoute (Some ["POST"]) (TExact "/items") ["items"] 201 ECreateItem;
  (* @app.get("/contact", response_class=HTMLResponse, tags=["forms"]) *)
  mkRoute (Some ["GET"]) (TExact "/contact") ["forms"] 200 EGetContactForm;
  (* @app.post("/submit-form", response_model=ContactForm, tags=["forms"]) *)
  mkRoute (Some ["POST"]) (TExact "/submit-form") ["forms"] 200 ESubmitForm;
  (* @app.get("/submissions", response_model=List[ContactForm], tags=["forms"]) *)
  mkRoute (Some ["GET"]) (TExact "/submissions") ["forms"] 200 EGetSubmissions;
  (* @app.get("/health", tags=["health"]) *)
  mkRoute (Some ["GET"]) (TExact "/health") ["health"] 200 EHealthCheck
].

(** ** CORS *)

(** A header list, names in lower case as Starlette stores them. *)
Abbreviation Headers := (list (string * string)).

(** [Headers.get]: the first value of a name. *)
Fixpoint header_get (k : string) (hs : Headers) : option string :=
  match hs with
  | [] => None
  | (k', v) :: hs' => if decide (k = k') then Some v else header_get k hs'
  end.

(** [MutableHeaders.__setitem__]: the first header of that name takes the
    value and the others are dropped; a new name goes at the end. *)
Fixpoint set_header (k v : string) (hs : Headers) : Headers :=
  match hs with
  | [] => [(k, v)]
  | (k', v') :: hs' =>
      if decide (k = k') then (k, v) :: filter (fun h => h.1 <> k) hs'
      else (k', v') :: set_header k v hs'
  end.

(** [MutableHeaders.add_vary_header]: append to an existing [Vary]. *)
Definition add_vary_header (vary : string) (hs : Headers) : Headers :=
  match header_get "vary" hs with
  | Some existing => set_header "vary" (existing +:+ ", " +:+ vary) hs
  | None => set_header "vary" vary hs
  end.

(** [CORSMiddleware.__init__]: [simple_headers] from the arguments. *)
Definition simple_headers (c : CORSConfig) : Headers :=
  (if bool_decide ("*" ∈ allow_origins c) then [("access-control-allow-origin", "*")] else []) ++
  (if allow_credentials c then [("access-control-allow-credentials", "true")] else []).

(** [CORSMiddleware.send] on the start of a response to a request with an
    [Origin] header (not a preflight): [headers.update(simple_headers)];
    then, if the request has a cookie and every origin is allowed, or the
    origin is one of the listed ones, [allow_explicit_origin]: the origin
    replaces ["*"] and [Vary: Origin] is added. *)
Definition cors_send (c : CORSConfig) (origin : string) (has_cookie : bool) (hs : Headers)
    : Headers :=
  let allow_all := bool_decide ("*" ∈ allow_origins c) in
  let hs1 := foldl (fun acc '(k, v) => set_header k v acc) hs (simple_headers c) in
  if (allow_all && has_cookie) || (negb allow_all && bool_decide (origin ∈ allow_origins c))
  then add_vary_header "Origin" (set_header "access-control-allow-origin" origin hs1)
  else hs1.

(** ** Lemmas on headers *)

Lemma header_get_filter k k' hs :
  k <> k' -> header_get k (filter (fun h => h.1 <> k') hs) = header_get k hs.
Proof.
  intros Hne. induction hs as [|[k1 v1] hs IH]; [done|].
  rewrite filter_cons. simpl. destruct (decide (k1 <> k')); simpl;
    destruct (decide (k = k1)); subst; done || congruence.
Qed.

Lemma header_get_set_eq k v hs : header_get k (set_header k v hs) = Some v.
Proof.
  induction hs as [|[k1 v1] hs IH]; simpl; [by rewrite decide_True|].
  destruct (decide (k = k1)); simpl; [by rewrite decide_True|].
  by rewrite decide_False.
Qed.

Lemma header_get_set_ne k k' v hs :
  k <> k' -> header_get k (set_header k' v hs) = header_get k hs.
Proof.
  intros Hne. induction hs as [|[k1 v1] hs IH]; simpl.
  - by rewrite decide_False.
  - destruct (decide (k' = k1)) as [<-|]; simpl.
    + rewrite !decide_False by done. by apply header_get_filter.
    + by destruct (decide (k = k1)).
Qed.

Lemma header_get_add_vary k v hs :
  k <> "vary" -> header_get k (add_vary_header v hs) = header_get k hs.
Proof.
  intros Hne. unfold add_vary_header.
  destruct (header_get "vary" hs); by apply header_get_set_ne.
Qed.

(** With the arguments of src/main.py and a cookie, the middleware sets
    the origin, then credentials, then the vary header. *)
Lemma cors_send_cookie origin hs :
  cors_send cors_config origin true hs =
  add_vary_header "Origin" (set_header "access-control-allow-origin" origin
    (set_header "access-control-allow-credentials" "true"
      (set_header "access-control-allow-origin" "*" hs))).
Proof. reflexivity. Qed.

(** ** Theorems *)

(** Every tag a route of the application uses is one of the tags
    declared in [openapi_tags], so each route appears under a documented
    group of the OpenAPI schema. *)
Theorem route_tags_declared :
  Forall (fun r => Forall (fun t => t ∈ tag_name <$> openapi_tags app_config) (r_tags r)) app_routes.
Proof. decide_vm. Qed.

(** No two routes of [app.routes] accept the same method on the same
    template, and the documentation URLs are not API paths: Starlette's
    first-match scan is not needed to break a tie. *)
Theorem routes_unambiguous :
  NoDup (flat_map (fun r => (fun m => (m, r_template r)) <$> default [] (r_methods r)) app_routes).
Proof. decide_vm. Qed.

(** C32: With [allow_origins=["*"]] and [allow_credentials=True], a
    request that carries a cookie from any origin gets that origin back in
    [Access-Control-Allow-Origin], with [Access-Control-Allow-Credentials:
    true]: every web site may read the application's responses to its
    users' credentialed requests. *)
Theorem cors_reflects_any_origin origin hs :
  header_get "access-control-allow-origin" (cors_send cors_config origin true hs) = Some origin /\
  header_get "access-control-allow-credentials" (cors_send cors_config origin true hs) = Some "true".
Proof.
  rewrite cors_send_cookie. split.
  - rewrite header_get_add_vary by done. apply header_get_set_eq.
  - rewrite header_get_add_vary, header_get_set_ne by done. apply header_get_set_eq.
Qed.
