(* ===== verification/Models.v ===== *)
(** * Models: the data of src/main.py

    The pydantic models [Item] and [ContactForm] (lines 55-84), FastAPI's
    [HTTPException] as the handlers raise it, and the module globals
    [items_db], [item_id_counter], [contact_submissions] (lines 87-89)
    together with standard output, as the record [Globals] that every
    handler reads and writes. [PyM] is the monad of handlers: an [St] on
    [Globals] raising [HTTPException]. *)

From Stdlib Require Import ZArith String PrimFloat.
From stdpp Require Import strings.
From S2P Require Import Prelude.

Open Scope Z_scope.

(** ** Pydantic models *)

(** [class Item(BaseModel)]: [id: Optional[int] = None], [name: str],
    [description: Optional[str] = None], [price: float]. *)
Module Item.
Record t : Type := mk {
  id : option Z;
  name : string;
  description : option string;
  price : float
}.
End Item.

(** [class ContactForm(BaseModel)]: four required [str] fields. *)
Module ContactForm.
Record t : Type := mk {
  name : string;
  email : string;
  subject : string;
  message : string
}.

#[export] Instance t_eq_dec : EqDecision t.
Proof. solve_decision. Defined.
End ContactForm.

(** ** FastAPI's exception, as the handlers raise it *)

Record HTTPException : Type := mkHTTPException {
  status_code : Z;
  detail : string
}.

(** ** Module globals *)

(** The module's global variables and the lines printed to standard output,
    oldest first. *)
Record Globals : Type := mkGlobals {
  items_db : list Item.t;
  item_id_counter : Z;
  contact_submissions : list ContactForm.t;
  stdout : list string
}.

(** [items_db = []], [item_id_counter = 4], [contact_submissions = []]:
    the globals as the module's top-level assignments leave them, before
    [initialize_db()] runs; nothing has been printed yet. *)
Definition module_globals : Globals :=
  {| items_db := []; item_id_counter := 4; contact_submissions := [];
     stdout := [] |}.

Definition set_items_db (l : list Item.t) (g : Globals) : Globals :=
  {| items_db := l; item_id_counter := item_id_counter g;
     contact_submissions := contact_submissions g; stdout := stdout g |}.

Definition set_item_id_counter (c : Z) (g : Globals) : Globals :=
  {| items_db := items_db g; item_id_counter := c;
     contact_submissions := contact_submissions g; stdout := stdout g |}.

Definition set_contact_submissions (l : list ContactForm.t) (g : Globals) : Globals :=
  {| items_db := items_db g; item_id_counter := item_id_counter g;
     contact_submissions := l; stdout := stdout g |}.

Definition set_stdout (l : list string) (g : Globals) : Globals :=
  {| items_db := items_db g; item_id_counter := item_id_counter g;
     contact_submissions := contact_submissions g; stdout := l |}.

(** Handlers: computations on the globals that may raise [HTTPException]. *)
Abbreviation PyM := (St Globals HTTPException).

(** [print(line)]: one more line on standard output. *)
Definition print (line : string) : PyM unit :=
  modify (fun g => set_stdout (stdout g ++ [line]) g).

(** [items_db.append(x)] and [contact_submissions.append(x)]. *)
Definition append_items_db (x : Item.t) : PyM unit :=
  modify (fun g => set_items_db (items_db g ++ [x]) g).

Definition append_contact_submissions (x : ContactForm.t) : PyM unit :=
  modify (fun g => set_contact_submissions (contact_submissions g ++ [x]) g).
