(* ===== verification/ItemStore.v ===== *)
(** * ItemStore: the item handlers of src/main.py

    [initialize_db] (lines 92-105), [get_all_items] (108-110), [get_item]
    (112-117) and [create_item] (119-134), each an [St] computation on the
    module globals, composed as the source composes them. The store
    invariant [store_inv]: every stored item has an id, the ids strictly
    increase along [items_db], and all are below [item_id_counter]. The
    theorems show that [create_item] keeps the invariant and give the
    behaviour of [get_item] on both branches, before and after a
    creation. They also describe the state [initialize_db] leaves, and
    what a second run of it would break. *)

From Stdlib Require Import ZArith String PrimFloat.
From stdpp Require Import strings pretty.
From S2P Require Import Prelude Models.

Open Scope Z_scope.

(** ** The handlers *)

(** The three seed items of [initialize_db] (lines 93-97). The decimal
    prices are rounded to the nearest double, as Python rounds them. *)
#[warnings="-inexact-float"]
Definition sample_items : list Item.t :=
  [ Item.mk (Some 1) "Laptop" (Some "High-performance gaming laptop") 1299.99%float;
    Item.mk (Some 2) "Smartphone" (Some "Latest model with advanced camera") 899.99%float;
    Item.mk (Some 3) "Coffee Maker"
            (Some "Programmable with multiple brewing options") 149.95%float ].

(** [def initialize_db()]: append the seed items one by one, then print how
    many items the database holds. *)
Definition initialize_db : PyM unit :=
  (for item in sample_items do append_items_db item)%py ;;
  n ← gets (fun g => length (items_db g));
  print ("Database initialized with " +:+ pretty n +:+ " items").

(** [async def get_all_items()]: [return items_db]. *)
Definition get_all_items : PyM (list Item.t) := gets items_db.

(** [item.id == item_id], where [item.id] is an [Optional[int]]: [None]
    equals no [int]. *)
Definition id_matches (item_id : Z) (item : Item.t) : bool :=
  match Item.id item with
  | Some i => i =? item_id
  | None => false
  end.

(** [for item in items_db: if item.id == item_id: return item]: the loop of
    [get_item], which stops at the first match. *)
Fixpoint scan_items (item_id : Z) (l : list Item.t) : option Item.t :=
  match l with
  | [] => None
  | item :: rest => if id_matches item_id item then Some item else scan_items item_id rest
  end.

(** [HTTPException(status_code=404, detail="Item not found")]. *)
Definition item_not_found : HTTPException := mkHTTPException 404 "Item not found".

(** [async def get_item(item_id: int)]: the scan, and the 404 after it. *)
Definition get_item (item_id : Z) : PyM Item.t :=
  g ← get;
  match scan_items item_id (items_db g) with
  | Some item => mret item
  | None => raise item_not_found
  end.

(** The [new_item] dict of [create_item] validated again as an [Item]:
    the caller's fields with [id] replaced by [c]. *)
Definition with_id (c : Z) (item : Item.t) : Item.t :=
  Item.mk (Some c) (Item.name item) (Item.description item) (Item.price item).

(** [async def create_item(item: Item)]: read the counter into [new_item],
    increment the counter, build [item_obj], append it, return it. *)
Definition create_item (item : Item.t) : PyM Item.t :=
  c ← gets item_id_counter;
  let new_item := with_id c item in
  modify (fun g => set_item_id_counter (item_id_counter g + 1) g) ;;
  append_items_db new_item ;;
  mret new_item.

(** ** The store invariant *)

(** The ids of a list of items, in order, [None]s dropped. *)
Definition item_ids (l : list Item.t) : list Z := omap Item.id l.

Definition store_inv (g : Globals) : Prop :=
  Forall (fun it => is_Some (Item.id it)) (items_db g) /\
  StronglySorted Z.lt (item_ids (items_db g)) /\
  Forall (fun i => i < item_id_counter g) (item_ids (items_db g)).

#[export] Instance store_inv_dec g : Decision (store_inv g).
Proof. unfold store_inv. apply _. Defined.

(** ** Lemmas on the data *)

Lemma item_ids_app l1 l2 : item_ids (l1 ++ l2) = item_ids l1 ++ item_ids l2.
Proof. apply omap_app. Qed.

Lemma item_ids_with_id c item : item_ids [with_id c item] = [c].
Proof. reflexivity. Qed.

Lemma id_matches_with_id c k item : id_matches k (with_id c item) = (c =? k).
Proof. reflexivity. Qed.

Lemma item_ids_cons x l :
  item_ids (x :: l) = match Item.id x with Some i => i :: item_ids l | None => item_ids l end.
Proof. reflexivity. Qed.

(** The scan finds an item with the id it looks for. *)
Lemma scan_items_Some k l item :
  scan_items k l = Some item -> Item.id item = Some k /\ item ∈ l.
Proof.
  induction l as [|x l IH]; simpl; [done|].
  unfold id_matches. destruct (Item.id x) as [i|] eqn:Hx; [destruct (Z.eqb_spec i k)|].
  - intros [= <-]. subst. split; [done|set_solver].
  - intros H. destruct (IH H). split; [done|set_solver].
  - intros H. destruct (IH H). split; [done|set_solver].
Qed.

(** The scan misses exactly when no item carries the id. *)
Lemma scan_items_None k l :
  scan_items k l = None <-> k ∉ item_ids l.
Proof.
  induction l as [|x l IH]; cbn [scan_items]; [set_solver|].
  rewrite item_ids_cons. unfold id_matches.
  destruct (Item.id x) as [i|]; [destruct (Z.eqb_spec i k)|]; subst.
  - split; [done|]. set_solver.
  - rewrite IH. set_solver.
  - exact IH.
Qed.

(** The scan of [l ++ l'] looks in [l'] only when [l] has no match. *)
Lemma scan_items_app k l l' :
  scan_items k (l ++ l') =
  match scan_items k l with Some it => Some it | None => scan_items k l' end.
Proof.
  induction l as [|x l IH]; simpl; [done|].
  by destruct (id_matches k x).
Qed.

(** Under unique ids, an id names at most one stored item. *)
Lemma item_ids_unique l k x y :
  NoDup (item_ids l) -> x ∈ l -> y ∈ l -> Item.id x = Some k -> Item.id y = Some k -> x = y.
Proof.
  induction l as [|z l IH]; [set_solver|]. rewrite item_ids_cons.
  intros Hnd Hx Hy Hxk Hyk.
  assert (Hin : forall w, w ∈ l -> Item.id w = Some k -> k ∈ item_ids l).
  { intros w Hw Hwk. unfold item_ids. apply list_elem_of_omap. by exists w. }
  apply elem_of_cons in Hx as [->|Hx], Hy as [->|Hy]; [done| | |].
  - rewrite Hxk in Hnd. apply NoDup_cons in Hnd as [Hn _]. by destruct Hn; eapply Hin.
  - rewrite Hyk in Hnd. apply NoDup_cons in Hnd as [Hn _]. by destruct Hn; eapply Hin.
  - apply IH; try done. destruct (Item.id z); [by apply NoDup_cons in Hnd as [_ ?]|done].
Qed.

(** An id carried by a stored item is in [item_ids]. *)
Lemma elem_of_item_ids l it k : it ∈ l -> Item.id it = Some k -> k ∈ item_ids l.
Proof. intros Hit Hk. unfold item_ids. apply list_elem_of_omap. by exists it. Qed.

(** When every item has an id, there are as many ids as items. *)
Lemma item_ids_length l : Forall (fun it => is_Some (Item.id it)) l -> length (item_ids l) = length l.
Proof.
  induction 1 as [|x l [i Hi] _ IH]; [done|].
  rewrite item_ids_cons, Hi. simpl. by rewrite IH.
Qed.

(** The invariant makes ids unique. *)
Lemma store_inv_NoDup g : store_inv g -> NoDup (item_ids (items_db g)).
Proof.
  intros (_ & Hs & _). induction Hs as [|x l Hs IH Hf]; constructor; [|done].
  intros Hx. rewrite Forall_forall in Hf. specialize (Hf x Hx). lia.
Qed.

(** The counter is fresh under the invariant. *)
Lemma store_inv_fresh g : store_inv g -> item_id_counter g ∉ item_ids (items_db g).
Proof.
  intros (_ & _ & Hb) Hin. rewrite Forall_forall in Hb.
  specialize (Hb _ Hin). lia.
Qed.

#[export] Hint Resolve store_inv_NoDup store_inv_fresh : py.

(** ** Invariant preservation *)

(** The state [create_item] leaves: the counter moved on by one and the new
    item at the end of [items_db]. *)
Definition after_create (item : Item.t) (g : Globals) : Globals :=
  {| items_db := items_db g ++ [with_id (item_id_counter g) item];
     item_id_counter := item_id_counter g + 1;
     contact_submissions := contact_submissions g;
     stdout := stdout g |}.

(** The state [create_item] leaves satisfies the invariant when the state
    it started from does. *)
Lemma store_inv_after_create item g : store_inv g -> store_inv (after_create item g).
Proof.
  intros (Hsome & Hs & Hb). unfold store_inv. simpl.
  rewrite !item_ids_app, item_ids_with_id. split_and!.
  - apply Forall_app. split; [done|]. apply Forall_singleton. by eexists.
  - by apply StronglySorted_snoc.
  - apply Forall_app. split; [|repeat constructor; lia].
    eapply Forall_impl; [exact Hb|]. simpl. lia.
Qed.

(** C4: [create_item] keeps the store invariant: the new id is the counter,
    above every stored id, and the counter moves past it. *)
Theorem create_item_preserves_inv item : preserves store_inv (create_item item).
Proof. intros g Hinv. exact (store_inv_after_create item g Hinv). Qed.

(** The seed state, which satisfies the invariant, stays valid after a
    creation. *)
Lemma create_item_preserves_inv_witness :
  store_inv (exec initialize_db module_globals) /\
  store_inv (exec (create_item (Item.mk (Some 99) "Tablet" None 299.0%float))
                  (exec initialize_db module_globals)).
Proof.
  split; [decide_vm|].
  apply (create_item_preserves_inv (Item.mk (Some 99) "Tablet" None 299.0%float)).
  decide_vm.
Defined.



(** ** Runs of the handlers *)

Lemma create_item_run item g :
  create_item item g = (Ok (with_id (item_id_counter g) item), after_create item g).
Proof. reflexivity. Qed.

Lemma get_item_run k g :
  get_item k g = (match scan_items k (items_db g) with
                  | Some it => Ok it
                  | None => Err item_not_found
                  end, g).
Proof. unfold get_item. run_py. by destruct (scan_items k (items_db g)). Qed.

(** The loop of [initialize_db] appends the seed items in order. *)
Lemma for_append_items l g :
  (for item in l do append_items_db item)%py g =
  (Ok tt, set_items_db (items_db g ++ l) g).
Proof.
  revert g. induction l as [|x l IH]; intros g; simpl.
  - by rewrite app_nil_r; destruct g.
  - rewrite run_bind. simpl. rewrite IH. unfold set_items_db. simpl. by rewrite <- app_assoc.
Qed.

Lemma initialize_db_run g :
  initialize_db g =
  (Ok tt, {| items_db := items_db g ++ sample_items;
             item_id_counter := item_id_counter g;
             contact_submissions := contact_submissions g;
             stdout := stdout g ++ ["Database initialized with " +:+
                                    pretty (length (items_db g ++ sample_items))
                                    +:+ " items"] |}).
Proof. unfold initialize_db. rewrite run_bind, for_append_items. reflexivity. Qed.

(** ** Theorems *)

(** C5: [get_item k] misses, raising [HTTPException(404, "Item not found")]
    and leaving the globals as they were, exactly when no stored item has
    id [k]. *)
Theorem get_item_not_found k g :
  get_item k g = (Err item_not_found, g) <-> k ∉ item_ids (items_db g).
Proof.
  rewrite get_item_run, <- scan_items_None.
  destruct (scan_items k (items_db g)); split; congruence.
Qed.

(** C10: under the invariant, [get_item k] returns [it], leaving the globals
    unchanged, exactly when [it] is a stored item with id [k]. *)
Theorem get_item_found k it g :
  store_inv g -> get_item k g = (Ok it, g) <-> it ∈ items_db g /\ Item.id it = Some k.
Proof.
  intros Hinv. rewrite get_item_run. split.
  - destruct (scan_items k (items_db g)) eqn:Hs; [|done].
    intros [= <-]. apply scan_items_Some in Hs as []. done.
  - intros [Hit Hk]. destruct (scan_items k (items_db g)) as [it'|] eqn:Hs.
    + apply scan_items_Some in Hs as [Hk' Hit'].
      f_equal. f_equal. eapply item_ids_unique; eauto with py.
    + apply scan_items_None in Hs. by destruct Hs; eapply elem_of_item_ids.
Qed.

(** In the seed state, [get_item 2] returns the smartphone. *)
Lemma get_item_found_witness :
  store_inv (exec initialize_db module_globals) /\
  (get_item 2 (exec initialize_db module_globals) =
     (Ok (nth 1 sample_items (Item.mk None "" None 0%float)), exec initialize_db module_globals)
   <-> nth 1 sample_items (Item.mk None "" None 0%float) ∈ items_db (exec initialize_db module_globals) /\
       Item.id (nth 1 sample_items (Item.mk None "" None 0%float)) = Some 2).
Proof.
  split; [decide_vm|]. apply get_item_found. decide_vm.
Defined.


(** C11: under the invariant, after [create_item item] hands out id [c],
    [get_item c] returns the created item and every other id answers as
    before the creation. *)
Theorem get_item_after_create item k g :
  store_inv g ->
  fst (get_item k (exec (create_item item) g)) =
  if decide (k = item_id_counter g) then Ok (with_id (item_id_counter g) item)
  else fst (get_item k g).
Proof.
  intros Hinv. unfold exec. rewrite create_item_run, !get_item_run. simpl.
  rewrite scan_items_app. simpl. rewrite id_matches_with_id.
  destruct (decide (k = item_id_counter g)) as [->|Hne].
  - rewrite (proj2 (scan_items_None _ _)) by eauto with py. by rewrite Z.eqb_refl.
  - destruct (scan_items k (items_db g)); [done|].
    destruct (Z.eqb_spec (item_id_counter g) k); [lia|done].
Qed.

(** In the seed state, creating an item makes id 4 answer it, and id 2
    still answers the smartphone. *)
Lemma get_item_after_create_witness :
  store_inv (exec initialize_db module_globals) /\
  fst (get_item 4 (exec (create_item (Item.mk None "Tablet" None 299.0%float))
                         (exec initialize_db module_globals))) =
    Ok (with_id 4 (Item.mk None "Tablet" None 299.0%float)).
Proof.
  split; [decide_vm|].
  rewrite (get_item_after_create (Item.mk None "Tablet" None 299.0%float) 4
             (exec initialize_db module_globals)) by decide_vm.
  reflexivity.
Defined.


(** C19: [create_item] ignores the [id] the caller sends: the run is the same
    whatever the body's [id] field holds. *)
Theorem create_item_ignores_id i n d p g :
  create_item (Item.mk i n d p) g = create_item (Item.mk None n d p) g.
Proof. by rewrite !create_item_run. Qed.

(** importing the module leaves the three seed items with ids 1, 2, 3 in
    order, the counter at 4, no submission, and the one line printed by
    [initialize_db]. *)
Theorem initialize_db_seed :
  initialize_db module_globals =
  (Ok tt, {| items_db := sample_items; item_id_counter := 4;
             contact_submissions := []; stdout := ["Database initialized with 3 items"] |}).
Proof. rewrite initialize_db_run. reflexivity. Qed.

(** the state [initialize_db] leaves satisfies the store invariant. *)
Theorem initialize_db_establishes_inv : store_inv (exec initialize_db module_globals).
Proof. unfold exec. rewrite initialize_db_run. decide_vm. Qed.

(** [initialize_db] is not idempotent: the counter is set once at module
    level, not by [initialize_db], so a second call appends ids 1, 2, 3 again
    and the invariant fails. *)
Theorem initialize_db_twice_breaks_inv :
  ~ store_inv (exec initialize_db (exec initialize_db module_globals)).
Proof. unfold exec. rewrite !initialize_db_run. simpl. decide_vm. Qed.
