(* ===== verification/ItemStoreSpec.v ===== *)
(** * ItemStoreSpec: the abstract item store and the contract of the handlers

    The spec (§4.1) describes the store as a set of items keyed by id,
    plus a counter. [AStore] is that abstract state: a [gmap Z Item.t] and
    the next id. [acreate] and [aget] are its operations. [abstract] maps
    the module globals to it: the scan of [get_item] takes the first match,
    and [list_to_map] also lets the first pair for a key win, so
    [get_item] is a map lookup on every list. [create_item] is an
    insertion at a fresh key only under [store_inv], and the refinement
    theorem assumes it.

    The class [ItemService] is what the request layer ([App]) relies on:
    the item handlers, an invariant and an abstract view, with the laws
    that the handlers implement [aget]/[acreate] on the view and touch
    nothing outside the item globals. [item_service] is the instance
    built from the handlers of [ItemStore]. *)

From Stdlib Require Import ZArith String PrimFloat.
From stdpp Require Import gmap strings.
From S2P Require Import Prelude Models ItemStore.

Open Scope Z_scope.

(** ** The abstract store *)

Record AStore : Type := mkAStore {
  amap : gmap Z Item.t;
  anext : Z
}.

(** Get by id: a lookup. *)
Definition aget (k : Z) (a : AStore) : option Item.t := amap a !! k.

(** Create: the item under the next id, which then moves on. *)
Definition acreate (item : Item.t) (a : AStore) : Item.t * AStore :=
  let it := with_id (anext a) item in
  (it, mkAStore (<[anext a := it]> (amap a)) (anext a + 1)).

(** The abstract invariant: every key is below the next id. *)
Definition ainv (a : AStore) : Prop := forall k, k ∈ dom (amap a) -> k < anext a.

(** The pairs [(id, item)] of the items that have an id, in order. *)
Definition keyed_items (l : list Item.t) : list (Z * Item.t) :=
  omap (fun it => (fun i => (i, it)) <$> Item.id it) l.

(** The map of [items_db]: the first item of each id. *)
Definition abs_items (l : list Item.t) : gmap Z Item.t := list_to_map (keyed_items l).

Definition abstract (g : Globals) : AStore :=
  mkAStore (abs_items (items_db g)) (item_id_counter g).

(** ** Lemmas on the abstraction *)

Lemma keyed_items_fst l : (keyed_items l).*1 = item_ids l.
Proof.
  induction l as [|x l IH]; [done|].
  rewrite item_ids_cons. unfold keyed_items. simpl.
  destruct (Item.id x); simpl; [f_equal|]; exact IH.
Qed.

Lemma abs_items_cons x l :
  abs_items (x :: l) =
  match Item.id x with Some i => <[i := x]> (abs_items l) | None => abs_items l end.
Proof. unfold abs_items, keyed_items. simpl. by destruct (Item.id x). Qed.

(** Appending an item under a fresh id inserts it in the map. *)
Lemma abs_items_snoc l c item :
  c ∉ item_ids l -> abs_items (l ++ [with_id c item]) = <[c := with_id c item]> (abs_items l).
Proof.
  intros Hc. unfold abs_items, keyed_items. rewrite omap_app. simpl.
  apply list_to_map_snoc. fold (keyed_items l). by rewrite keyed_items_fst.
Qed.

Lemma dom_abs_items l : dom (abs_items l) = list_to_set (item_ids l).
Proof.
  unfold abs_items. rewrite dom_list_to_map_L. f_equal. apply keyed_items_fst.
Qed.

(** ** Refinement *)

(** The linear scan of [get_item] is a lookup in the map of [items_db], on
    every list, duplicate ids included. *)
Lemma scan_items_lookup k l : scan_items k l = abs_items l !! k.
Proof.
  induction l as [|x l IH]; [done|]. rewrite abs_items_cons. simpl.
  unfold id_matches. destruct (Item.id x) as [i|]; [|exact IH].
  destruct (Z.eqb_spec i k) as [->|Hne].
  - by rewrite lookup_insert_eq.
  - by rewrite lookup_insert_ne.
Qed.

(** C9: [get_item] refines [aget]: it returns the item the abstract store
    holds under [k] and raises [item_not_found] when it holds none. The
    globals are left unchanged. *)
Theorem get_item_refines k g :
  get_item k g = (match aget k (abstract g) with
                  | Some it => Ok it
                  | None => Err item_not_found
                  end, g).
Proof. rewrite get_item_run. unfold aget. simpl. by rewrite scan_items_lookup. Qed.

(** The invariant of the globals gives the abstract invariant. *)
Lemma store_inv_ainv g : store_inv g -> ainv (abstract g).
Proof.
  intros (_ & _ & Hb) k. simpl. rewrite dom_abs_items, elem_of_list_to_set.
  rewrite Forall_forall in Hb. apply Hb.
Qed.

(** C8: under the invariant, [create_item] refines [acreate]: it returns
    the abstract result, and the abstraction of the new globals is the
    new abstract store. *)
Theorem create_item_refines item g :
  store_inv g ->
  fst (create_item item g) = Ok (fst (acreate item (abstract g))) /\
  abstract (exec (create_item item) g) = snd (acreate item (abstract g)).
Proof.
  intros Hinv. unfold exec. rewrite create_item_run. split; [done|].
  unfold abstract, acreate. simpl. f_equal. apply abs_items_snoc. eauto with py.
Qed.

(** From the seed state, the creation refines [acreate]. *)
Lemma create_item_refines_witness :
  store_inv (exec initialize_db module_globals) /\
  abstract (exec (create_item (Item.mk None "Tablet" None 299.0%float))
                 (exec initialize_db module_globals)) =
  snd (acreate (Item.mk None "Tablet" None 299.0%float)
               (abstract (exec initialize_db module_globals))).
Proof.
  split; [decide_vm|].
  apply (create_item_refines (Item.mk None "Tablet" None 299.0%float)). decide_vm.
Defined.


(** ** The contract of the item handlers *)

(** What the request layer needs from the item handlers. *)
Class ItemService : Type := {
  svc_initialize : PyM unit;
  svc_get_all : PyM (list Item.t);
  svc_get : Z -> PyM Item.t;
  svc_create : Item.t -> PyM Item.t;
  svc_inv : Globals -> Prop;
  svc_view : Globals -> AStore;

  (** The invariant and the view depend on the item globals only. *)
  svc_frame g g' :
    items_db g' = items_db g -> item_id_counter g' = item_id_counter g ->
    (svc_inv g' <-> svc_inv g) /\ svc_view g' = svc_view g;
  (** Importing the module: the seed store, and nothing else changes. *)
  svc_initialize_inv : svc_inv (exec svc_initialize module_globals);
  svc_initialize_view :
    svc_view (exec svc_initialize module_globals) = mkAStore (abs_items sample_items) 4;
  svc_initialize_submissions :
    contact_submissions (exec svc_initialize module_globals) = [];
  (** Listing returns the store and changes nothing. *)
  svc_get_all_run g : exists l, svc_get_all g = (Ok l, g) /\ abs_items l = amap (svc_view g);
  (** Get by id is [aget] on the view, and changes nothing. *)
  svc_get_run k g :
    svc_inv g ->
    svc_get k g = (match aget k (svc_view g) with
                   | Some it => Ok it
                   | None => Err item_not_found
                   end, g);
  (** Create is [acreate] on the view, keeps the invariant and the rest. *)
  svc_create_run item g :
    svc_inv g ->
    fst (svc_create item g) = Ok (fst (acreate item (svc_view g))) /\
    svc_view (exec (svc_create item) g) = snd (acreate item (svc_view g)) /\
    svc_inv (exec (svc_create item) g) /\
    contact_submissions (exec (svc_create item) g) = contact_submissions g /\
    stdout (exec (svc_create item) g) = stdout g;
  (** The view of an invariant state satisfies the abstract invariant. *)
  svc_ainv g : svc_inv g -> ainv (svc_view g)
}.

(** ** The handlers of src/main.py meet the contract *)

#[export] Program Instance item_service : ItemService := {|
  svc_initialize := initialize_db;
  svc_get_all := get_all_items;
  svc_get := get_item;
  svc_create := create_item;
  svc_inv := store_inv;
  svc_view := abstract
|}.
Next Obligation.
  intros g g' Hi Hc. unfold store_inv, abstract. rewrite Hi, Hc. done.
Qed.
Next Obligation. unfold exec. rewrite initialize_db_run. decide_vm. Qed.
Next Obligation. unfold exec. by rewrite initialize_db_run. Qed.
Next Obligation. unfold exec. by rewrite initialize_db_run. Qed.
Next Obligation. intros g. by exists (items_db g). Qed.
Next Obligation.
  intros k g _. rewrite get_item_run. unfold aget. simpl. by rewrite scan_items_lookup.
Qed.
Next Obligation.
  intros item g Hinv. unfold exec. rewrite create_item_run. simpl.
  split_and!; [done| |by apply store_inv_after_create|done|done].
  unfold abstract, acreate. simpl. f_equal. apply abs_items_snoc. eauto with py.
Qed.
Next Obligation. exact store_inv_ainv. Qed.

(** ** The loop of [get_item] against [list_find] *)

(** The hand-written scan is stdpp's [list_find] on the id. *)
Lemma scan_items_list_find k l :
  scan_items k l = snd <$> list_find (fun it => Item.id it = Some k) l.
Proof.
  induction l as [|x l IH]; [done|]. simpl. rewrite IH. unfold id_matches.
  destruct (Item.id x) as [i|].
  - destruct (Z.eqb_spec i k) as [->|Hne].
    + by rewrite decide_True.
    + rewrite decide_False by congruence. by destruct (list_find _ l).
  - rewrite decide_False by done. by destruct (list_find _ l).
Qed.

