(* ===== verification/SubmissionLog.v ===== *)
(** * SubmissionLog: the contact-form handlers of src/main.py

    [submit_form] (lines 147-167) builds a [ContactForm] from the four form
    fields, appends it to [contact_submissions] and prints a notice.
    [get_submissions] (lines 169-174) returns the list. The theorem gives
    the run of [submit_form]: the record returned and appended, the notice
    printed, and nothing else changed. *)

From Stdlib Require Import ZArith String.
From stdpp Require Import strings.
From S2P Require Import Prelude Models.

(** [print(f"Form submitted by {name} ({email}): {subject}")]. *)
Definition submission_notice (name email subject : string) : string :=
  "Form submitted by " +:+ name +:+ " (" +:+ email +:+ "): " +:+ subject.

(** [async def submit_form(name, email, subject, message)]: build
    [form_data], append it, print the notice, return [form_data]. *)
Definition submit_form (name email subject message : string) : PyM ContactForm.t :=
  let form_data := ContactForm.mk name email subject message in
  append_contact_submissions form_data ;;
  print (submission_notice name email subject) ;;
  mret form_data.

(** [async def get_submissions()]: [return contact_submissions]. *)
Definition get_submissions : PyM (list ContactForm.t) := gets contact_submissions.

(** ** Runs *)

(** The state [submit_form] leaves. *)
Definition after_submit (name email subject message : string) (g : Globals) : Globals :=
  {| items_db := items_db g;
     item_id_counter := item_id_counter g;
     contact_submissions := contact_submissions g ++ [ContactForm.mk name email subject message];
     stdout := stdout g ++ [submission_notice name email subject] |}.

Lemma submit_form_run n e s m g :
  submit_form n e s m g = (Ok (ContactForm.mk n e s m), after_submit n e s m g).
Proof. reflexivity. Qed.

(** ** Theorems *)

(** [submit_form] echoes the submitted record. It appends that record
    as the last submission and prints one line, "Form submitted by NAME
    (EMAIL): SUBJECT". It leaves the item globals alone. *)
Theorem submit_form_spec n e s m g :
  let f := ContactForm.mk n e s m in
  submit_form n e s m g = (Ok f, set_stdout (stdout g ++ [submission_notice n e s])
                                   (set_contact_submissions (contact_submissions g ++ [f]) g)).
Proof. reflexivity. Qed.
