(* ===== verification/App.v ===== *)
(** * App: the routes of src/main.py and runs of the server

    The seven routes (lines 108-179) are the constructors of [Request],
    carrying their typed path parameter, body or form fields. [route] runs
    the handler a request names and wraps its value in the status code the
    decorator sets: 201 for [POST /items], 200 otherwise. [dispatch] adds
    FastAPI's handling of [HTTPException]: the response carries the
    exception's status and [{"detail": ...}]. [boot] is the state after the
    module is imported ([initialize_db()] on the module globals). [serve]
    runs a sequence of requests one after the other. The handlers have no
    [await], so the event loop never interleaves two of them. [reachable]
    is the set of states the server can be in after any run.

    The request layer is written against the class [ItemService], so its
    lemmas hold for any item store that keeps the contract. The theorems
    at the end instantiate them with the handlers of src/main.py. *)

From Stdlib Require Import ZArith String PrimFloat.
From stdpp Require Import gmap strings.
From S2P Require Import Prelude Models ItemStore ItemStoreSpec SubmissionLog.

Open Scope Z_scope.

(** ** Requests and responses *)

(** One constructor per route, with the parameters FastAPI has decoded. *)
Inductive Request : Type :=
| GET_items                                          (* GET /items *)
| GET_item (item_id : Z)                             (* GET /items/{item_id} *)
| POST_items (item : Item.t)                         (* POST /items *)
| GET_contact                                        (* GET /contact *)
| POST_submit_form (name email subject message : string)  (* POST /submit-form *)
| GET_submissions                                    (* GET /submissions *)
| GET_health.                                        (* GET /health *)

(** The value a handler returns, or the detail of an exception, before
    FastAPI encodes it. *)
Inductive Body : Type :=
| BItems (l : list Item.t)
| BItem (it : Item.t)
| BTemplate (template : string) (context : list (string * string))
| BForm (f : ContactForm.t)
| BForms (l : list ContactForm.t)
| BDict (d : list (string * string))
| BDetail (detail : string).

Record Response : Type := mkResponse {
  resp_status : Z;
  resp_body : Body
}.

(** ** The handlers that touch no global *)

(** [async def get_contact_form(request)]: the template and its context;
    the [request] entry of the context is not modelled. *)
Definition get_contact_form : PyM Body :=
  mret (BTemplate "contact_form.html" [("title", "Contact Us")]).

(** [async def health_check()]: [{"status": "healthy"}]. *)
Definition health_check : PyM (list (string * string)) :=
  mret [("status", "healthy")].

(** FastAPI's response to [raise HTTPException(status_code, detail)]. *)
Definition http_exception_response (e : HTTPException) : Response :=
  mkResponse (status_code e) (BDetail (detail e)).

(** ** Abstract effects of a request *)

(** What a request does to the abstract item store. *)
Definition view_effect (r : Request) (a : AStore) : AStore :=
  match r with
  | POST_items item => snd (acreate item a)
  | _ => a
  end.

(** What a request does to the submission log. *)
Definition log_effect (r : Request) (l : list ContactForm.t) : list ContactForm.t :=
  match r with
  | POST_submit_form n e s m => l ++ [ContactForm.mk n e s m]
  | _ => l
  end.

(** The form a request submits, if it is a submission. *)
Definition form_of (r : Request) : option ContactForm.t :=
  match r with
  | POST_submit_form n e s m => Some (ContactForm.mk n e s m)
  | _ => None
  end.

(** The forms a sequence of requests submits, in order. *)
Definition submitted_forms (rs : list Request) : list ContactForm.t := omap form_of rs.

(** The notice [submit_form] prints for a form. *)
Definition form_notice (f : ContactForm.t) : string :=
  submission_notice (ContactForm.name f) (ContactForm.email f) (ContactForm.subject f).

(** Whether a request creates an item. *)
Definition is_post (r : Request) : bool :=
  match r with POST_items _ => true | _ => false end.

(** How many items a sequence of requests creates. *)
Definition count_posts (rs : list Request) : nat :=
  length (filter (fun r => is_post r = true) rs).

(** The ids of the items created, read off the 201 responses. *)
Definition created_ids (resps : list Response) : list Z :=
  omap (fun resp => match resp with
                    | mkResponse 201 (BItem it) => Item.id it
                    | _ => None
                    end) resps.

(** The item of the spec's scenario (§8), as a [POST /items] body. *)
Definition tablet : Item.t := Item.mk None "Tablet" (Some "10-inch") 299.0%float.

(** The form of the spec's scenario (§8). *)
Definition jane : ContactForm.t := ContactForm.mk "Jane" "jane@x.com" "Hi" "Question".

(** The response a request gets from abstract store [a]: 201 with the
    created item for a creation, the stored item or the 404 for a lookup,
    200 otherwise. *)
Definition expected_response (r : Request) (a : AStore) (resp : Response) : Prop :=
  match r with
  | POST_items item => resp = mkResponse 201 (BItem (fst (acreate item a)))
  | GET_item k =>
      resp = match aget k a with
             | Some it => mkResponse 200 (BItem it)
             | None => http_exception_response item_not_found
             end
  | _ => resp_status resp = 200
  end.

(** ** Lemmas on the abstract effects *)

Lemma view_effect_anext r a :
  anext (view_effect r a) = anext a + (if is_post r then 1 else 0).
Proof. destruct r; simpl; lia. Qed.

Lemma view_effect_ainv r a : ainv a -> ainv (view_effect r a).
Proof.
  intros Ha k. destruct r; simpl; try apply Ha.
  rewrite dom_insert_L, elem_of_union, elem_of_singleton.
  intros [->|Hk]; [lia|]. specialize (Ha k Hk). lia.
Qed.

(** A request never removes or changes a stored item. *)
Lemma view_effect_mono r a : ainv a -> amap a ⊆ amap (view_effect r a).
Proof.
  intros Ha. destruct r; simpl; try done.
  apply insert_subseteq, not_elem_of_dom. intros Hk. specialize (Ha _ Hk). lia.
Qed.

Lemma foldl_view_mono rs a :
  ainv a -> amap a ⊆ amap (foldl (fun a r => view_effect r a) a rs).
Proof.
  revert a. induction rs as [|r rs IH]; intros a Ha; simpl; [done|].
  etrans; [by apply view_effect_mono|]. by apply IH, view_effect_ainv.
Qed.

Lemma log_effect_form r l : log_effect r l = l ++ option_list (form_of r).
Proof. destruct r; simpl; by rewrite ?app_nil_r. Qed.

Lemma foldl_log_effect rs l :
  foldl (fun l r => log_effect r l) l rs = l ++ submitted_forms rs.
Proof.
  revert l. induction rs as [|r rs IH]; intros l; simpl; [by rewrite app_nil_r|].
  rewrite IH, log_effect_form, <- app_assoc. by destruct (form_of r).
Qed.

Lemma count_posts_cons r rs :
  count_posts (r :: rs) = ((if is_post r then 1 else 0) + count_posts rs)%nat.
Proof. unfold count_posts. rewrite filter_cons. by destruct (is_post r). Qed.

Lemma created_ids_cons resp resps :
  created_ids (resp :: resps) = created_ids [resp] ++ created_ids resps.
Proof. unfold created_ids. rewrite <- omap_app. done. Qed.

(** Only a creation answers 201, and it answers with the next id. *)
Lemma expected_created_ids r a resp :
  expected_response r a resp -> created_ids [resp] = if is_post r then [anext a] else [].
Proof.
  destruct r; simpl; try (intros ->; reflexivity);
    try (destruct resp as [st b]; simpl; intros ->; reflexivity).
  intros ->. by destruct (aget _ a).
Qed.

Section server.
Context `{!ItemService}.

(** The decorated route functions, each returning its status code. *)
Definition route (r : Request) : PyM Response :=
  match r with
  | GET_items => l ← svc_get_all; mret (mkResponse 200 (BItems l))
  | GET_item k => it ← svc_get k; mret (mkResponse 200 (BItem it))
  | POST_items item => it ← svc_create item; mret (mkResponse 201 (BItem it))
  | GET_contact => b ← get_contact_form; mret (mkResponse 200 b)
  | POST_submit_form n e s m =>
      f ← submit_form n e s m; mret (mkResponse 200 (BForm f))
  | GET_submissions => l ← get_submissions; mret (mkResponse 200 (BForms l))
  | GET_health => d ← health_check; mret (mkResponse 200 (BDict d))
  end.

(** One request, with [HTTPException] turned into its response. *)
Definition dispatch (r : Request) : PyM Response :=
  catch (route r) (fun e => mret (http_exception_response e)).

(** Requests served one after the other. *)
Fixpoint serve (rs : list Request) : PyM (list Response) :=
  match rs with
  | [] => mret []
  | r :: rs' => resp ← dispatch r; resps ← serve rs'; mret (resp :: resps)
  end.

(** The globals once the module is imported. *)
Definition boot : Globals := exec svc_initialize module_globals.

Inductive reachable : Globals -> Prop :=
| reachable_boot : reachable boot
| reachable_step g r : reachable g -> reachable (exec (dispatch r) g).

(** ** One request *)

(** A request changes the globals as [view_effect] and [log_effect] say,
    keeps the invariant, and answers: 201 with the created item for a
    creation, the stored item or the 404 for a lookup, 200 otherwise. *)
Lemma dispatch_step r g :
  svc_inv g ->
  exists resp,
    fst (dispatch r g) = Ok resp /\
    svc_inv (exec (dispatch r) g) /\
    svc_view (exec (dispatch r) g) = view_effect r (svc_view g) /\
    contact_submissions (exec (dispatch r) g) = log_effect r (contact_submissions g) /\
    expected_response r (svc_view g) resp.
Proof.
  intros Hinv. unfold dispatch, exec, expected_response.
  destruct r as [|k|item| |n e s m| |]; rewrite !run_catch; cbn [route].
  - destruct (svc_get_all_run g) as (l & Hl & _).
    rewrite run_bind, Hl. by eexists.
  - rewrite run_bind, (svc_get_run k g Hinv).
    destruct (aget k (svc_view g)); by eexists.
  - destruct (svc_create_run item g Hinv) as (Hres & Hview & Hinv' & Hsub & _).
    unfold exec in *. rewrite run_bind.
    destruct (svc_create item g) as [res g'] eqn:Hc. simpl in *. subst res.
    by eexists.
  - by eexists.
  - rewrite run_bind, submit_form_run. simpl.
    destruct (svc_frame g (after_submit n e s m g)) as [Hi Hv]; [done|done|].
    eexists. split_and!; [done|by apply Hi|done|done|done].
  - by eexists.
  - by eexists.
Qed.

(** ** Runs *)

Lemma reachable_inv g : reachable g -> svc_inv g.
Proof.
  induction 1 as [|g r _ IH]; [apply svc_initialize_inv|].
  by destruct (dispatch_step r g IH) as (? & ? & ? & ?).
Qed.

Lemma serve_cons r rs g :
  serve (r :: rs) g =
  match dispatch r g with
  | (Ok resp, g1) =>
      match serve rs g1 with
      | (Ok resps, g2) => (Ok (resp :: resps), g2)
      | (Err e, g2) => (Err e, g2)
      end
  | (Err e, g1) => (Err e, g1)
  end.
Proof.
  cbn [serve]. rewrite run_bind. destruct (dispatch r g) as [[resp|e] g1]; [|done].
  rewrite run_bind. by destruct (serve rs g1) as [[resps|e] g2].
Qed.

(** FastAPI answers every request: [dispatch] never raises. *)
Lemma dispatch_ok r g : exists resp, fst (dispatch r g) = Ok resp.
Proof.
  unfold dispatch. rewrite run_catch. destruct (route r g) as [[resp|e] g']; by eexists.
Qed.

Lemma serve_ok rs g : exists resps, fst (serve rs g) = Ok resps.
Proof.
  revert g. induction rs as [|r rs IH]; intros g; [by eexists|].
  rewrite serve_cons. destruct (dispatch_ok r g) as [resp Hr].
  destruct (dispatch r g) as [res1 g1]. simpl in Hr. subst res1.
  destruct (IH g1) as [resps Hrs]. destruct (serve rs g1) as [res2 g2].
  simpl in Hrs. subst res2. by eexists.
Qed.

Lemma serve_app rs1 rs2 g :
  serve (rs1 ++ rs2) g =
  match serve rs1 g with
  | (Ok resps1, g1) =>
      match serve rs2 g1 with
      | (Ok resps2, g2) => (Ok (resps1 ++ resps2), g2)
      | (Err e, g2) => (Err e, g2)
      end
  | (Err e, g1) => (Err e, g1)
  end.
Proof.
  revert g. induction rs1 as [|r rs1 IH]; intros g; simpl app.
  - cbn [serve]. rewrite run_ret. by destruct (serve rs2 g) as [[]].
  - rewrite !serve_cons. destruct (dispatch r g) as [[resp|e] g1]; [|done].
    rewrite IH. destruct (serve rs1 g1) as [[resps1|e] g2]; [|done].
    by destruct (serve rs2 g2) as [[]].
Qed.

(** A run of requests from an invariant state: every request is answered,
    the abstract store and the log evolve request by request, and the
    created ids are consecutive from the next id. *)
Lemma serve_run rs g :
  svc_inv g ->
  exists resps,
    fst (serve rs g) = Ok resps /\
    length resps = length rs /\
    svc_inv (exec (serve rs) g) /\
    svc_view (exec (serve rs) g) = foldl (fun a r => view_effect r a) (svc_view g) rs /\
    contact_submissions (exec (serve rs) g) =
      foldl (fun l r => log_effect r l) (contact_submissions g) rs /\
    created_ids resps = seqZ (anext (svc_view g)) (Z.of_nat (count_posts rs)).
Proof.
  revert g. induction rs as [|r rs IH]; intros g Hinv.
  { exists []. by split_and!. }
  destruct (dispatch_step r g Hinv) as (resp & Hr & Hinv1 & Hv1 & Hs1 & Hresp).
  unfold exec in *. rewrite serve_cons.
  destruct (dispatch r g) as [res1 g1]. simpl in *. subst res1.
  destruct (IH g1 Hinv1) as (resps & Hrs & Hlen & Hinv2 & Hv2 & Hs2 & Hids).
  unfold exec in *. destruct (serve rs g1) as [res2 g2]. simpl in *. subst res2.
  exists (resp :: resps). cbn [fst length foldl]. rewrite <- Hv1, <- Hs1. split_and!; try done; [lia|].
  rewrite created_ids_cons, (expected_created_ids _ _ _ Hresp), Hids, Hv1,
    view_effect_anext, count_posts_cons.
  destruct (is_post r); simpl; [by rewrite seqZ_succ|by rewrite Z.add_0_r].
Qed.

(** An item created from an invariant state is returned by a lookup of its
    id after any later requests. *)
Lemma created_then_get item rs g :
  svc_inv g ->
  let it := with_id (anext (svc_view g)) item in
  exists resps,
    fst (serve (POST_items item :: rs ++ [GET_item (anext (svc_view g))]) g) =
    Ok (mkResponse 201 (BItem it) :: resps ++ [mkResponse 200 (BItem it)]).
Proof.
  intros Hinv it.
  destruct (dispatch_step (POST_items item) g Hinv) as (resp & Hr & Hinv1 & Hv1 & _ & Hresp).
  simpl in Hv1, Hresp. subst resp. unfold exec in *.
  destruct (dispatch (POST_items item) g) as [res1 g1] eqn:Hd.
  simpl in Hr, Hinv1, Hv1. subst res1.
  destruct (serve_run rs g1 Hinv1) as (resps & Hrs & _ & Hinv2 & Hv2 & _).
  unfold exec in *. destruct (serve rs g1) as [res2 g2] eqn:Hs.
  simpl in Hrs, Hinv2, Hv2. subst res2.
  destruct (dispatch_step (GET_item (anext (svc_view g))) g2 Hinv2)
    as (resp & Hr & _ & _ & _ & Hresp).
  assert (Hget : aget (anext (svc_view g)) (svc_view g2) = Some it).
  { unfold aget. rewrite Hv2. eapply lookup_weaken; [|apply foldl_view_mono].
    - rewrite Hv1. simpl. apply lookup_insert_eq.
    - rewrite Hv1. apply view_effect_ainv with (r := POST_items item), svc_ainv, Hinv. }
  simpl in Hresp. rewrite Hget in Hresp. subst resp.
  exists resps. rewrite serve_cons, Hd, serve_app, Hs, serve_cons.
  destruct (dispatch (GET_item _) g2) as [res3 g3]. simpl in Hr. subst res3.
  reflexivity.
Qed.
End server.

(** ** The application of src/main.py *)

(** From here on the item service is [item_service], the handlers of
    [ItemStore]. *)

(** Only a creation changes [items_db]: it appends one item. *)
Lemma dispatch_items_db r g :
  items_db (exec (dispatch r) g) =
  items_db g ++ match r with
                | POST_items item => [with_id (item_id_counter g) item]
                | _ => []
                end.
Proof.
  unfold dispatch, exec. destruct r; rewrite run_catch; cbn [route];
    simpl; rewrite ?app_nil_r; try done.
  rewrite run_bind, get_item_run. by destruct (scan_items _ _).
Qed.

(** Only a creation moves the counter, by one. *)
Lemma dispatch_counter r g :
  item_id_counter (exec (dispatch r) g) = item_id_counter g + (if is_post r then 1 else 0).
Proof.
  unfold dispatch, exec. destruct r; rewrite run_catch; cbn [route]; simpl; try lia.
  rewrite run_bind, get_item_run. destruct (scan_items _ _); simpl; lia.
Qed.

(** Only a form submission changes the log: it appends the form. *)
Lemma dispatch_log r g :
  contact_submissions (exec (dispatch r) g) = log_effect r (contact_submissions g).
Proof.
  unfold dispatch, exec. destruct r; rewrite run_catch; cbn [route]; simpl; try done.
  rewrite run_bind, get_item_run. by destruct (scan_items _ _).
Qed.

(** Only a form submission prints: its notice. *)
Lemma dispatch_stdout r g :
  stdout (exec (dispatch r) g) = stdout g ++ (form_notice <$> option_list (form_of r)).
Proof.
  unfold dispatch, exec. destruct r; rewrite run_catch; cbn [route]; simpl;
    rewrite ?app_nil_r; try done.
  rewrite run_bind, get_item_run. by destruct (scan_items _ _).
Qed.

(** Over a run, [items_db] gains the created items, with consecutive ids
    from the counter, and the counter moves past them. *)
Lemma serve_items_db rs g :
  exists l, items_db (exec (serve rs) g) = items_db g ++ l /\
    Item.id <$> l = Some <$> seqZ (item_id_counter g) (Z.of_nat (count_posts rs)) /\
    item_id_counter (exec (serve rs) g) = item_id_counter g + Z.of_nat (count_posts rs).
Proof.
  revert g. induction rs as [|r rs IH]; intros g.
  { exists []. unfold exec. simpl. change (count_posts []) with 0%nat.
    split_and!; [by rewrite app_nil_r|done|lia]. }
  pose proof (dispatch_items_db r g) as Hi. pose proof (dispatch_counter r g) as Hc.
  destruct (dispatch_ok r g) as [resp Hr].
  unfold exec in *. rewrite serve_cons.
  destruct (dispatch r g) as [res1 g1]. simpl in Hi, Hc, Hr. subst res1.
  destruct (IH g1) as (l & Hl & Hids & Hc'). destruct (serve_ok rs g1) as [resps Hrs].
  unfold exec in *. destruct (serve rs g1) as [res2 g2]. simpl in *. subst res2.
  cbn [snd]. rewrite Hc in Hids. rewrite Hl, Hi, Hc', Hc, count_posts_cons.
  destruct r as [|k|item| |n e s m| |]; simpl in *; rewrite ?app_nil_r, <- ?app_assoc;
    try (exists l; split_and!; [done|by rewrite Z.add_0_r in Hids|lia]).
  exists (with_id (item_id_counter g) item :: l). split_and!; [done| |lia].
  by rewrite seqZ_succ, !fmap_cons, Hids.
Qed.

(** Over a run, the log gains the submitted forms and standard output the
    notices, in order. *)
Lemma serve_log_stdout rs g :
  contact_submissions (exec (serve rs) g) = contact_submissions g ++ submitted_forms rs /\
  stdout (exec (serve rs) g) = stdout g ++ (form_notice <$> submitted_forms rs).
Proof.
  revert g. induction rs as [|r rs IH]; intros g.
  { unfold exec. simpl. by rewrite !app_nil_r. }
  pose proof (dispatch_log r g) as Hl. pose proof (dispatch_stdout r g) as Ho.
  destruct (dispatch_ok r g) as [resp Hr].
  unfold exec in *. rewrite serve_cons.
  destruct (dispatch r g) as [res1 g1]. simpl in Hl, Ho, Hr. subst res1.
  destruct (IH g1) as [Hl' Ho']. destruct (serve_ok rs g1) as [resps Hrs].
  unfold exec in *. destruct (serve rs g1) as [res2 g2]. simpl in *. subst res2.
  cbn [snd]. rewrite Hl', Ho', Hl, Ho, log_effect_form. unfold submitted_forms.
  rewrite <- !app_assoc. by destruct (form_of r).
Qed.

(** C1: every state the server reaches, from the import of the module
    through any sequence of requests, satisfies the store invariant: ids
    present, strictly increasing, all below [item_id_counter]. *)
Theorem reachable_store_inv g : reachable g -> store_inv g.
Proof. exact (@reachable_inv item_service g). Qed.

(** The imported module and the state after one creation are reachable,
    and satisfy the invariant. *)
Lemma reachable_store_inv_witness :
  reachable (exec (dispatch (POST_items (Item.mk None "Tablet" None 299.0%float))) boot) /\
  store_inv (exec (dispatch (POST_items (Item.mk None "Tablet" None 299.0%float))) boot).
Proof.
  assert (Hr : reachable (exec (dispatch (POST_items (Item.mk None "Tablet" None 299.0%float))) boot)).
  { apply reachable_step, reachable_boot. }
  split; [exact Hr|]. exact (reachable_store_inv _ Hr).
Defined.


(** The ids of a reachable state are 1, 2, ..., [item_id_counter - 1], and
    the counter is at least 4. *)
Lemma reachable_ids g :
  reachable g ->
  item_ids (items_db g) = seqZ 1 (item_id_counter g - 1) /\ 4 <= item_id_counter g.
Proof.
  induction 1 as [|g r _ [IH Hc]]; [split; reflexivity|].
  rewrite dispatch_items_db, dispatch_counter, item_ids_app, IH.
  destruct r; simpl; rewrite ?app_nil_r, ?Z.add_0_r; try (split; [done|lia]).
  split; [|lia]. replace (item_id_counter g) with (1 + (item_id_counter g - 1)) at 2 by lia.
  rewrite seqZ_snoc_1 by lia. f_equal. lia.
Qed.

(** C2: in every reachable state the store holds exactly
    [item_id_counter - 1] items, with ids 1, 2, ..., [item_id_counter - 1]
    in this order: the seed ids and then one id per creation. *)
Theorem reachable_ids_interval g :
  reachable g ->
  item_ids (items_db g) = seqZ 1 (item_id_counter g - 1) /\
  length (items_db g) = Z.to_nat (item_id_counter g - 1).
Proof.
  intros Hr. destruct (reachable_ids g Hr) as [Hids _]. split; [done|].
  destruct (reachable_inv g Hr) as [Hsome _].
  by rewrite <- (item_ids_length _ Hsome), Hids, length_seqZ.
Qed.

(** The reachable state after one creation from the imported module. *)
Lemma reachable_ids_interval_witness :
  reachable (exec (dispatch (POST_items tablet)) boot) /\
  item_ids (items_db (exec (dispatch (POST_items tablet)) boot)) = [1; 2; 3; 4].
Proof.
  assert (Hr : reachable (exec (dispatch (POST_items tablet)) boot)).
  { apply reachable_step, reachable_boot. }
  split; [exact Hr|]. destruct (reachable_ids_interval _ Hr) as [-> _]. reflexivity.
Defined.

(** C3: from the imported module, any sequence of requests is answered in
    full, and the items created get the ids 4, 5, 6, ... in the order of
    the [POST /items] requests, whatever other requests come between. *)
Theorem serve_created_ids rs :
  exists resps, fst (serve rs boot) = Ok resps /\ length resps = length rs /\
    created_ids resps = seqZ 4 (Z.of_nat (count_posts rs)).
Proof.
  destruct (serve_run rs boot) as (resps & Hok & Hlen & _ & _ & _ & Hids);
    [apply reachable_inv, reachable_boot|].
  exists resps. split_and!; [done|done|]. rewrite Hids. reflexivity.
Qed.

(** C13: after any sequence of requests from the imported module, [GET /items]
    answers 200 with the three seed items first, in their order, then the
    created items. Their ids are 4, 5, 6, ... in creation order, so n
    creations give 3 + n items. *)
Theorem serve_then_list_items rs :
  exists resps l,
    fst (serve (rs ++ [GET_items]) boot) =
      Ok (resps ++ [mkResponse 200 (BItems (sample_items ++ l))]) /\
    Item.id <$> l = Some <$> seqZ 4 (Z.of_nat (count_posts rs)) /\
    length (sample_items ++ l) = (3 + count_posts rs)%nat.
Proof.
  destruct (serve_items_db rs boot) as (l & Hl & Hids & _).
  destruct (serve_ok rs boot) as [resps Hrs].
  exists resps, l. unfold exec in *. rewrite serve_app.
  destruct (serve rs boot) as [res g1]. simpl in Hrs, Hl. subst res.
  split_and!; [simpl; rewrite Hl; reflexivity| |].
  - exact Hids.
  - rewrite length_app. apply (f_equal length) in Hids.
    rewrite !length_fmap, length_seqZ, Nat2Z.id in Hids. simpl. lia.
Qed.

(** C14: after any sequence of requests from the imported module,
    [GET /submissions] answers 200 with exactly the submitted forms, in
    submission order. *)
Theorem serve_then_list_submissions rs :
  exists resps,
    fst (serve (rs ++ [GET_submissions]) boot) =
      Ok (resps ++ [mkResponse 200 (BForms (submitted_forms rs))]).
Proof.
  destruct (serve_log_stdout rs boot) as [Hl _].
  destruct (serve_ok rs boot) as [resps Hrs].
  exists resps. unfold exec in *. rewrite serve_app.
  destruct (serve rs boot) as [res g1]. simpl in Hrs, Hl. subst res.
  simpl. rewrite Hl. reflexivity.
Qed.

(** C16: standard output after any run from the import of the module: the
    line of [initialize_db], then one notice per form submission, in order. *)
Theorem serve_stdout rs :
  stdout (exec (serve rs) boot) =
  "Database initialized with 3 items" :: (form_notice <$> submitted_forms rs).
Proof. by destruct (serve_log_stdout rs boot) as [_ ->]. Qed.

(** C7: in every reachable state, an item created by [POST /items] gets the
    current counter as id. A [GET /items/{id}] for that id returns it after
    any sequence of later requests. *)
Theorem created_item_retrievable g item rs :
  reachable g ->
  let it := with_id (item_id_counter g) item in
  exists resps,
    fst (serve (POST_items item :: rs ++ [GET_item (item_id_counter g)]) g) =
    Ok (mkResponse 201 (BItem it) :: resps ++ [mkResponse 200 (BItem it)]).
Proof. intros Hr. exact (created_then_get item rs g (reachable_inv g Hr)). Qed.

(** From the imported module, a created item is found after a health check. *)
Lemma created_item_retrievable_witness :
  reachable boot /\
  exists resps,
    fst (serve (POST_items tablet :: [GET_health] ++ [GET_item (item_id_counter boot)]) boot) =
    Ok (mkResponse 201 (BItem (with_id (item_id_counter boot) tablet)) :: resps ++
        [mkResponse 200 (BItem (with_id (item_id_counter boot) tablet))]).
Proof.
  split; [apply reachable_boot|].
  exact (created_item_retrievable boot tablet [GET_health] reachable_boot).
Defined.


(** C12: [GET /items/{k}] answers 404 with detail "Item not found", and
    leaves the globals unchanged, exactly when no stored item has id [k]. *)
Theorem get_unknown_id_404 k g :
  dispatch (GET_item k) g = (Ok (mkResponse 404 (BDetail "Item not found")), g) <->
  k ∉ item_ids (items_db g).
Proof.
  unfold dispatch. rewrite run_catch. cbn [route]. rewrite run_bind, get_item_run.
  rewrite <- scan_items_None. unfold item_not_found.
  destruct (scan_items k (items_db g)); simpl; split; intros H; first [reflexivity | discriminate H].
Qed.

(** The spec's item scenario: from the imported module, creating
    "Tablet" answers 201 with id 4. [GET /items/4] then returns the same
    record, and [GET /items/99] answers 404. *)
Example scenario_tablet :
  fst (serve [POST_items tablet; GET_item 4; GET_item 99] boot) =
  Ok [mkResponse 201 (BItem (with_id 4 tablet));
      mkResponse 200 (BItem (with_id 4 tablet));
      mkResponse 404 (BDetail "Item not found")].
Proof. reflexivity. Qed.

(** the spec's submission scenario: from the imported module, one
    submission by Jane echoes the form, and [GET /submissions] then returns
    the one-element list of that form. *)
Example scenario_jane :
  fst (serve [POST_submit_form "Jane" "jane@x.com" "Hi" "Question"; GET_submissions] boot) =
  Ok [mkResponse 200 (BForm jane); mkResponse 200 (BForms [jane])].
Proof. reflexivity. Qed.

(** [GET /health] answers 200 [{"status": "healthy"}] in every state and
    changes nothing. *)
Theorem health_always_healthy g :
  dispatch GET_health g = (Ok (mkResponse 200 (BDict [("status", "healthy")])), g).
Proof. reflexivity. Qed.

(** C6: in every reachable state, [GET /items/{k}] answers 200 exactly when
    [1 <= k < item_id_counter]: the seed ids and the ids handed out so far.
    Every other integer gets the 404. *)
Theorem reachable_get_item_iff g k :
  reachable g ->
  (exists it, fst (dispatch (GET_item k) g) = Ok (mkResponse 200 (BItem it))) <->
  1 <= k < item_id_counter g.
Proof.
  intros Hr. destruct (reachable_ids g Hr) as [Hids _].
  transitivity (k ∈ item_ids (items_db g)); [|rewrite Hids, elem_of_seqZ; lia].
  unfold dispatch. rewrite run_catch. cbn [route]. rewrite run_bind, get_item_run.
  destruct (scan_items k (items_db g)) as [it|] eqn:Hs; simpl.
  - split; [|by eexists]. intros _. apply scan_items_Some in Hs as [Hk Hit].
    by eapply elem_of_item_ids.
  - apply scan_items_None in Hs. split; [intros [it [=]]|done].
Qed.

(** Id 4 is found after one creation from the imported module. *)
Lemma reachable_get_item_iff_witness :
  reachable (exec (dispatch (POST_items tablet)) boot) /\
  exists it, fst (dispatch (GET_item 4) (exec (dispatch (POST_items tablet)) boot)) =
             Ok (mkResponse 200 (BItem it)).
Proof.
  assert (Hr : reachable (exec (dispatch (POST_items tablet)) boot)).
  { apply reachable_step, reachable_boot. }
  assert (Hc : item_id_counter (exec (dispatch (POST_items tablet)) boot) = 5) by reflexivity.
  split; [exact Hr|]. apply (reachable_get_item_iff _ 4 Hr). lia.
Defined.
