(* ===== verification/Codec.v ===== *)
(** * Codec: request bodies in, JSON out

    FastAPI turns the body of [POST /items] into the handler's argument
    [item: Item] (src/main.py line 120), and the fields of
    [POST /submit-form] into its four [Form(...)] arguments (lines
    148-153). On the way out it encodes the handler's value with the
    route's [response_model] and writes it with [json.dumps]. This file
    models both directions, at the level of the value [json.loads]
    returns ([json]) and of the form fields ([list (string * string)]).

    Decoding follows pydantic v1, field by field, in the order of the
    class body (lines 56-59): a missing or [null] required field is an
    error, an [Optional] field defaults to [None], and each value goes
    through the field's validator ([int_validator], [str_validator],
    [float_validator]) with its coercions. A body that is not a JSON
    object goes through [dict(value)] first, as pydantic's
    [BaseModel.validate] does. Errors are collected, as pydantic collects
    them. Two outcomes are not a validation error: [Crash] is an
    exception pydantic does not catch ([OverflowError] from
    [float(int)]), which the server answers with 500. The conversions
    between numbers and strings are those of [PyInt], [PyFloat] and
    [FloatRepr].

    Encoding gives the object of an [Item] with its four fields in class
    order (None as [null]), a list of them for [List[Item]], and the
    [detail] object of an exception. The text [json.dumps] writes, and
    when it raises, are modelled in [JsonText]. *)

From Stdlib Require Import ZArith String Ascii PrimFloat SpecFloat FloatOps.
From stdpp Require Import strings pretty.
From S2P Require Import Prelude Models PyInt PyFloat FloatRepr App.

Open Scope Z_scope.

(** ** JSON values and validation outcomes *)

Local Set Warnings "-register-all".

(** What [json.loads] returns: [None], [bool], [int], [float], [str],
    [list] and [dict] (a [dict] as its key/value pairs in text order,
    duplicates included). *)
Inductive json : Type :=
| JNull
| JBool (b : bool)
| JInt (z : Z)
| JFloat (f : float)
| JStr (s : string)
| JList (l : list json)
| JObj (kvs : list (string * json)).

(** An entry of an error's [loc]: a field name, or the position of a
    JSON syntax error. *)
Inductive loc_item : Type := LKey (s : string) | LIndex (z : Z).
Coercion LKey : string >-> loc_item.

(** One entry of pydantic's error list: its [loc] and [type]. *)
Record VError : Type := mkVError {
  loc : list loc_item;
  etype : string
}.

(** The outcome of a validation. *)
Inductive outcome (A : Type) : Type :=
| Valid (a : A)
| Invalid (errs : list VError)
| Crash.
Arguments Valid {A} a.
Arguments Invalid {A} errs.
Arguments Crash {A}.

#[export] Instance outcome_fmap : FMap outcome := fun A B f o =>
  match o with
  | Valid a => Valid (f a)
  | Invalid e => Invalid e
  | Crash => Crash
  end.

(** Two validations in sequence, errors collected: an uncaught exception
    wins, then the errors of both. *)
Definition ap {A B C} (f : A -> B -> C) (x : outcome A) (y : outcome B) : outcome C :=
  match x, y with
  | Crash, _ | _, Crash => Crash
  | Valid a, Valid b => Valid (f a b)
  | Invalid e1, Invalid e2 => Invalid (e1 ++ e2)
  | Invalid e, Valid _ | Valid _, Invalid e => Invalid e
  end.

(** The value of the last pair with key [k]: a Python dict built from
    the pairs in order keeps the last value of a key. *)
Fixpoint lookup_last {V} (k : string) (kvs : list (string * V)) : option V :=
  match kvs with
  | [] => None
  | (k', v) :: kvs' =>
      match lookup_last k kvs' with
      | Some v' => Some v'
      | None => if decide (k = k') then Some v else None
      end
  end.

(** ** Pydantic v1's field validators on a JSON value *)

Definition missing (l : list loc_item) : VError := mkVError l "value_error.missing".

(** [int_validator]: an [int] as it is, a [bool] as 0 or 1, otherwise
    [int(v)] (a [str] only up to [max_str_int] characters); the errors of
    [int()] become [type_error.integer]. *)
Definition int_field (l : list loc_item) (v : json) : outcome Z :=
  match match v with
        | JInt z => Some z
        | JBool b => Some (if b then 1 else 0)
        | JFloat f => int_of_float f
        | JStr s => int_validator s
        | _ => None
        end with
  | Some z => Valid z
  | None => Invalid [mkVError l "type_error.integer"]
  end.

(** [str_validator]: a [str] as it is, an [int], [bool] or [float]
    through [str()] (so [True] gives "True" and [1e16] gives "1e+16"),
    anything else [type_error.str]. *)
Definition str_field (l : list loc_item) (v : json) : outcome string :=
  match v with
  | JStr s => Valid s
  | JInt z => Valid (pretty z)
  | JBool b => Valid (if b then "True" else "False")
  | JFloat f => Valid (float_repr f)
  | _ => Invalid [mkVError l "type_error.str"]
  end.

(** [float_validator]: a [float] as it is, otherwise [float(v)]. Its
    [TypeError] and [ValueError] become [type_error.float]; the
    [OverflowError] of a huge [int] is not caught. A string goes through
    [float()] of [PyFloat]. *)
Definition float_field (l : list loc_item) (v : json) : outcome float :=
  match v with
  | JFloat f => Valid f
  | JInt z => match float_of_int z with Some f => Valid f | None => Crash end
  | JBool b => Valid (if b then 1%float else 0%float)
  | JStr s =>
      match py_float s with
      | Some f => Valid f
      | None => Invalid [mkVError l "type_error.float"]
      end
  | _ => Invalid [mkVError l "type_error.float"]
  end.

(** A required field: missing is [value_error.missing], [None] is
    [type_error.none.not_allowed], otherwise the validator. *)
Definition required_field {A} (name : string) (check : list loc_item -> json -> outcome A)
    (d : list (string * json)) : outcome A :=
  match lookup_last name d with
  | None => Invalid [missing [LKey "body"; LKey name]]
  | Some JNull => Invalid [mkVError [LKey "body"; LKey name] "type_error.none.not_allowed"]
  | Some v => check [LKey "body"; LKey name] v
  end.

(** An [Optional[...] = None] field: missing or [None] give [None]. *)
Definition optional_field {A} (name : string) (check : list loc_item -> json -> outcome A)
    (d : list (string * json)) : outcome (option A) :=
  match lookup_last name d with
  | None | Some JNull => Valid None
  | Some v => Some <$> check [LKey "body"; LKey name] v
  end.

(** ** Decoding the body of [POST /items] *)

(** [class Item(BaseModel)] (lines 55-59) validating a dict: the fields
    in class order, their errors collected. *)
Definition validate_item (d : list (string * json)) : outcome Item.t :=
  ap (fun '(i, n) '(ds, p) => Item.mk i n ds p)
    (ap pair (optional_field "id" int_field d) (required_field "name" str_field d))
    (ap pair (optional_field "description" str_field d) (required_field "price" float_field d)).

(** The keys of a dict in insertion order: the first occurrence of each. *)
Definition dict_keys (kvs : list (string * json)) : list string :=
  reverse (remove_dups (reverse kvs.*1)).

(** One element of [dict(value)]: a two-element sequence. A list gives its
    two items (the key must be hashable: not a list or dict), a string of
    two characters gives them, a dict of two keys gives its keys. Anything
    else raises [TypeError] or [ValueError]. *)
Definition dict_item (v : json) : option (json * json) :=
  match v with
  | JList [k; x] => match k with JList _ | JObj _ => None | _ => Some (k, x) end
  | JStr (String a (String b EmptyString)) => Some (JStr (String a ""), JStr (String b ""))
  | JObj kvs =>
      match dict_keys kvs with
      | [k1; k2] => Some (JStr k1, JStr k2)
      | _ => None
      end
  | _ => None
  end.

(** [dict(value)] for a value that is not a dict: a list of pairs, or the
    empty string. [None] is the [TypeError]/[ValueError] that pydantic
    reports as [type_error.dict]. *)
Definition dict_of_json (v : json) : option (list (json * json)) :=
  match v with
  | JList l => mapM dict_item l
  | JStr EmptyString => Some []
  | _ => None
  end.

(** Calling [Item] with the dict as keyword arguments needs string keys:
    otherwise [TypeError]. *)
Definition string_keys (ps : list (json * json)) : option (list (string * json)) :=
  mapM (fun '(k, v) => match k with JStr s => Some (s, v) | _ => None end) ps.

(** The argument [item: Item] of [create_item] (line 120) from the body.
    No body, or [null], is a missing body. A dict is validated. Any other
    value goes through [dict(value)], then [Item] with its keywords. *)
Definition decode_item_body (body : option json) : outcome Item.t :=
  match body with
  | None | Some JNull => Invalid [missing [LKey "body"]]
  | Some (JObj kvs) => validate_item kvs
  | Some v =>
      match dict_of_json v with
      | None => Invalid [mkVError [LKey "body"] "type_error.dict"]
      | Some ps =>
          match string_keys ps with
          | Some d => validate_item d
          | None => Invalid [mkVError [LKey "body"] "type_error"]
          end
      end
  end.

(** ** Decoding the fields of [POST /submit-form] *)

(** A [str = Form(...)] parameter (lines 149-152): the last value of the
    field. FastAPI treats a missing field and an empty string alike: both
    are [value_error.missing]. A string passes [str_validator] as it is. *)
Definition form_field (name : string) (fd : list (string * string)) : outcome string :=
  match lookup_last name fd with
  | None | Some EmptyString => Invalid [missing [LKey "body"; LKey name]]
  | Some v => Valid v
  end.

(** The four arguments of [submit_form], errors collected in order. *)
Definition decode_form (fd : list (string * string)) : outcome (string * string * string * string) :=
  ap (fun '(n, e) '(s, m) => (n, e, s, m))
    (ap pair (form_field "name" fd) (form_field "email" fd))
    (ap pair (form_field "subject" fd) (form_field "message" fd)).

(** ** Encoding responses *)

Definition encode_opt {A} (f : A -> json) (o : option A) : json :=
  match o with Some a => f a | None => JNull end.

(** [response_model=Item]: the fields in class order. *)
Definition encode_item (it : Item.t) : json :=
  JObj [("id", encode_opt JInt (Item.id it)); ("name", JStr (Item.name it));
        ("description", encode_opt JStr (Item.description it));
        ("price", JFloat (Item.price it))].

(** [response_model=ContactForm]. *)
Definition encode_form (f : ContactForm.t) : json :=
  JObj [("name", JStr (ContactForm.name f)); ("email", JStr (ContactForm.email f));
        ("subject", JStr (ContactForm.subject f)); ("message", JStr (ContactForm.message f))].

(** What a response carries: JSON, or the HTML of a template. *)
Inductive Payload : Type :=
| PJson (j : json)
| PHtml (template : string) (context : list (string * string)).

(** The encoding of a handler's value by its route's [response_model]. *)
Definition encode_body (b : Body) : Payload :=
  match b with
  | BItems l => PJson (JList (encode_item <$> l))
  | BItem it => PJson (encode_item it)
  | BTemplate t c => PHtml t c
  | BForm f => PJson (encode_form f)
  | BForms l => PJson (JList (encode_form <$> l))
  | BDict d => PJson (JObj ((fun '(k, v) => (k, JStr v)) <$> d))
  | BDetail s => PJson (JObj [("detail", JStr s)])
  end.

(** ** Lemmas *)

(** [ap] succeeds exactly when both sides do. *)
Lemma ap_Valid {A B C} (f : A -> B -> C) x y c :
  ap f x y = Valid c <-> exists a b, x = Valid a /\ y = Valid b /\ c = f a b.
Proof.
  split.
  - destruct x, y; simpl; intros H; try discriminate H. injection H as <-. eauto.
  - intros (a & b & -> & -> & ->). reflexivity.
Qed.

Lemma form_field_Valid name fd v :
  form_field name fd = Valid v <-> lookup_last name fd = Some v /\ v <> "".
Proof.
  unfold form_field. destruct (lookup_last name fd) as [[|c s]|]; split;
    intros H; naive_solver.
Qed.


(** Decoding inverts the encoding of an item. *)
Lemma decode_item_body_encode it : decode_item_body (Some (encode_item it)) = Valid it.
Proof. destruct it as [[i|] n [d|] p]; reflexivity. Qed.

(** Decoding a form never raises and never needs an uncomputed coercion. *)
Lemma decode_form_cases fd : (exists v, decode_form fd = Valid v) \/ (exists errs, decode_form fd = Invalid errs).
Proof.
  unfold decode_form, form_field.
  repeat match goal with |- context [match lookup_last ?k fd with _ => _ end] =>
    destruct (lookup_last k fd) as [[|??]|] end; simpl; eauto.
Qed.

(** What [decode_form] accepts. *)
Lemma decode_form_Valid_iff fd n e s m :
  decode_form fd = Valid (n, e, s, m) <->
  (lookup_last "name" fd = Some n /\ n <> "") /\ (lookup_last "email" fd = Some e /\ e <> "") /\
  (lookup_last "subject" fd = Some s /\ s <> "") /\ (lookup_last "message" fd = Some m /\ m <> "").
Proof.
  unfold decode_form. rewrite ap_Valid. setoid_rewrite ap_Valid.
  setoid_rewrite <- form_field_Valid. split.
  - intros ([n' e'] & [s' m'] & (a & b & Ha & Hb & [= -> ->]) & (c & d & Hc & Hd & [= -> ->]) & Heq).
    simplify_eq/=. auto.
  - intros (Hn & He & Hs & Hm). exists (n, e), (s, m). split_and!; eauto.
Qed.

(** ** Theorems *)

(** C27: The body FastAPI writes for an item decodes, through pydantic's
    validation of [class Item], back to that same item: the JSON encoding
    of [response_model=Item] and the decoding of [item: Item] are a round
    trip, for every item, NaN and infinite prices included. *)
Theorem decode_encode_item it : decode_item_body (Some (encode_item it)) = Valid it.
Proof. exact (decode_item_body_encode it). Qed.

(** C20: The [price] field accepts the decimal string of an integer, as
    in [{"price": "1299"}], and gives the same float as the integer
    itself: whenever pydantic validates [n], it validates [str(n)] to the
    same value, since Python's [float(str(n))] and [float(n)] agree. *)
Theorem price_string_of_int l z f :
  float_field l (JInt z) = Valid f -> float_field l (JStr (pretty z)) = Valid f.
Proof.
  unfold float_field. destruct (float_of_int z) as [f'|] eqn:Hz; intros H; [|discriminate H].
  injection H as <-. by rewrite (py_float_of_pretty z f' Hz).
Qed.

Lemma price_string_of_int_witness :
  float_field [LKey "body"; LKey "price"] (JInt 1299) = Valid 1299%float /\
  float_field [LKey "body"; LKey "price"] (JStr (pretty 1299%Z)) = Valid 1299%float.
Proof.
  split; [vm_compute; reflexivity|]. apply price_string_of_int. vm_compute. reflexivity.
Defined.

(** C31: [POST /submit-form] decodes to the four arguments exactly when
    each field is present and its last value is not the empty string:
    FastAPI reports an empty form field as missing, so the handler never
    sees an empty name, email, subject or message. *)
Theorem decode_form_Valid fd n e s m :
  decode_form fd = Valid (n, e, s, m) <->
  (lookup_last "name" fd = Some n /\ n <> "") /\ (lookup_last "email" fd = Some e /\ e <> "") /\
  (lookup_last "subject" fd = Some s /\ s <> "") /\ (lookup_last "message" fd = Some m /\ m <> "").
Proof. exact (decode_form_Valid_iff fd n e s m). Qed.

Lemma decode_form_Valid_witness :
  decode_form [("name", "Jane"); ("email", "jane@x.com"); ("subject", "Hi"); ("message", "Question")]
    = Valid ("Jane", "jane@x.com", "Hi", "Question") /\
  lookup_last "name" [("name", "Jane"); ("email", "jane@x.com"); ("subject", "Hi"); ("message", "Question")] = Some "Jane".
Proof.
  split; [|reflexivity]. apply decode_form_Valid. split_and!; reflexivity || discriminate.
Defined.
