(* ===== verification/JsonText.v ===== *)
(** * JsonText: [json.loads] of a request body, [json.dumps] of a response

    FastAPI reads the body of [POST /items] with [await request.json()],
    which is [json.loads(body)] on the bytes: [Utf8.decode_bytes], then
    the C scanner of Modules/_json.c on the characters. Starlette's
    [JSONResponse] writes a response with [json.dumps(content,
    ensure_ascii=False, allow_nan=False, indent=None, separators=(",",
    ":")).encode("utf-8")]. This file models both on the characters of
    the text, a [list Z] of code points, as the C code reads them:
    - [scanstring] is [scanstring_unicode] (strict: a control character
      in a string is an error), with its escapes, [\uXXXX] and surrogate
      pairs;
    - [number_text] and [match_number] are [_match_number_unicode]: the
      longest prefix of the form [-?(0|[1-9][0-9]* )(.[0-9]+)?([eE][-+]?[0-9]+)?],
      read with [float()] when it has a fraction or an exponent and with
      [int()] (at most 4300 digits) otherwise;
    - [scan_once], [parse_members] and [parse_items] are
      [scan_once_unicode], [_parse_object_unicode] and
      [_parse_array_unicode], recursive through each other;
    - [loads_chars] is [JSONDecoder.decode]: white space, one value, white
      space, and nothing after.
    An error is a [JSONDecodeError] at a position of the text: the model
    keeps the rest of the text at that position, and the position is the
    length of the text minus the length of that rest.

    The recursion of the scanner is on a fuel argument. Theorem C17: twice
    the length of the text plus two is always enough, and more fuel gives
    the same result, so [loads] never runs out. *)

From Stdlib Require Import ZArith String Ascii PrimFloat SpecFloat FloatOps FloatAxioms.
From stdpp Require Import base list strings pretty.
From S2P Require Import Prelude PyInt PyFloat FloatRepr Models ItemStore Codec Utf8.

Open Scope Z_scope.

(** ** Characters *)

(** The characters of an ASCII text. *)
Definition chars (s : string) : list Z := byte <$> list_ascii_of_string s.

(** The ASCII text of characters. *)
Definition text_of (cs : list Z) : string := string_of_list_ascii (of_byte <$> cs).

(** [IS_WHITESPACE]: space, tab, newline, carriage return. *)
Definition is_ws (c : Z) : bool := bool_decide (c = 32 \/ c = 9 \/ c = 10 \/ c = 13).

Fixpoint skip_ws (s : list Z) : list Z :=
  match s with c :: r => if is_ws c then skip_ws r else s | [] => [] end.

Definition is_digit_cp (c : Z) : bool := bool_decide (48 <= c <= 57).

Fixpoint span_digits_cp (s : list Z) : list Z * list Z :=
  match s with
  | c :: r => if is_digit_cp c then let '(ds, r') := span_digits_cp r in (c :: ds, r') else ([], s)
  | [] => ([], [])
  end.

(** [s] without the character [c] in front, if it is there. *)
Definition peek (c : Z) (s : list Z) : option (list Z) :=
  match s with d :: r => if decide (d = c) then Some r else None | [] => None end.

(** ** Results *)

(** [JSONDecodeError] at the rest of the text where it is raised, or the
    [ValueError] of an integer of more than 4300 digits. *)
Inductive scan_error := DecodeError (msg : string) (at_ : list Z) | IntLimit.

(** What a scanning function returns: a value and the rest of the text,
    an error, or no fuel left. *)
Inductive scanned (A : Type) := SOk (a : A) (rest : list Z) | SErr (e : scan_error) | SFuel.
Arguments SOk {A} a rest.
Arguments SErr {A} e.
Arguments SFuel {A}.

#[export] Instance scanned_fmap : FMap scanned := fun A B f x =>
  match x with SOk a r => SOk (f a) r | SErr e => SErr e | SFuel => SFuel end.

(** ** Strings *)

Definition hex_value (c : Z) : option Z :=
  if decide (48 <= c <= 57) then Some (c - 48)
  else if decide (97 <= c <= 102) then Some (c - 87)
  else if decide (65 <= c <= 70) then Some (c - 55)
  else None.

Definition hex4 (a b c d : Z) : option Z :=
  va ← hex_value a; vb ← hex_value b; vc ← hex_value c; vd ← hex_value d;
  Some (((va * 16 + vb) * 16 + vc) * 16 + vd).

(** The escapes other than [\u]: a backslash followed by a quote, a
    backslash, a slash, or one of the letters [b f n r t]. *)
Definition simple_escape (c : Z) : option Z :=
  if decide (c = 34) then Some 34 else if decide (c = 92) then Some 92
  else if decide (c = 47) then Some 47 else if decide (c = 98) then Some 8
  else if decide (c = 102) then Some 12 else if decide (c = 110) then Some 10
  else if decide (c = 114) then Some 13 else if decide (c = 116) then Some 9
  else None.

(** [scanstring_unicode]: the characters of a string whose opening quote
    is at [begin], read from [s], in reverse in [acc]. A [\u] escape needs
    four hex digits and one more character after them ([end >= len] is an
    error); a high surrogate followed by [\u] and a low surrogate is
    joined with it when seven characters follow it ([end + 6 < len]). *)
Fixpoint scanstring (begin s : list Z) (acc : list Z) : scanned (list Z) :=
  match s with
  | [] => SErr (DecodeError "Unterminated string starting at" begin)
  | c :: r =>
      if decide (c = 34) then SOk (reverse acc) r
      else if decide (c = 92) then
        match r with
        | [] => SErr (DecodeError "Unterminated string starting at" begin)
        | e :: r1 =>
            if decide (e = 117) then
              match r1 with
              | h1 :: h2 :: h3 :: h4 :: ((_ :: _) as rest) =>
                  match hex4 h1 h2 h3 h4 with
                  | None => SErr (DecodeError "Invalid \uXXXX escape" r)
                  | Some u =>
                      if is_high_surrogate u then
                        match rest with
                        | b :: v :: g1 :: g2 :: g3 :: g4 :: ((_ :: _) as rest2) =>
                            if decide (b = 92 /\ v = 117) then
                              match hex4 g1 g2 g3 g4 with
                              | None => SErr (DecodeError "Invalid \uXXXX escape" (v :: g1 :: g2 :: g3 :: g4 :: rest2))
                              | Some u2 =>
                                  if is_low_surrogate u2
                                  then scanstring begin rest2 (65536 + (u - 55296) * 1024 + (u2 - 56320) :: acc)
                                  else scanstring begin rest (u :: acc)
                              end
                            else scanstring begin rest (u :: acc)
                        | _ => scanstring begin rest (u :: acc)
                        end
                      else scanstring begin rest (u :: acc)
                  end
              | _ => SErr (DecodeError "Invalid \uXXXX escape" r)
              end
            else
              match simple_escape e with
              | Some c' => scanstring begin r1 (c' :: acc)
              | None => SErr (DecodeError "Invalid \escape" s)
              end
        end
      else if decide (c <= 31) then SErr (DecodeError "Invalid control character at" s)
      else scanstring begin r (c :: acc)
  end.

(** ** Numbers and constants *)

(** The optional exponent of [_match_number_unicode]: [e] or [E], an
    optional sign that is not the last character, and digits; without
    digits it backtracks. *)
Definition exponent_part (s : list Z) : list Z * list Z :=
  match s with
  | e :: r =>
      if decide (e = 101 \/ e = 69) then
        match r with
        | sg :: d :: r' =>
            if bool_decide (sg = 43 \/ sg = 45) && is_digit_cp d
            then let '(ds, r'') := span_digits_cp (d :: r') in (e :: sg :: ds, r'')
            else if is_digit_cp sg then let '(ds, r'') := span_digits_cp r in (e :: ds, r'')
            else ([], s)
        | [d] => if is_digit_cp d then ([e; d], []) else ([], s)
        | [] => ([], s)
        end
      else ([], s)
  | [] => ([], [])
  end.

(** The optional minus sign. *)
Definition sign_part (s : list Z) : list Z * list Z :=
  match peek 45 s with Some r => ([45], r) | None => ([], s) end.

(** The integer digits: [0] alone, or a nonzero digit and all the digits
    after it; [None] when there is none. *)
Definition int_part (s : list Z) : option (list Z * list Z) :=
  match s with
  | c :: r =>
      if decide (49 <= c <= 57) then let '(ds, r') := span_digits_cp r in Some (c :: ds, r')
      else if decide (c = 48) then Some ([48], r) else None
  | [] => None
  end.

(** The optional fraction: a point followed by at least one digit. *)
Definition frac_part (s : list Z) : list Z * list Z :=
  match s with
  | c :: d :: r =>
      if bool_decide (c = 46) && is_digit_cp d
      then let '(ds, r') := span_digits_cp (d :: r) in (c :: ds, r') else ([], s)
  | _ => ([], s)
  end.

(** [_match_number_unicode]: the text of the number, whether it is a
    float, and the rest; [None] is its [StopIteration]. *)
Definition number_text (s : list Z) : option (list Z * bool * list Z) :=
  let '(sign, s1) := sign_part s in
  match int_part s1 with
  | None => None
  | Some (ip, r1) =>
      let '(fp, r2) := frac_part r1 in
      let '(ep, r3) := exponent_part r2 in
      Some (sign ++ ip ++ fp ++ ep, negb (bool_decide (fp = [] /\ ep = [])), r3)
  end.

(** The number: [float(text)] ([PyFloat_FromString]) for a float,
    [int(text)] ([PyLong_FromString], which refuses more than 4300
    digits) otherwise. The text of a float always reads as a float, so
    the error after [py_float] does not happen. *)
Definition match_number (s : list Z) : scanned json :=
  match number_text s with
  | None => SErr (DecodeError "Expecting value" s)
  | Some (txt, is_float, rest) =>
      if is_float then
        match py_float (text_of txt) with
        | Some f => SOk (JFloat f) rest
        | None => SErr (DecodeError "Expecting value" s)
        end
      else if decide (4300 < length (filter (fun c => is_digit_cp c = true) txt))%nat then SErr IntLimit
      else match py_int (text_of txt) with
           | Some z => SOk (JInt z) rest
           | None => SErr (DecodeError "Expecting value" s)
           end
  end.

(** [s] without the word [w] in front, if it is there. *)
Definition strip_word (w s : list Z) : option (list Z) :=
  if bool_decide (w `prefix_of` s) then Some (drop (length w) s) else None.

(** The words [scan_once_unicode] reads before trying a number. *)
Definition constants : list (string * json) :=
  [("null", JNull); ("true", JBool true); ("false", JBool false);
   ("NaN", JFloat nan); ("Infinity", JFloat infinity); ("-Infinity", JFloat (- infinity)%float)].

Definition named_constant (s : list Z) : option (json * list Z) :=
  foldr (fun '(w, v) k => match strip_word (chars w) s with Some r => Some (v, r) | None => k end)
    None constants.

(** ** Values, objects and arrays *)

Fixpoint scan_once (fuel : nat) (s : list Z) {struct fuel} : scanned json :=
  match fuel with
  | O => SFuel
  | S fuel' =>
      match s with
      | [] => SErr (DecodeError "Expecting value" [])
      | c :: r =>
          if decide (c = 34) then (fun cps => JStr (string_of_chars cps)) <$> scanstring s r []
          else if decide (c = 123) then
            let r1 := skip_ws r in
            match peek 125 r1 with
            | Some r2 => SOk (JObj []) r2
            | None => JObj <$> parse_members fuel' r1 []
            end
          else if decide (c = 91) then
            let r1 := skip_ws r in
            match peek 93 r1 with
            | Some r2 => SOk (JList []) r2
            | None => JList <$> parse_items fuel' r1 []
            end
          else match named_constant s with
               | Some (v, r') => SOk v r'
               | None => match_number s
               end
      end
  end

(** The members of a nonempty object from a key on; [acc] holds those
    read, in reverse. *)
with parse_members (fuel : nat) (s : list Z) (acc : list (string * json)) {struct fuel}
    : scanned (list (string * json)) :=
  match fuel with
  | O => SFuel
  | S fuel' =>
      match peek 34 s with
      | None => SErr (DecodeError "Expecting property name enclosed in double quotes" s)
      | Some r =>
          match scanstring s r [] with
          | SOk key r1 =>
              let r2 := skip_ws r1 in
              match peek 58 r2 with
              | None => SErr (DecodeError "Expecting ':' delimiter" r2)
              | Some r3 =>
                  match scan_once fuel' (skip_ws r3) with
                  | SOk v r4 =>
                      let r5 := skip_ws r4 in
                      let acc' := (string_of_chars key, v) :: acc in
                      match peek 125 r5 with
                      | Some r6 => SOk (reverse acc') r6
                      | None =>
                          match peek 44 r5 with
                          | Some r6 => parse_members fuel' (skip_ws r6) acc'
                          | None => SErr (DecodeError "Expecting ',' delimiter" r5)
                          end
                      end
                  | SErr e => SErr e
                  | SFuel => SFuel
                  end
              end
          | SErr e => SErr e
          | SFuel => SFuel
          end
      end
  end

(** The items of a nonempty array from an item on. *)
with parse_items (fuel : nat) (s : list Z) (acc : list json) {struct fuel} : scanned (list json) :=
  match fuel with
  | O => SFuel
  | S fuel' =>
      match scan_once fuel' s with
      | SOk v r1 =>
          let r2 := skip_ws r1 in
          match peek 93 r2 with
          | Some r3 => SOk (reverse (v :: acc)) r3
          | None =>
              match peek 44 r2 with
              | Some r3 => parse_items fuel' (skip_ws r3) (v :: acc)
              | None => SErr (DecodeError "Expecting ',' delimiter" r2)
              end
          end
      | SErr e => SErr e
      | SFuel => SFuel
      end
  end.

(** ** [json.loads] *)

(** What [json.loads] gives: a value, a [JSONDecodeError] (its message and
    its position), or another exception: the [UnicodeDecodeError] of the
    bytes, or the [ValueError] of a too long integer. *)
Inductive load_result := LOk (j : json) | LDecodeError (msg : string) (pos : Z) | LOtherError.

(** The fuel [loads_chars] gives the scanner. *)
Definition scan_fuel (s : list Z) : nat := (2 * length s + 2)%nat.

(** [JSONDecoder.decode] on the characters [s]: the position of an error
    is the length of the text before the rest it was raised at. Running
    out of fuel does not happen (theorem [scan_fuel_enough]). *)
Definition loads_chars (s : list Z) : load_result :=
  let pos (r : list Z) := Z.of_nat (length s - length r) in
  match scan_once (scan_fuel s) (skip_ws s) with
  | SOk v r => let r' := skip_ws r in if decide (r' = []) then LOk v else LDecodeError "Extra data" (pos r')
  | SErr (DecodeError msg r) => LDecodeError msg (pos r)
  | SErr IntLimit | SFuel => LOtherError
  end.

(** [json.loads(body)] on the bytes of a body. *)
Definition loads (b : list ascii) : load_result :=
  match decode_bytes b with
  | Some s => loads_chars s
  | None => LOtherError
  end.

(** ** [json.dumps] *)

Definition hexdigit (n : Z) : Z := if decide (n < 10) then 48 + n else 87 + n.

(** [py_encode_basestring] of one character ([ensure_ascii=False]). *)
Definition escape_char (c : Z) : list Z :=
  if decide (c = 92) then [92; 92] else if decide (c = 34) then [92; 34]
  else if decide (c = 8) then [92; 98] else if decide (c = 12) then [92; 102]
  else if decide (c = 10) then [92; 110] else if decide (c = 13) then [92; 114]
  else if decide (c = 9) then [92; 116]
  else if decide (c <= 31) then [92; 117; 48; 48; hexdigit (c / 16); hexdigit (c mod 16)]
  else [c].

Definition encode_basestring (cps : list Z) : list Z := [34] ++ (cps ≫= escape_char) ++ [34].

(** The texts, separated. *)
Fixpoint join_with (sep : list Z) (ts : list (list Z)) : list Z :=
  match ts with
  | [] => []
  | [t] => t
  | t :: ts' => t ++ sep ++ join_with sep ts'
  end.

(** The number of digits of [|z|]: [int.__repr__] refuses more than 4300. *)
Definition int_digits (z : Z) : nat := String.length (pretty (Z.abs z)).

(** [json.dumps] with Starlette's arguments, on a value: [None] is the
    [ValueError] of a NaN or infinite float ([allow_nan=False]) or of an
    integer of more than 4300 digits. A dict is written with each key
    once, in the order of its first occurrence, with its last value. *)
Fixpoint dumps (j : json) : option (list Z) :=
  match j with
  | JNull => Some (chars "null")
  | JBool b => Some (chars (if b then "true" else "false"))
  | JInt z => if decide (4300 < int_digits z)%nat then None else Some (chars (pretty z))
  | JFloat f => if is_finite f then Some (chars (float_repr f)) else None
  | JStr s => encode_basestring <$> chars_of s
  | JList l =>
      let fix go (l : list json) : option (list (list Z)) :=
        match l with [] => Some [] | x :: l' => t ← dumps x; ts ← go l'; Some (t :: ts) end in
      (fun ts => [91] ++ join_with [44] ts ++ [93]) <$> go l
  | JObj kvs =>
      let fix go (kvs : list (string * json)) : list (string * option (list Z)) :=
        match kvs with [] => [] | (k, v) :: kvs' => (k, dumps v) :: go kvs' end in
      let encs := go kvs in
      let member k := t ← mjoin (lookup_last k encs); kt ← encode_basestring <$> chars_of k;
                      Some (kt ++ [58] ++ t) in
      (fun ms => [123] ++ join_with [44] ms ++ [125]) <$> mapM member (dict_keys kvs)
  end.

(** The bytes of a [JSONResponse]: the text, encoded in UTF-8. *)
Definition dumps_bytes (j : json) : option (list ascii) := dumps j ≫= utf8_encode.

(** ** What each scanning step consumes *)

Lemma skip_ws_length s : (length (skip_ws s) <= length s)%nat.
Proof. induction s as [|c s IH]; cbn; [lia|]. destruct (is_ws c); cbn; lia. Qed.

Lemma peek_Some c s r : peek c s = Some r -> s = c :: r.
Proof. destruct s as [|d s]; cbn; [done|]. case_decide; [by intros [= <-]; subst|done]. Qed.

Lemma span_digits_cp_app s ds r : span_digits_cp s = (ds, r) -> s = ds ++ r.
Proof.
  revert ds r. induction s as [|c s IH]; intros ds r; cbn; [by intros [= <- <-]|].
  destruct (is_digit_cp c); [|by intros [= <- <-]].
  destruct (span_digits_cp s) as [ds' r'] eqn:E. intros [= <- <-]. cbn. by rewrite (IH _ _ eq_refl).
Qed.

Lemma exponent_part_app s ep r : exponent_part s = (ep, r) -> s = ep ++ r.
Proof.
  unfold exponent_part. destruct s as [|e s]; [by intros [= <- <-]|].
  case_decide; [|by intros [= <- <-]].
  destruct s as [|sg [|d s']]; [by intros [= <- <-]|destruct (is_digit_cp sg); by intros [= <- <-]|].
  destruct (_ && _).
  - destruct (span_digits_cp (d :: s')) as [ds r''] eqn:E. intros [= <- <-].
    by rewrite (span_digits_cp_app _ _ _ E).
  - destruct (is_digit_cp sg); [|by intros [= <- <-]].
    destruct (span_digits_cp (sg :: d :: s')) as [ds r''] eqn:E. intros [= <- <-].
    by rewrite (span_digits_cp_app _ _ _ E).
Qed.

Lemma sign_part_app s sg r : sign_part s = (sg, r) -> s = sg ++ r.
Proof.
  unfold sign_part. destruct (peek 45 s) eqn:Hp; intros [= <- <-]; [by apply peek_Some|done].
Qed.

Lemma int_part_app s ip r : int_part s = Some (ip, r) -> s = ip ++ r /\ ip <> [].
Proof.
  unfold int_part. destruct s as [|c s]; [done|]. case_decide.
  - destruct (span_digits_cp s) as [ds r'] eqn:Hd. intros [= <- <-].
    by rewrite (span_digits_cp_app _ _ _ Hd).
  - case_decide; [subst c; by intros [= <- <-]|done].
Qed.

Lemma frac_part_app s fp r : frac_part s = (fp, r) -> s = fp ++ r.
Proof.
  unfold frac_part. destruct s as [|c [|d s]]; try by intros [= <- <-].
  destruct (_ && _); [|by intros [= <- <-]].
  destruct (span_digits_cp (d :: s)) as [ds r'] eqn:Hd. intros [= <- <-].
  by rewrite (span_digits_cp_app _ _ _ Hd).
Qed.

(** A number is a nonempty prefix of the text. *)
Lemma number_text_app s t b r : number_text s = Some (t, b, r) -> s = t ++ r /\ t <> [].
Proof.
  unfold number_text. destruct (sign_part s) as [sg s1] eqn:Hs. apply sign_part_app in Hs.
  destruct (int_part s1) as [[ip r1]|] eqn:Hi; [|done]. apply int_part_app in Hi as [Hi Hne].
  destruct (frac_part r1) as [fp r2] eqn:Hf. apply frac_part_app in Hf.
  destruct (exponent_part r2) as [ep r3] eqn:He. apply exponent_part_app in He.
  intros [= <- _ <-]. subst. split; [by rewrite !app_assoc|].
  intros H. apply app_eq_nil in H as [_ H]. apply app_eq_nil in H as [H _]. done.
Qed.

Lemma scanstring_length begin s acc v r :
  scanstring begin s acc = SOk v r -> (length r < length s)%nat.
Proof.
  remember (length s) as n eqn:Hn. revert s acc Hn.
  induction n as [n IH] using lt_wf_ind. intros s acc Hn.
  destruct s as [|c r0]; cbn; [done|].
  repeat (case_match || case_decide); try done; try (intros [= _ <-]; cbn in Hn; lia);
    intros Hs; eapply IH in Hs; try reflexivity; cbn in *; lia.
Qed.

Lemma strip_word_length w s r : w <> [] -> strip_word w s = Some r -> (length r < length s)%nat.
Proof.
  unfold strip_word. case_bool_decide as Hp; [|done]. intros Hw [= <-].
  destruct Hp as [k ->]. rewrite drop_app_length, length_app. destruct w; [done|]. cbn. lia.
Qed.

Lemma chars_cons c s : chars (String c s) = byte c :: chars s.
Proof. reflexivity. Qed.

Lemma strip_chars_length c w s r : strip_word (chars (String c w)) s = Some r -> (length r < length s)%nat.
Proof. apply strip_word_length. by rewrite chars_cons. Qed.

Lemma named_constant_length s v r : named_constant s = Some (v, r) -> (length r < length s)%nat.
Proof.
  unfold named_constant, constants. cbn [foldr].
  repeat (case_match; [intros [= _ <-]; eapply strip_chars_length; eassumption|]).
  intros Hn. discriminate Hn.
Qed.

Lemma match_number_length s v r : match_number s = SOk v r -> (length r < length s)%nat.
Proof.
  unfold match_number. destruct (number_text s) as [[[t b] r']|] eqn:Hn; [|done].
  apply number_text_app in Hn as [-> Hne].
  assert (length r' < length (t ++ r'))%nat by (rewrite length_app; destruct t; [done|cbn; lia]).
  destruct b; [destruct (py_float _)|case_decide; [|destruct (py_int _)]]; try done; by intros [= _ <-].
Qed.

(** The three scanning functions, by induction on the fuel: each consumes
    text when it succeeds. *)
Lemma scan_consumes n :
  (forall s v r, scan_once n s = SOk v r -> (length r < length s)%nat) /\
  (forall s acc v r, parse_members n s acc = SOk v r -> (length r < length s)%nat) /\
  (forall s acc v r, parse_items n s acc = SOk v r -> (length r < length s)%nat).
Proof.
  induction n as [|n (IHs & IHm & IHi)]; [split_and!; done|]. split_and!.
  - intros [|c s] v r; cbn [scan_once]; [done|].
    pose proof (skip_ws_length s).
    repeat case_decide.
    + destruct (scanstring (c :: s) s []) eqn:E; cbn; [intros [= _ <-]|done..].
      apply scanstring_length in E. cbn in *; lia.
    + destruct (peek 125 (skip_ws s)) eqn:Hp; [apply peek_Some in Hp; intros [= _ <-]; rewrite Hp in *; cbn in *; lia|].
      destruct (parse_members n (skip_ws s) []) eqn:E; cbn; [intros [= _ <-]|done..]. apply IHm in E. lia.
    + destruct (peek 93 (skip_ws s)) eqn:Hp; [apply peek_Some in Hp; intros [= _ <-]; rewrite Hp in *; cbn in *; lia|].
      destruct (parse_items n (skip_ws s) []) eqn:E; cbn; [intros [= _ <-]|done..]. apply IHi in E. lia.
    + destruct (named_constant (c :: s)) as [[v' r']|] eqn:E; [cbn; intros [= _ <-]; by apply named_constant_length in E|].
      apply match_number_length.
  - intros s acc v r; cbn [parse_members].
    destruct (peek 34 s) as [r0|] eqn:Hp; [apply peek_Some in Hp; subst s|done].
    destruct (scanstring (34 :: r0) r0 []) as [key r1| |] eqn:Hk; [|done..]. apply scanstring_length in Hk.
    pose proof (skip_ws_length r1).
    destruct (peek 58 (skip_ws r1)) as [r3|] eqn:Hc; [apply peek_Some in Hc|done].
    pose proof (skip_ws_length r3).
    destruct (scan_once n (skip_ws r3)) as [v' r4| |] eqn:Hv; [|done..]. apply IHs in Hv.
    pose proof (skip_ws_length r4).
    destruct (peek 125 (skip_ws r4)) as [r6|] eqn:Hb; [apply peek_Some in Hb; intros [= _ <-]|].
    { rewrite Hc in *. rewrite Hb in *. cbn in *. lia. }
    destruct (peek 44 (skip_ws r4)) as [r6|] eqn:Hm; [apply peek_Some in Hm|done].
    intros E. apply IHm in E. pose proof (skip_ws_length r6). rewrite Hc, Hm in *. cbn in *. lia.
  - intros s acc v r; cbn [parse_items].
    destruct (scan_once n s) as [v' r1| |] eqn:Hv; [|done..]. apply IHs in Hv.
    pose proof (skip_ws_length r1).
    destruct (peek 93 (skip_ws r1)) as [r3|] eqn:Hb; [apply peek_Some in Hb; intros [= _ <-]; rewrite Hb in *; cbn in *; lia|].
    destruct (peek 44 (skip_ws r1)) as [r3|] eqn:Hm; [apply peek_Some in Hm|done].
    intros E. apply IHi in E. pose proof (skip_ws_length r3). rewrite Hm in *. cbn in *. lia.
Qed.

(** ** Fuel *)

Lemma scanstring_not_fuel begin s acc : scanstring begin s acc <> SFuel.
Proof.
  remember (length s) as n eqn:Hn. revert s acc Hn.
  induction n as [n IH] using lt_wf_ind. intros s acc Hn.
  destruct s as [|c r0]; cbn; [done|].
  repeat (case_match || case_decide); try done; eapply IH; try reflexivity; cbn in *; lia.
Qed.

Lemma match_number_not_fuel s : match_number s <> SFuel.
Proof.
  unfold match_number. destruct (number_text s) as [[[t b] r]|]; [|done].
  destruct b; [destruct (py_float _)|case_decide; [|destruct (py_int _)]]; done.
Qed.

Lemma fmap_not_fuel {A B} (f : A -> B) x : x <> SFuel -> f <$> x <> SFuel.
Proof. by destruct x. Qed.

(** Fuel [2 * length s + 1] is enough for [scan_once], [2 * length s + 2]
    for the loops of an object or an array: each level of recursion
    consumes at least one character for each unit of fuel beyond the
    first. *)
Lemma scan_enough_fuel n :
  (forall s, (2 * length s < n)%nat -> scan_once n s <> SFuel) /\
  (forall s acc, (2 * length s + 1 < n)%nat -> parse_members n s acc <> SFuel) /\
  (forall s acc, (2 * length s + 1 < n)%nat -> parse_items n s acc <> SFuel).
Proof.
  induction n as [|n (IHs & IHm & IHi)]; [split_and!; intros; lia|].
  destruct (scan_consumes n) as (Cs & Cm & Ci). split_and!.
  - intros [|c s] Hn; cbn [scan_once]; [done|]. cbn [length] in Hn.
    pose proof (skip_ws_length s). repeat case_decide.
    + apply fmap_not_fuel, scanstring_not_fuel.
    + destruct (peek 125 _); [done|]. apply fmap_not_fuel, IHm. lia.
    + destruct (peek 93 _); [done|]. apply fmap_not_fuel, IHi. lia.
    + destruct (named_constant _) as [[]|]; [done|]. apply match_number_not_fuel.
  - intros s acc Hn; cbn [parse_members].
    destruct (peek 34 s) as [r0|] eqn:Hp; [apply peek_Some in Hp; subst s|done].
    destruct (scanstring (34 :: r0) r0 []) as [key r1| |] eqn:Hk; [|done|by apply scanstring_not_fuel in Hk].
    apply scanstring_length in Hk. pose proof (skip_ws_length r1).
    destruct (peek 58 (skip_ws r1)) as [r3|] eqn:Hc; [apply peek_Some in Hc|done].
    pose proof (skip_ws_length r3).
    rewrite Hc in *. cbn [length] in *.
    destruct (scan_once n (skip_ws r3)) as [v r4| |] eqn:Hv; [|done|exfalso; revert Hv; apply IHs; lia].
    apply Cs in Hv. pose proof (skip_ws_length r4).
    destruct (peek 125 (skip_ws r4)); [done|].
    destruct (peek 44 (skip_ws r4)) as [r6|] eqn:Hm; [apply peek_Some in Hm|done].
    rewrite Hm in *. cbn [length] in *. pose proof (skip_ws_length r6). apply IHm. lia.
  - intros s acc Hn; cbn [parse_items].
    destruct (scan_once n s) as [v r1| |] eqn:Hv; [|done|exfalso; revert Hv; apply IHs; lia].
    apply Cs in Hv. pose proof (skip_ws_length r1).
    destruct (peek 93 (skip_ws r1)); [done|].
    destruct (peek 44 (skip_ws r1)) as [r3|] eqn:Hm; [apply peek_Some in Hm|done].
    rewrite Hm in *. cbn [length] in *. pose proof (skip_ws_length r3). apply IHi. lia.
Qed.

(** With more fuel, a scan that did not run out gives the same result. *)
Lemma scan_more_fuel n :
  forall m, (n <= m)%nat ->
  (forall s, scan_once n s <> SFuel -> scan_once m s = scan_once n s) /\
  (forall s acc, parse_members n s acc <> SFuel -> parse_members m s acc = parse_members n s acc) /\
  (forall s acc, parse_items n s acc <> SFuel -> parse_items m s acc = parse_items n s acc).
Proof.
  induction n as [|n IH]; intros m Hm; [split_and!; done|].
  destruct m as [|m]; [lia|]. destruct (IH m ltac:(lia)) as (Ms & Mm & Mi). split_and!.
  - intros [|c s] Hs; cbn [scan_once] in *; [done|]. repeat case_decide; try done.
    + destruct (peek 125 _); [done|].
      destruct (parse_members n _ _) eqn:E; rewrite ?Mm, ?E by (by rewrite E); done.
    + destruct (peek 93 _); [done|].
      destruct (parse_items n _ _) eqn:E; rewrite ?Mi, ?E by (by rewrite E); done.
  - intros s acc Hs; cbn [parse_members] in *.
    destruct (peek 34 s); [|done]. destruct (scanstring _ _ _); try done.
    destruct (peek 58 _); [|done].
    destruct (scan_once n _) eqn:E; rewrite ?Ms, ?E by (by rewrite E); try done.
    destruct (peek 125 _); [done|]. destruct (peek 44 _); [|done]. by apply Mm.
  - intros s acc Hs; cbn [parse_items] in *.
    destruct (scan_once n s) eqn:E; rewrite ?Ms, ?E by (by rewrite E); try done.
    destruct (peek 93 _); [done|]. destruct (peek 44 _); [|done]. by apply Mi.
Qed.

(** ** Reading back numbers *)

Definition is_digit_z (c : Z) : Prop := 48 <= c <= 57.

(** What follows a value inside a text [dumps] writes: the end, a comma,
    or a closing bracket or brace. *)
Definition delim (r : list Z) : Prop :=
  match r with [] => True | c :: _ => c = 44 \/ c = 93 \/ c = 125 end.

Lemma is_digit_byte c : is_digit c -> is_digit_z (byte c).
Proof. intros [d Hd]. apply digit_value_range in Hd. unfold is_digit_z, byte. lia. Qed.

Lemma span_digits_cp_stop l r :
  Forall is_digit_z l -> match r with [] => True | c :: _ => is_digit_cp c = false end ->
  span_digits_cp (l ++ r) = (l, r).
Proof.
  intros Hl Hr. induction Hl as [|c l Hc _ IH].
  - destruct r as [|c r]; [done|]. cbn. by rewrite Hr.
  - cbn. unfold is_digit_cp at 1. rewrite bool_decide_true by done. by rewrite IH.
Qed.

Lemma delim_not_digit r : delim r -> match r with [] => True | c :: _ => is_digit_cp c = false end.
Proof. destruct r as [|c r]; [done|]. intros Hc. cbn in Hc. apply bool_decide_eq_false_2. lia. Qed.

(** The text of a JSON number: an optional minus, [0] or digits not
    starting with [0], an optional fraction, an optional exponent with a
    sign, as [str(int)] and [repr(float)] write them. *)
Definition int_shape (ip : list Z) : Prop :=
  ip = [48] \/ exists d ds, ip = d :: ds /\ 49 <= d <= 57 /\ Forall is_digit_z ds.
Definition frac_shape (fp : list Z) : Prop :=
  fp = [] \/ exists f fs, fp = 46 :: f :: fs /\ Forall is_digit_z (f :: fs).
Definition exp_shape (ep : list Z) : Prop :=
  ep = [] \/ exists g e es, ep = 101 :: g :: e :: es /\ (g = 43 \/ g = 45) /\ Forall is_digit_z (e :: es).

Lemma number_text_shape sg ip fp ep rest :
  (sg = [] \/ sg = [45]) -> int_shape ip -> frac_shape fp -> exp_shape ep -> delim rest ->
  number_text (sg ++ ip ++ fp ++ ep ++ rest) =
    Some (sg ++ ip ++ fp ++ ep, negb (bool_decide (fp = [] /\ ep = [])), rest).
Proof.
  intros Hsg Hip Hfp Hep Hr.
  assert (Hep' : exponent_part (ep ++ rest) = (ep, rest)).
  { destruct Hep as [->|(g & e & es & -> & Hg & He)].
    - destruct rest as [|c r]; [done|]. cbn. rewrite decide_False by (cbn in Hr; lia). done.
    - cbn [app exponent_part]. rewrite decide_True by lia.
      rewrite (bool_decide_true (g = 43 \/ g = 45)) by done.
      apply Forall_cons in He as Hd. destruct Hd as [Hd _].
      unfold is_digit_cp at 1. rewrite bool_decide_true by done. cbn [andb].
      rewrite app_comm_cons, span_digits_cp_stop by (done || by apply delim_not_digit). done. }
  assert (Hhead : match ep ++ rest with [] => True | c :: _ => c <> 46 /\ is_digit_cp c = false end).
  { destruct Hep as [->|(g & e & es & -> & _)]; [|cbn; split; [lia|done]].
    destruct rest as [|c r]; [done|]. cbn in Hr |- *. split; [lia|]. apply bool_decide_eq_false_2. lia. }
  assert (Hfp' : frac_part (fp ++ ep ++ rest) = (fp, ep ++ rest)).
  { destruct Hfp as [->|(f & fs & -> & Hf)].
    - cbn [app]. destruct (ep ++ rest) as [|c [|d r]]; [done|done|]. cbn.
      by rewrite bool_decide_false by (destruct Hhead; lia).
    - cbn [app frac_part]. apply Forall_cons in Hf as Hd. destruct Hd as [Hd _].
      rewrite bool_decide_true by done. unfold is_digit_cp at 1. rewrite bool_decide_true by done.
      cbn [andb]. rewrite app_comm_cons, span_digits_cp_stop; [done|done|].
      destruct (ep ++ rest); [done|]. by destruct Hhead. }
  assert (Hnext : match fp ++ ep ++ rest with [] => True | c :: _ => is_digit_cp c = false end).
  { destruct Hfp as [->|(f & fs & -> & _)]; [|done].
    destruct (ep ++ rest); [done|]. by destruct Hhead. }
  assert (Hip' : int_part (ip ++ fp ++ ep ++ rest) = Some (ip, fp ++ ep ++ rest)).
  { destruct Hip as [->|(d & ds & -> & Hd & Hds)].
    - cbn. rewrite decide_False, decide_True by lia. done.
    - cbn [app int_part]. rewrite decide_True by lia. by rewrite span_digits_cp_stop. }
  assert (Hs : sign_part (sg ++ ip ++ fp ++ ep ++ rest) = (sg, ip ++ fp ++ ep ++ rest)).
  { destruct Hsg as [->| ->]; [|unfold sign_part; cbn; by rewrite decide_True].
    unfold sign_part. destruct Hip as [->|(d & ds & -> & Hd & _)]; cbn; rewrite decide_False by lia; done. }
  unfold number_text. rewrite Hs, Hip', Hfp', Hep'. by rewrite !app_assoc.
Qed.

Lemma chars_string_of_list_ascii l : chars (string_of_list_ascii l) = byte <$> l.
Proof. unfold chars. by rewrite list_ascii_of_string_of_list_ascii. Qed.

Lemma text_of_chars s : text_of (chars s) = s.
Proof.
  unfold text_of, chars. rewrite <- (string_of_list_ascii_of_string s) at 2. f_equal.
  induction (list_ascii_of_string s) as [|c l IH]; [done|]. cbn. by rewrite of_byte_byte, IH.
Qed.

Lemma digits_z l : Forall is_digit l -> Forall is_digit_z (byte <$> l).
Proof. intros Hl. apply Forall_fmap. eapply Forall_impl; [exact Hl|]. apply is_digit_byte. Qed.

Lemma nonzero_digit_byte c : is_digit c -> c <> "0"%char -> 49 <= byte c <= 57.
Proof.
  intros Hc H0. apply is_digit_byte in Hc. unfold is_digit_z in Hc.
  destruct (decide (byte c = 48)) as [E|]; [|lia]. exfalso. apply H0.
  rewrite <- (of_byte_byte c), E. reflexivity.
Qed.

(** [str(D)] of a positive [D] has the shape of the integer digits of a
    JSON number. *)
Lemma int_shape_digits_of D : 0 < D -> int_shape (byte <$> digits_of D).
Proof.
  intros HD. destruct (digits_of_head D HD) as (c & rest & Hds & Hc & H0).
  destruct (digits_of_spec D ltac:(lia)) as (_ & Hd & _). rewrite Hds in Hd |- *.
  apply Forall_cons in Hd as [_ Hd]. right. exists (byte c), (byte <$> rest).
  split; [done|split; [by apply nonzero_digit_byte|by apply digits_z]].
Qed.

(** [str(z)]: an optional minus, then the integer digits. *)
Lemma pretty_shape z :
  exists sg ip, chars (pretty z) = sg ++ ip /\ (sg = [] \/ sg = [45]) /\ int_shape ip /\
    length (filter (fun c => is_digit_cp c = true) (sg ++ ip)) = int_digits z.
Proof.
  assert (Hd : forall p, filter (fun c => is_digit_cp c = true) (byte <$> digits_of (Zpos p)) = byte <$> digits_of (Zpos p)).
  { intros p. destruct (digits_of_spec (Zpos p) ltac:(lia)) as (_ & Hds & _).
    apply digits_z in Hds. induction Hds as [|c l Hc _ IH]; [done|].
    rewrite filter_cons_True by (by apply bool_decide_eq_true_2). by rewrite IH. }
  destruct z as [|p|p].
  - exists [], [48]. split_and!; [reflexivity|by left|by left|reflexivity].
  - exists [], (byte <$> digits_of (Zpos p)). split_and!; [reflexivity|by left|by apply int_shape_digits_of|].
    cbn [app]. rewrite Hd, length_fmap. unfold digits_of. by rewrite length_list_ascii_of_string.
  - exists [45], (byte <$> digits_of (Zpos p)). split_and!; [reflexivity|by right|by apply int_shape_digits_of|].
    cbn [app]. rewrite filter_cons_False by (intros Hc; vm_compute in Hc; discriminate).
    rewrite Hd, length_fmap. unfold digits_of. by rewrite length_list_ascii_of_string.
Qed.

Lemma int_shape_cons c l : is_digit c -> c <> "0"%char -> Forall is_digit l -> int_shape (byte <$> c :: l).
Proof.
  intros Hc H0 Hl. right. exists (byte c), (byte <$> l).
  split; [done|split; [by apply nonzero_digit_byte|by apply digits_z]].
Qed.

Lemma frac_shape_point fp :
  Forall is_digit fp -> frac_shape (byte <$> match fp with [] => [] | _ => "."%char :: fp end).
Proof.
  destruct fp as [|f fs]; [by left|]. intros Hf. right. exists (byte f), (byte <$> fs).
  split; [done|]. by apply (digits_z (f :: fs)).
Qed.

Lemma exp_shape_exponent x : exp_shape (byte <$> "e"%char :: exponent_digits x).
Proof.
  right. unfold exponent_digits. destruct (digits_of_spec (Z.abs x) ltac:(lia)) as (Hne & Hd & _).
  destruct (decide (Z.abs x < 10)).
  - exists (byte (if decide (x < 0) then "-" else "+")%char), 48, (byte <$> digits_of (Z.abs x)).
    split_and!; [done|by case_decide; [right|left]|].
    constructor; [unfold is_digit_z; lia|by apply digits_z].
  - destruct (digits_of (Z.abs x)) as [|d ds] eqn:E; [done|].
    exists (byte (if decide (x < 0) then "-" else "+")%char), (byte d), (byte <$> ds).
    split_and!; [done|by case_decide; [right|left]|]. by apply (digits_z (d :: ds)).
Qed.

Lemma float_special_cases f :
  is_finite f = true -> (exists s, Prim2SF f = S754_zero s) \/ (exists s m e, Prim2SF f = S754_finite s m e).
Proof.
  intros Hf. destruct (Prim2SF f) as [s|s| |s m e] eqn:Hx; eauto;
    rewrite <- (SF2Prim_Prim2SF f), Hx in Hf; try destruct s; vm_compute in Hf; discriminate Hf.
Qed.

(** [repr(f)] of a finite double whose digits were found has the shape of
    a JSON number with a fraction or an exponent. *)
Lemma float_repr_shape f :
  is_finite f = true -> repr_exact f = true ->
  exists sg ip fp ep, chars (float_repr f) = sg ++ ip ++ fp ++ ep /\ (sg = [] \/ sg = [45]) /\
    int_shape ip /\ frac_shape fp /\ exp_shape ep /\ (fp <> [] \/ ep <> []).
Proof.
  intros Hf Hr. unfold repr_exact in Hr. unfold float_repr.
  destruct (float_special_cases f Hf) as [[s Hx]|(s & m & e & Hx)]; rewrite Hx in Hr |- *.
  { destruct s; [exists [45]|exists []]; exists [48], [46; 48], [];
      (split_and!; [reflexivity|by (left + right)|by left|right; exists 48, []; split; [done|repeat constructor; unfold is_digit_z; lia]|by left|by left]). }
  apply bool_decide_eq_true_1 in Hr as [[D E] Hs]. rewrite Hs.
  destruct (shortest_digits_positive _ _ _ _ _ _ Hx Hs) as (_ & HD & _).
  destruct (digits_of_head D HD) as (c & rest & Hds & Hc & H0).
  destruct (digits_of_spec D ltac:(lia)) as (_ & Hd & _). rewrite Hds in Hd. apply Forall_cons in Hd as [_ Hrest].
  rewrite chars_string_of_list_ascii. unfold format_digits. rewrite Hds, fmap_app.
  exists (byte <$> (if s then ["-"%char] else [])).
  assert (Hsg : (byte <$> (if s then ["-"%char] else [])) = [] \/ (byte <$> (if s then ["-"%char] else [])) = [45])
    by (destruct s; [right|left]; reflexivity).
  set (dp := E + Z.of_nat (length (c :: rest))).
  pose proof (zeros_digits (Z.to_nat (- dp))) as Hz1.
  pose proof (zeros_digits (Z.to_nat (dp - Z.of_nat (length (c :: rest))))) as Hz2.
  unfold format_short, mantissa, zeros_l. case_decide; [|case_decide; [|case_decide]].
  - exists [byte c], (byte <$> match rest with [] => [] | _ => "."%char :: rest end), (byte <$> "e"%char :: exponent_digits (dp - 1)).
    cbn [take drop]. rewrite !fmap_app. split_and!; [reflexivity|done|by apply (int_shape_cons c [])|
      by apply frac_shape_point|apply exp_shape_exponent|right; discriminate].
  - exists [48], (byte <$> "."%char :: replicate (Z.to_nat (- dp)) "0"%char ++ c :: rest), [].
    destruct (replicate (Z.to_nat (- dp)) "0"%char ++ c :: rest) as [|x l] eqn:El;
      [by destruct (replicate (Z.to_nat (- dp)) "0"%char)|].
    rewrite app_nil_r. split_and!; [reflexivity|done|by left| |by left|left; discriminate].
    right. exists (byte x), (byte <$> l). split; [done|]. apply (digits_z (x :: l)).
    rewrite <- El. apply Forall_app. split; [done|by constructor].
  - set (k := Z.to_nat dp).
    assert (Hk : (1 <= k < length (c :: rest))%nat) by (subst k; lia).
    destruct k as [|k']; [lia|]. cbn [take drop].
    exists (byte <$> c :: take k' rest), (byte <$> "."%char :: drop k' rest), [].
    assert (Hnd : drop k' rest <> []) by (intros Hn; apply (f_equal length) in Hn; rewrite length_drop in Hn; cbn in Hk; cbn in Hn; lia).
    rewrite app_nil_r. split_and!; [|done|apply int_shape_cons; [done|done|by apply Forall_take]| |by left|left; discriminate].
    + destruct (drop k' rest); [done|]. by rewrite fmap_app.
    + destruct (drop k' rest) as [|x l] eqn:Edr; [done|].
      right. exists (byte x), (byte <$> l). split; [done|]. apply (digits_z (x :: l)).
      rewrite <- Edr. by apply Forall_drop.
  - exists (byte <$> c :: rest ++ replicate (Z.to_nat (dp - Z.of_nat (length (c :: rest)))) "0"%char), [46; 48], [].
    rewrite app_nil_r. split_and!; [|done|apply int_shape_cons; [done|done|by apply Forall_app]|
      right; exists 48, []; split; [done|repeat constructor; unfold is_digit_z; lia]|by left|left; discriminate].
    by rewrite fmap_app.
Qed.

(** ** Reading back values *)

Lemma strip_word_None w s : ~ w `prefix_of` s -> strip_word w s = None.
Proof. intros Hp. unfold strip_word. by rewrite bool_decide_false. Qed.

Ltac not_prefix := intros [? Hpre]; vm_compute in Hpre; simplify_eq; lia.

(** A number is not one of the named constants. *)
Lemma named_constant_number sg ip rest :
  (sg = [] \/ sg = [45]) -> int_shape ip -> named_constant (sg ++ ip ++ rest) = None.
Proof.
  intros Hsg Hip. unfold named_constant, constants. cbn [foldr].
  destruct Hip as [->|(d & ds & -> & Hd & _)]; destruct Hsg as [->| ->]; cbn [app];
    rewrite !strip_word_None; try done; not_prefix.
Qed.

(** A value that is neither a string, an object nor an array is a
    constant or a number. *)
Lemma scan_once_other n c r :
  c <> 34 -> c <> 123 -> c <> 91 ->
  scan_once (S n) (c :: r) = match named_constant (c :: r) with Some (v, r') => SOk v r' | None => match_number (c :: r) end.
Proof. intros H1 H2 H3. cbn [scan_once]. by rewrite !decide_False. Qed.

Lemma int_shape_head ip rest : int_shape ip -> exists c r, ip ++ rest = c :: r /\ 48 <= c <= 57.
Proof. intros [->|(d & ds & -> & Hd & _)]; eexists _, _; split; [done|lia|done|lia]. Qed.

(** Reading a number the shape lemmas describe. *)
Lemma scan_once_number n sg ip fp ep rest :
  (sg = [] \/ sg = [45]) -> int_shape ip -> frac_shape fp -> exp_shape ep -> delim rest ->
  scan_once (S n) (sg ++ ip ++ fp ++ ep ++ rest) = match_number (sg ++ ip ++ fp ++ ep ++ rest).
Proof.
  intros Hsg Hip Hfp Hep Hr. destruct (int_shape_head ip (fp ++ ep ++ rest) Hip) as (c & r & Hc & Hd).
  assert (Hs : exists c' r', sg ++ ip ++ fp ++ ep ++ rest = c' :: r' /\ (c' = 45 \/ 48 <= c' <= 57))
    by (destruct Hsg as [-> | ->]; [rewrite Hc; eauto|eauto]).
  destruct Hs as (c' & r' & Hs & Hc'). rewrite Hs, scan_once_other by lia. rewrite <- Hs.
  by rewrite named_constant_number.
Qed.

(** [json.loads] reads back [str(z)] as the integer [z], when [z] has at
    most 4300 digits. *)
Lemma scan_once_int n z rest :
  (int_digits z <= 4300)%nat -> delim rest -> scan_once (S n) (chars (pretty z) ++ rest) = SOk (JInt z) rest.
Proof.
  intros Hz Hr. destruct (pretty_shape z) as (sg & ip & Hc & Hsg & Hip & Hlen). rewrite Hc.
  rewrite <- app_assoc, <- (app_nil_l rest), <- (app_nil_l ([] ++ rest)).
  rewrite scan_once_number by (done || by left). unfold match_number.
  rewrite (number_text_shape sg ip [] [] rest) by (done || by left). cbn -[py_int text_of].
  rewrite !app_nil_r, decide_False by lia. rewrite <- Hc, text_of_chars, py_int_pretty. done.
Qed.

(** [json.loads] reads back [repr(f)] as [f], for a finite [f] whose
    digits were found. *)
Lemma scan_once_float n f rest :
  is_finite f = true -> repr_exact f = true -> delim rest ->
  scan_once (S n) (chars (float_repr f) ++ rest) = SOk (JFloat f) rest.
Proof.
  intros Hf He Hr. destruct (float_repr_shape f Hf He) as (sg & ip & fp & ep & Hc & Hsg & Hip & Hfp & Hep & Hne).
  rewrite Hc, <- !app_assoc, scan_once_number by done. unfold match_number.
  rewrite number_text_shape by done.
  rewrite bool_decide_false by (intros [-> ->]; by destruct Hne). cbn [negb].
  rewrite <- Hc, text_of_chars, float_repr_reads_back by done. done.
Qed.

Lemma hex_value_hexdigit n : 0 <= n < 16 -> hex_value (hexdigit n) = Some n.
Proof.
  intros Hn. unfold hexdigit, hex_value.
  case_decide; repeat case_decide; try lia; f_equal; lia.
Qed.

Lemma hex4_small c : 0 <= c <= 31 -> hex4 48 48 (hexdigit (c / 16)) (hexdigit (c mod 16)) = Some c.
Proof.
  intros Hc. unfold hex4. change (hex_value 48) with (Some 0).
  rewrite (hex_value_hexdigit (c / 16)), (hex_value_hexdigit (c mod 16)) by zlia.
  cbn [mbind option_bind]. f_equal. zlia.
Qed.

Lemma string_of_chars_of s cps : chars_of s = Some cps -> string_of_chars cps = s.
Proof.
  intros Hs. unfold string_of_chars. rewrite (wtf8_utf8_decode _ _ _ Hs).
  apply string_of_list_ascii_of_string.
Qed.

(** [scanstring] reads back one escaped character. *)
Lemma scanstring_escape begin c t acc :
  0 <= c -> t <> [] -> scanstring begin (escape_char c ++ t) acc = scanstring begin t (c :: acc).
Proof.
  intros Hc Ht. unfold escape_char.
  repeat case_decide; subst; try reflexivity.
  - destruct t as [|x t']; [done|]. cbn -[hex4]. rewrite hex4_small by lia.
    unfold is_high_surrogate. rewrite bool_decide_false by lia. reflexivity.
  - cbn [app scanstring]. rewrite !decide_False by lia. reflexivity.
Qed.

Lemma escape_cons c cps : (c :: cps) ≫= escape_char = escape_char c ++ (cps ≫= escape_char).
Proof. reflexivity. Qed.

(** [scanstring] reads back a string [encode_basestring] wrote. *)
Lemma scanstring_escaped begin cps rest acc :
  Forall code_point cps ->
  scanstring begin ((cps ≫= escape_char) ++ 34 :: rest) acc = SOk (reverse acc ++ cps) rest.
Proof.
  intros Hc. revert acc. induction Hc as [|c cps Hc _ IH]; intros acc.
  - cbn. by rewrite app_nil_r.
  - rewrite escape_cons, <- app_assoc, scanstring_escape.
    + rewrite IH, reverse_cons, <- app_assoc. done.
    + unfold code_point in Hc. lia.
    + by destruct (cps ≫= escape_char).
Qed.

(** [json.loads] reads back the string [encode_basestring] writes for a
    [str]. *)
Lemma scan_once_string n s cps rest :
  chars_of s = Some cps -> scan_once (S n) (encode_basestring cps ++ rest) = SOk (JStr s) rest.
Proof.
  intros Hs. unfold encode_basestring. cbn [app]. rewrite <- app_assoc. cbn [app scan_once].
  rewrite decide_True by done. rewrite scanstring_escaped.
  - transitivity (SOk (JStr (string_of_chars cps)) rest); [reflexivity|].
    by rewrite (string_of_chars_of s cps Hs).
  - exact (utf8_decode_code_points _ _ _ Hs).
Qed.

(** ** The texts [dumps] writes *)

(** The values [dumps] and [loads] agree on: every float's digits were
    found, and no object repeats a key. *)
Fixpoint json_wf (j : json) : bool :=
  match j with
  | JFloat f => repr_exact f
  | JList l => forallb json_wf l
  | JObj kvs => bool_decide (NoDup kvs.*1) && forallb (fun kv => json_wf kv.2) kvs
  | _ => true
  end.

Section json_ind.
Variable P : json -> Prop.
Hypothesis HNull : P JNull.
Hypothesis HBool : forall b, P (JBool b).
Hypothesis HInt : forall z, P (JInt z).
Hypothesis HFloat : forall f, P (JFloat f).
Hypothesis HStr : forall s, P (JStr s).
Hypothesis HList : forall l, Forall P l -> P (JList l).
Hypothesis HObj : forall kvs, Forall (fun kv => P kv.2) kvs -> P (JObj kvs).

(** Induction on a JSON value, through the items of its lists and
    objects. *)
Fixpoint json_ind' (j : json) : P j :=
  match j with
  | JNull => HNull
  | JBool b => HBool b
  | JInt z => HInt z
  | JFloat f => HFloat f
  | JStr s => HStr s
  | JList l => HList l ((fix go (l : list json) : Forall P l :=
                          match l with [] => @List.Forall_nil _ P | x :: l' => @List.Forall_cons _ P x l' (json_ind' x) (go l') end) l)
  | JObj kvs => HObj kvs ((fix go (kvs : list (string * json)) : Forall (fun kv => P kv.2) kvs :=
                            match kvs with
                            | [] => @List.Forall_nil _ (fun kv => P kv.2)
                            | kv :: kvs' => @List.Forall_cons _ (fun kv => P kv.2) kv kvs' (json_ind' kv.2) (go kvs')
                            end) kvs)
  end.
End json_ind.

(** A character of a text [dumps] writes: not NUL, a code point. *)
Definition text_char (c : Z) : Prop := 0 < c <= 1114111.
#[local] Instance text_char_dec c : Decision (text_char c) := _.

Ltac forall_lits := repeat (apply List.Forall_cons || apply List.Forall_nil).

Lemma shape_chars sg ip fp ep :
  (sg = [] \/ sg = [45]) -> int_shape ip -> frac_shape fp -> exp_shape ep ->
  Forall text_char (sg ++ ip ++ fp ++ ep).
Proof.
  intros Hsg Hip Hfp Hep.
  assert (Hd : forall l, Forall is_digit_z l -> Forall text_char l)
    by (intros l Hl; eapply Forall_impl; [exact Hl|]; unfold is_digit_z, text_char; lia).
  repeat apply Forall_app_2.
  - destruct Hsg as [-> | ->]; forall_lits; unfold text_char; lia.
  - destruct Hip as [->|(d & ds & -> & ? & ?)]; forall_lits; try (by apply Hd); unfold text_char; lia.
  - destruct Hfp as [->|(f & fs & -> & ?)]; [constructor|].
    apply List.Forall_cons; [unfold text_char; lia|by apply Hd].
  - destruct Hep as [->|(g & e & es & -> & ? & ?)]; [constructor|].
    apply List.Forall_cons; [unfold text_char; lia|]. apply List.Forall_cons; [unfold text_char; lia|by apply Hd].
Qed.

Lemma escape_char_chars c : code_point c -> Forall text_char (escape_char c).
Proof.
  unfold code_point, escape_char, hexdigit. intros Hc.
  repeat case_decide; forall_lits; unfold text_char; zlia.
Qed.

Lemma join_with_Forall (P : Z -> Prop) sep ts :
  Forall P sep -> Forall (Forall P) ts -> Forall P (join_with sep ts).
Proof.
  intros Hs Hts. induction Hts as [|t ts Ht _ IH]; [constructor|].
  destruct ts as [|t' ts']; [done|]. cbn [join_with]. repeat apply Forall_app_2; done.
Qed.

(** The list case of [dumps], item by item. *)
Lemma dumps_list_go l ts :
  (fix go (l : list json) : option (list (list Z)) :=
     match l with [] => Some [] | x :: l' => t ← dumps x; ts ← go l'; Some (t :: ts) end) l = Some ts ->
  Forall2 (fun x t => dumps x = Some t) l ts.
Proof.
  revert ts. induction l as [|x l IH]; intros ts; cbn; [by intros [= <-]|].
  destruct (dumps x) eqn:Ex; [|done]. cbn.
  destruct (_ l) eqn:El; [|done]. intros [= <-]. constructor; [done|]. by apply IH.
Qed.

Lemma remove_dups_NoDup_id {A} `{EqDecision A} (l : list A) : NoDup l -> remove_dups l = l.
Proof.
  induction 1 as [|x l Hx _ IH]; [done|]. cbn. rewrite IH. by case_match.
Qed.

Lemma dict_keys_NoDup kvs : NoDup kvs.*1 -> dict_keys kvs = kvs.*1.
Proof.
  intros Hnd. unfold dict_keys. rewrite remove_dups_NoDup_id; [apply reverse_involutive|].
  by rewrite reverse_Permutation.
Qed.

Lemma lookup_last_None {V} k (kvs : list (string * V)) : k ∉ kvs.*1 -> lookup_last k kvs = None.
Proof.
  induction kvs as [|[k' v'] kvs IH]; intros Hk; [done|]. cbn in Hk |- *.
  rewrite IH by set_solver. rewrite decide_False by set_solver. done.
Qed.

Lemma lookup_last_NoDup {V} k v (kvs : list (string * V)) :
  NoDup kvs.*1 -> (k, v) ∈ kvs -> lookup_last k kvs = Some v.
Proof.
  induction kvs as [|[k' v'] kvs IH]; intros Hnd Hin; [by apply not_elem_of_nil in Hin|].
  cbn in Hnd. apply NoDup_cons in Hnd as [Hk' Hnd]. cbn.
  apply elem_of_cons in Hin as [[= -> ->]|Hin].
  - by rewrite lookup_last_None, decide_True.
  - by rewrite IH.
Qed.

(** The object case of [dumps] for an object without a repeated key:
    each member is its key, a colon, and its value, in order. *)
Lemma dumps_obj kvs t :
  NoDup kvs.*1 -> dumps (JObj kvs) = Some t ->
  exists ms, t = [123] ++ join_with [44] ms ++ [125] /\
    Forall2 (fun kv m => exists kcps vt, chars_of kv.1 = Some kcps /\ dumps kv.2 = Some vt /\
                                   m = encode_basestring kcps ++ [58] ++ vt) kvs ms.
Proof.
  intros Hnd. cbn [dumps]. set (go := fix go (kvs : list (string * json)) := _).
  assert (Hgo : go kvs = (fun kv => (kv.1, dumps kv.2)) <$> kvs)
    by (induction kvs as [|[k v] kvs IH]; [done|]; cbn; f_equal; apply IH; by apply NoDup_cons in Hnd as [_ ?]).
  rewrite dict_keys_NoDup by done.
  destruct (mapM _ kvs.*1) as [ms|] eqn:Hm; [|done]. intros [= <-]. exists ms. split; [done|].
  apply mapM_Some_1, Forall2_fmap_l in Hm.
  remember (go kvs) as encs eqn:Hencs.
  assert (Hl : Forall (fun kv => lookup_last kv.1 encs = Some (dumps kv.2)) kvs).
  { apply Forall_forall. intros [k v] Hin. rewrite Hgo. apply lookup_last_NoDup.
    - by rewrite <- list_fmap_compose.
    - by apply (list_elem_of_fmap_2 (fun kv : string * json => (kv.1, dumps kv.2)) _ (k, v)). }
  clear Hencs Hgo Hnd. induction Hm as [|[k v] m kvs' ms' Hkm _ IH]; [constructor|].
  apply Forall_cons_1 in Hl as [Hkv Hl]. constructor; [|by apply IH].
  cbn [fst snd compose] in Hkm, Hkv |- *. rewrite Hkv in Hkm.
  destruct (dumps v) as [vt|]; [|done]. cbn in Hkm. destruct (chars_of k) as [kcps|]; [|done].
  injection Hkm as <-. by exists kcps, vt.
Qed.

(** The integer case of [dumps], as an equation: unfolding [dumps] with
    [cbn] there leaves a term the kernel is slow to check. *)
Lemma dumps_int z : dumps (JInt z) = if decide (4300 < int_digits z)%nat then None else Some (chars (pretty z)).
Proof. reflexivity. Qed.

Lemma forallb_Forall {A} (f : A -> bool) l : forallb f l = true -> Forall (fun x => f x = true) l.
Proof. intros H. apply List.Forall_forall, forallb_forall, H. Qed.

(** The first character of a value's text: ASCII, not blank, and no
    delimiter. *)
Definition value_head (c : Z) : Prop := 0 < c < 128 /\ is_ws c = false /\ c <> 44 /\ c <> 58 /\ c <> 93 /\ c <> 125.
Definition value_text (t : list Z) : Prop := exists c r, t = c :: r /\ value_head c.

Ltac value_head := unfold value_head, is_ws; try (unfold byte; vm_compute Z.of_nat); repeat split; try apply bool_decide_eq_false_2; lia.

Lemma shape_head sg ip rest :
  (sg = [] \/ sg = [45]) -> int_shape ip -> value_text (sg ++ ip ++ rest).
Proof.
  intros Hsg Hip. destruct (int_shape_head ip rest Hip) as (c & r & Hc & Hd).
  unfold value_text. destruct Hsg as [-> | ->]; cbn [app]; [rewrite Hc|]; eexists _, _; (split; [done|value_head]).
Qed.

Lemma value_text_app t r : value_text t -> value_text (t ++ r).
Proof. intros (c & t' & -> & Hc). by exists c, (t' ++ r). Qed.

(** What [dumps] writes for a well-formed value starts as a value does
    and holds text characters only. *)
Lemma dumps_text j : json_wf j = true -> forall t, dumps j = Some t -> value_text t /\ Forall text_char t.
Proof.
  induction j as [| b | z | f | s | l IH | kvs IH] using json_ind'; intros Hwf t Ht;
    first [rewrite dumps_int in Ht|cbn [dumps] in Ht].
  - injection Ht as <-. split; [red; eexists _, _; split; [reflexivity|value_head]|apply (bool_decide_unpack _); vm_compute; exact I].
  - injection Ht as <-. destruct b; (split; [red; eexists _, _; split; [reflexivity|value_head]|apply (bool_decide_unpack _); vm_compute; exact I]).
  - case_decide; [done|]. injection Ht as <-.
    destruct (pretty_shape z) as (sg & ip & Hc & Hsg & Hip & _). rewrite Hc.
    split; [rewrite <- (app_nil_r ip); by apply shape_head|].
    rewrite <- (app_nil_r ip), <- (app_nil_r []). by apply shape_chars; try by left.
  - destruct (is_finite f) eqn:Hf; [|done]. injection Ht as <-. cbn [json_wf] in Hwf.
    destruct (float_repr_shape f Hf Hwf) as (sg & ip & fp & ep & Hc & Hsg & Hip & Hfp & Hep & _).
    rewrite Hc. split; [by apply shape_head|by apply shape_chars].
  - destruct (chars_of s) as [cps|] eqn:Hs; [|done]. injection Ht as <-.
    split; [red; eexists _, _; split; [reflexivity|value_head]|].
    unfold encode_basestring. repeat apply Forall_app_2; [forall_lits; unfold text_char; lia| |forall_lits; unfold text_char; lia].
    apply Forall_bind. eapply Forall_impl; [exact (utf8_decode_code_points _ _ _ Hs)|].
    intros c Hc. by apply escape_char_chars.
  - apply fmap_Some_1 in Ht as (ts & Hl & ->). apply dumps_list_go in Hl.
    split; [red; eexists _, _; split; [reflexivity|value_head]|].
    repeat apply Forall_app_2; [forall_lits; unfold text_char; lia| |forall_lits; unfold text_char; lia].
    apply join_with_Forall; [forall_lits; unfold text_char; lia|].
    eapply Forall2_Forall_r; [exact Hl|]. cbn [json_wf] in Hwf. apply forallb_Forall in Hwf.
    eapply Forall_impl; [apply Forall_and; split; [exact IH|exact Hwf]|].
    intros x [Hx Hwx] t Hxt. by apply (Hx Hwx).
  - cbn [json_wf] in Hwf. apply andb_prop in Hwf as [Hnd Hwf]. apply bool_decide_eq_true_1 in Hnd.
    apply forallb_Forall in Hwf. destruct (dumps_obj kvs t Hnd Ht) as (ms & -> & Hms).
    split; [red; eexists _, _; split; [reflexivity|value_head]|].
    repeat apply Forall_app_2; [forall_lits; unfold text_char; lia| |forall_lits; unfold text_char; lia].
    apply join_with_Forall; [forall_lits; unfold text_char; lia|].
    eapply Forall2_Forall_r; [exact Hms|].
    eapply Forall_impl; [apply Forall_and; split; [exact IH|exact Hwf]|].
    intros [k v] [Hx Hwx] m (kcps & vt & Hk & Hv & ->). cbn [fst snd] in *.
    unfold encode_basestring. repeat apply Forall_app_2;
      [forall_lits; unfold text_char; lia| |forall_lits; unfold text_char; lia|forall_lits; unfold text_char; lia|by apply (Hx Hwx)].
    apply Forall_bind. eapply Forall_impl; [exact (utf8_decode_code_points _ _ _ Hk)|].
    intros c Hc. by apply escape_char_chars.
Qed.

(** ** Reading back what [dumps] writes *)

Lemma skip_ws_value t r : value_text t -> skip_ws (t ++ r) = t ++ r.
Proof. intros (c & t' & -> & _ & Hc & _). cbn. by rewrite Hc. Qed.

Lemma peek_value c t r : value_text t -> c = 44 \/ c = 58 \/ c = 93 \/ c = 125 -> peek c (t ++ r) = None.
Proof. intros (d & t' & -> & (_ & _ & ? & ? & ? & ?)) Hc. cbn. rewrite decide_False; [done|lia]. Qed.

Lemma skip_ws_delim c r : c = 44 \/ c = 58 \/ c = 93 \/ c = 125 -> skip_ws (c :: r) = c :: r.
Proof. intros Hc. cbn. unfold is_ws. rewrite bool_decide_false by lia. done. Qed.

Lemma peek_hit c r : peek c (c :: r) = Some r.
Proof. cbn. by rewrite decide_True. Qed.

Lemma peek_miss c d r : d <> c -> peek c (d :: r) = None.
Proof. intros Hd. cbn. by rewrite decide_False. Qed.

(** Stepping over the delimiters the scanner expects. *)
Ltac delims := repeat match goal with
  | |- context [skip_ws (?c :: ?r)] => rewrite (skip_ws_delim c r) by lia
  | |- context [peek ?c (?c :: ?r)] => rewrite (peek_hit c r)
  | |- context [peek ?c (?d :: ?r)] => rewrite (peek_miss c d r) by lia
  end.

Lemma join_with_cons sep t ts : exists u, join_with sep (t :: ts) = t ++ u.
Proof. destruct ts; [exists []; by rewrite app_nil_r|]. by eexists. Qed.

Lemma value_text_join t ts : value_text t -> value_text (join_with [44] (t :: ts)).
Proof. intros Ht. destruct (join_with_cons [44] t ts) as [u ->]. by apply value_text_app. Qed.

Lemma Forall2_strengthen {A B} (P : A -> Prop) (R R' : A -> B -> Prop) l k :
  Forall2 R l k -> Forall P l -> (forall x y, P x -> R x y -> R' x y) -> Forall2 R' l k.
Proof. intros Hl. induction Hl; inversion 1; constructor; eauto. Qed.

(** [t] is read back as [x], in front of any delimiter, with enough fuel. *)
Definition reads (x : json) (t : list Z) : Prop :=
  forall rest, delim rest -> exists n0, forall n, (n0 <= n)%nat -> scan_once n (t ++ rest) = SOk x rest.

(** The items loop reads back the items, comma-separated, up to the
    closing bracket. *)
Lemma parse_items_join l ts rest acc :
  Forall2 (fun x t => value_text t /\ reads x t) l ts -> l <> [] ->
  exists n0, forall n, (n0 <= n)%nat -> parse_items n (join_with [44] ts ++ 93 :: rest) acc = SOk (reverse acc ++ l) rest.
Proof.
  intros Hl. revert acc. induction Hl as [|x t l ts [Ht Hx] Hl IH]; intros acc Hne; [congruence|].
  destruct ts as [|t' ts'].
  - apply Forall2_nil_inv_r in Hl as ->. destruct (Hx (93 :: rest)) as [n0 Hn0]; [cbn; lia|].
    exists (S n0). intros [|n] Hn; [lia|]. cbn [parse_items join_with]. rewrite Hn0 by lia.
    transitivity (SOk (reverse (x :: acc)) rest); [reflexivity|by rewrite reverse_cons].
  - destruct l as [|x' l']; [by apply Forall2_nil_inv_l in Hl|].
    destruct (IH (x :: acc) ltac:(done)) as [n1 Hn1].
    destruct (Hx (44 :: join_with [44] (t' :: ts') ++ 93 :: rest)) as [n0 Hn0]; [cbn; lia|].
    exists (S (max n0 n1)). intros [|n] Hn; [lia|].
    change (join_with [44] (t :: t' :: ts')) with (t ++ [44] ++ join_with [44] (t' :: ts')).
    rewrite <- !app_assoc. cbn [parse_items]. rewrite Hn0 by lia.
    delims. rewrite skip_ws_value by (apply value_text_join; by destruct (Forall2_cons_1 _ _ _ _ _ Hl) as [[? _] _]).
    rewrite Hn1 by lia. by rewrite reverse_cons, <- app_assoc.
Qed.

(** One member: its key, read back as [k], the colon, and then the value. *)
Lemma parse_members_key n kcps k vt R acc :
  chars_of k = Some kcps -> value_text vt ->
  parse_members (S n) (encode_basestring kcps ++ [58] ++ vt ++ R) acc =
  match scan_once n (vt ++ R) with
  | SOk v r4 =>
      match peek 125 (skip_ws r4) with
      | Some r6 => SOk (reverse ((k, v) :: acc)) r6
      | None =>
          match peek 44 (skip_ws r4) with
          | Some r6 => parse_members n (skip_ws r6) ((k, v) :: acc)
          | None => SErr (DecodeError "Expecting ',' delimiter" (skip_ws r4))
          end
      end
  | SErr e => SErr e
  | SFuel => SFuel
  end.
Proof.
  intros Hk Hvt. unfold encode_basestring. rewrite <- !app_assoc. cbn [app parse_members].
  rewrite peek_hit, scanstring_escaped by exact (utf8_decode_code_points _ _ _ Hk).
  cbn [reverse rev_append app]. delims. rewrite skip_ws_value by done.
  rewrite (string_of_chars_of k kcps Hk). reflexivity.
Qed.

Lemma encode_basestring_value kcps u : value_text (encode_basestring kcps ++ u).
Proof. red. eexists _, _. split; [reflexivity|value_head]. Qed.

(** The members loop reads back the members, comma-separated, up to the
    closing brace. *)
Lemma parse_members_join kvs ms rest acc :
  Forall2 (fun kv m => exists kcps vt, chars_of kv.1 = Some kcps /\ value_text vt /\ reads kv.2 vt /\
                        m = encode_basestring kcps ++ [58] ++ vt) kvs ms ->
  kvs <> [] ->
  exists n0, forall n, (n0 <= n)%nat -> parse_members n (join_with [44] ms ++ 125 :: rest) acc = SOk (reverse acc ++ kvs) rest.
Proof.
  intros Hl. revert acc. induction Hl as [|[k v] m kvs ms (kcps & vt & Hk & Hvt & Hv & ->) Hl IH];
    intros acc Hne; [congruence|]. cbn [fst snd] in *.
  destruct ms as [|m' ms'].
  - apply Forall2_nil_inv_r in Hl as ->. destruct (Hv (125 :: rest)) as [n0 Hn0]; [cbn; lia|].
    exists (S n0). intros [|n] Hn; [lia|]. cbn [join_with]. rewrite <- !app_assoc.
    rewrite (parse_members_key n kcps k vt), Hn0 by (done || lia). delims. by rewrite reverse_cons.
  - destruct kvs as [|kv' kvs']; [by apply Forall2_nil_inv_l in Hl|].
    destruct (IH ((k, v) :: acc) ltac:(done)) as [n1 Hn1].
    destruct (Hv (44 :: join_with [44] (m' :: ms') ++ 125 :: rest)) as [n0 Hn0]; [cbn; lia|].
    exists (S (max n0 n1)). intros [|n] Hn; [lia|].
    change (join_with [44] (_ :: m' :: ms')) with
      ((encode_basestring kcps ++ [58] ++ vt) ++ [44] ++ join_with [44] (m' :: ms')).
    rewrite <- !app_assoc. rewrite (parse_members_key n kcps k vt), Hn0 by (done || lia). delims.
    destruct (Forall2_cons_1 _ _ _ _ _ Hl) as [(kcps' & vt' & _ & _ & _ & ->) _].
    rewrite skip_ws_value by (apply value_text_join, encode_basestring_value).
    rewrite Hn1 by lia.
    by rewrite reverse_cons, <- app_assoc.
Qed.

(** Every value [dumps] writes for a well-formed value is read back. *)
Lemma dumps_reads j : json_wf j = true -> forall t, dumps j = Some t -> reads j t.
Proof.
  induction j as [| b | z | f | s | l IH | kvs IH] using json_ind'; intros Hwf t Ht rest Hr;
    first [rewrite dumps_int in Ht|cbn [dumps] in Ht].
  - injection Ht as <-. exists 1%nat. intros [|n] Hn; [lia|]. reflexivity.
  - injection Ht as <-. exists 1%nat. intros [|n] Hn; [lia|]. by destruct b.
  - case_decide; [done|]. injection Ht as <-. exists 1%nat. intros [|n] Hn; [lia|].
    apply scan_once_int; [lia|done].
  - destruct (is_finite f) eqn:Hf; [|done]. injection Ht as <-. exists 1%nat. intros [|n] Hn; [lia|].
    by apply scan_once_float.
  - destruct (chars_of s) eqn:Hs; [|done]. injection Ht as <-. exists 1%nat. intros [|n] Hn; [lia|].
    by apply scan_once_string.
  - apply fmap_Some_1 in Ht as (ts & Hl & ->). apply dumps_list_go in Hl.
    cbn [json_wf] in Hwf. apply forallb_Forall in Hwf.
    assert (Hl' : Forall2 (fun x t => value_text t /\ reads x t) l ts).
    { eapply Forall2_strengthen; [exact Hl|apply Forall_and; split; [exact IH|exact Hwf]|].
      intros x t' [Hx Hwx] Hxt. split; [exact (proj1 (dumps_text x Hwx t' Hxt))|exact (Hx Hwx t' Hxt)]. }
    destruct ts as [|t0 ts0].
    + apply Forall2_nil_inv_r in Hl as ->. exists 1%nat. intros [|n] Hn; [lia|]. reflexivity.
    + destruct l as [|x0 l0]; [by apply Forall2_nil_inv_l in Hl|].
      destruct (parse_items_join _ _ rest [] Hl' ltac:(done)) as [n0 Hn0].
      exists (S n0). intros [|n] Hn; [lia|]. rewrite <- !app_assoc. cbn [app scan_once].
      rewrite !decide_False, decide_True by lia.
      destruct (Forall2_cons_1 _ _ _ _ _ Hl') as [[Ht0 _] _].
      rewrite skip_ws_value, peek_value by (by apply value_text_join || lia).
      rewrite Hn0 by lia. reflexivity.
  - cbn [json_wf] in Hwf. apply andb_prop in Hwf as [Hnd Hwf]. apply bool_decide_eq_true_1 in Hnd.
    apply forallb_Forall in Hwf. destruct (dumps_obj kvs t Hnd Ht) as (ms & -> & Hms).
    assert (Hms' : Forall2 (fun kv m => exists kcps vt, chars_of kv.1 = Some kcps /\ value_text vt /\
                     reads kv.2 vt /\ m = encode_basestring kcps ++ [58] ++ vt) kvs ms).
    { eapply Forall2_strengthen; [exact Hms|apply Forall_and; split; [exact IH|exact Hwf]|].
      intros kv m [Hx Hwx] (kcps & vt & Hk & Hv & ->). exists kcps, vt.
      split_and!; [done|exact (proj1 (dumps_text _ Hwx vt Hv))|exact (Hx Hwx vt Hv)|done]. }
    destruct ms as [|m0 ms0].
    + apply Forall2_nil_inv_r in Hms as ->. exists 1%nat. intros [|n] Hn; [lia|]. reflexivity.
    + destruct kvs as [|kv0 kvs0]; [by apply Forall2_nil_inv_l in Hms|].
      destruct (parse_members_join _ _ rest [] Hms' ltac:(done)) as [n0 Hn0].
      exists (S n0). intros [|n] Hn; [lia|]. rewrite <- !app_assoc. cbn [app scan_once].
      rewrite !decide_False, decide_True by lia.
      destruct (Forall2_cons_1 _ _ _ _ _ Hms') as [(kcps & vt & _ & _ & _ & ->) _].
      rewrite skip_ws_value, peek_value by (by apply value_text_join, encode_basestring_value || lia).
      rewrite Hn0 by lia. reflexivity.
Qed.

(** A text read back with enough fuel is read back with the fuel
    [loads_chars] gives. *)
Lemma reads_at_scan_fuel x t : reads x t -> scan_once (scan_fuel t) t = SOk x [].
Proof.
  intros Hx. destruct (Hx [] I) as [n0 Hn0]. rewrite app_nil_r in Hn0.
  assert (Hf : scan_once (scan_fuel t) t <> SFuel)
    by (apply (proj1 (scan_enough_fuel (scan_fuel t))); unfold scan_fuel; lia).
  destruct (scan_more_fuel (scan_fuel t) (max n0 (scan_fuel t)) ltac:(lia)) as [Hm _].
  rewrite <- (Hm t Hf). apply Hn0. lia.
Qed.

(** The bytes [JSONResponse] writes are not empty, and [json.loads]
    reads them back. *)
Lemma dumps_bytes_loads j b : json_wf j = true -> dumps_bytes j = Some b -> b <> [] /\ loads b = LOk j.
Proof.
  intros Hwf Hb. unfold dumps_bytes in Hb. destruct (dumps j) as [t|] eqn:Ht; [|done].
  cbn [mbind option_bind] in Hb. unfold utf8_encode in Hb. case_match; [done|]. injection Hb as <-.
  destruct (dumps_text j Hwf t Ht) as [(c & r & -> & Hvh) Hchars].
  pose proof (proj1 Hvh) as Hc.
  split; [rewrite wtf8_encode_cons; unfold encode_cp; rewrite decide_True by lia; discriminate|].
  apply Forall_cons_1 in Hchars as [_ Hr]. unfold loads.
  rewrite decode_bytes_wtf8 by (done || (eapply Forall_impl; [exact Hr|]; unfold text_char, code_point; lia)).
  unfold loads_chars. rewrite <- (app_nil_r (c :: r)), skip_ws_value by (by exists c, r).
  rewrite app_nil_r, (reads_at_scan_fuel j) by (exact (dumps_reads j Hwf _ Ht)). reflexivity.
Qed.

(** An item whose price has its shortest digits is a well-formed value. *)
Lemma json_wf_encode_item it : json_wf (encode_item it) = repr_exact (Item.price it).
Proof.
  destruct it as [[i|] n [d|] p]; cbn [json_wf encode_item encode_opt Item.id Item.name Item.description Item.price forallb snd];
    rewrite bool_decide_true by (apply NoDup_ListNoDup; repeat constructor; cbn; intuition discriminate);
    cbn [andb]; by rewrite andb_true_r.
Qed.

(** ** The theorems *)

(** C17: [loads_chars] terminates: the fuel it gives the scanner, twice
    the length of the text plus two, never runs out, and any more fuel
    gives the same result. *)
Theorem scan_fuel_enough s :
  scan_once (scan_fuel s) (skip_ws s) <> SFuel /\
  forall m, (scan_fuel s <= m)%nat -> scan_once m (skip_ws s) = scan_once (scan_fuel s) (skip_ws s).
Proof.
  pose proof (skip_ws_length s) as Hs.
  assert (Hf : scan_once (scan_fuel s) (skip_ws s) <> SFuel)
    by (apply (proj1 (scan_enough_fuel (scan_fuel s))); unfold scan_fuel; lia).
  split; [exact Hf|]. intros m Hm. exact (proj1 (scan_more_fuel _ m Hm) _ Hf).
Qed.

(** C15: [json.loads] reads back the bytes of a [JSONResponse]: for a
    value whose floats have their shortest digits and whose objects do
    not repeat a key, when [json.dumps(...).encode("utf-8")] succeeds,
    [json.loads] of its bytes is the value. *)
Theorem loads_dumps_bytes j b : json_wf j = true -> dumps_bytes j = Some b -> loads b = LOk j.
Proof. intros Hwf Hb. exact (proj2 (dumps_bytes_loads j b Hwf Hb)). Qed.

(** The response of [GET /items] on the seed items is read back. *)
Lemma loads_dumps_bytes_witness :
  match dumps_bytes (JList (encode_item <$> sample_items)) with
  | Some b => json_wf (JList (encode_item <$> sample_items)) = true /\ loads b = LOk (JList (encode_item <$> sample_items))
  | None => False
  end.
Proof.
  destruct (dumps_bytes _) as [b|] eqn:Hb; [|vm_compute in Hb; discriminate].
  split; [vm_compute; reflexivity|]. apply (loads_dumps_bytes _ b); [vm_compute; reflexivity|exact Hb].
Defined.

(** ** When [dumps] fails *)

Lemma join_with_infix sep ts t : t ∈ ts -> exists a b, join_with sep ts = a ++ t ++ b.
Proof.
  induction ts as [|t' ts IH]; intros Ht; [by apply not_elem_of_nil in Ht|].
  destruct ts as [|t'' ts'].
  - apply list_elem_of_singleton in Ht as ->. exists [], []. by rewrite app_nil_r.
  - change (join_with sep (t' :: t'' :: ts')) with (t' ++ sep ++ join_with sep (t'' :: ts')).
    apply elem_of_cons in Ht as [->|Ht].
    + by exists [], (sep ++ join_with sep (t'' :: ts')).
    + destruct (IH Ht) as (a & b & Hab). rewrite Hab. exists (t' ++ sep ++ a), b.
      by rewrite <- !app_assoc.
Qed.

(** A list fails to be written when one of its items does. *)
Lemma dumps_list_None l x : x ∈ l -> dumps x = None -> dumps (JList l) = None.
Proof.
  intros Hx Hn. cbn [dumps]. apply fmap_None. induction l as [|y l IH]; [by apply not_elem_of_nil in Hx|].
  cbn. apply elem_of_cons in Hx as [<-|Hx]; [by rewrite Hn|].
  destruct (dumps y); [|done]. cbn. by rewrite IH.
Qed.

(** An object without a repeated key fails to be written when one of its
    values does. *)
Lemma dumps_obj_None kvs k v : NoDup kvs.*1 -> (k, v) ∈ kvs -> dumps v = None -> dumps (JObj kvs) = None.
Proof.
  intros Hnd Hin Hn. destruct (dumps (JObj kvs)) as [t|] eqn:Ht; [|done].
  destruct (dumps_obj kvs t Hnd Ht) as (ms & _ & Hms).
  apply Forall2_Forall_l with (Q := fun kv => is_Some (dumps kv.2)) in Hms.
  - apply Forall_forall with (x := (k, v)) in Hms; [|done]. simpl in Hms. rewrite Hn in Hms. by destruct Hms.
  - apply Forall_forall. intros m _ kv (? & vt & _ & -> & _). by eexists.
Qed.

(** The bytes of a list fail when those of one of its items do: a value
    [dumps] refuses, or a text with a lone surrogate, which UTF-8 cannot
    encode. *)
Lemma dumps_bytes_list_None l x : x ∈ l -> dumps_bytes x = None -> dumps_bytes (JList l) = None.
Proof.
  intros Hx. unfold dumps_bytes. destruct (dumps x) as [t|] eqn:Ht; cbn [mbind option_bind].
  - unfold utf8_encode. destruct (existsb is_surrogate t) eqn:Hs; [|done]. intros _.
    destruct (dumps (JList l)) as [T|] eqn:HT; [|done]. cbn [mbind option_bind] in *.
    cbn [dumps] in HT. apply fmap_Some_1 in HT as (ts & Hl & ->). apply dumps_list_go in Hl.
    apply list_elem_of_lookup in Hx as [i Hi].
    destruct (Forall2_lookup_l _ _ _ _ _ Hl Hi) as (t' & Hti & Ht'). rewrite Ht in Ht'. injection Ht' as <-.
    destruct (join_with_infix [44] ts t) as (a & b & ->); [by eapply list_elem_of_lookup_2|].
    by rewrite !existsb_app, Hs, !orb_true_r.
  - intros _. by rewrite (dumps_list_None l x).
Qed.

(** The JSON of an item whose price is NaN or infinite is refused. *)
Lemma encode_item_nonfinite it : is_finite (Item.price it) = false -> dumps_bytes (encode_item it) = None.
Proof.
  intros Hf. unfold dumps_bytes, encode_item. rewrite (dumps_obj_None _ "price" (JFloat (Item.price it))); [done| | |].
  - apply NoDup_ListNoDup. repeat constructor; cbn; intuition discriminate.
  - cbn. set_solver.
  - cbn [dumps]. by rewrite Hf.
Qed.
