(* ===== verification/Http.v ===== *)
(** * Http: the application as the server sees it

    A request reaches the application as a method, a path and a body.
    Starlette's router scans [Config.app_routes] in order
    ([Router.__call__]):
    - the first route whose path matches and accepts the method handles
      the request;
    - if no route accepts it, the first route whose path matched answers
      405;
    - otherwise a path that matches with its trailing slash toggled is
      redirected with 307 ([redirect_slashes]);
    - otherwise the answer is 404.
    For a route of src/main.py, FastAPI then reads a JSON body with
    [json.loads] ([read_body], [JsonText.loads]): a syntax error answers
    422 at its position, any other failure 400. It then decodes the
    parameters ([PyInt], [Codec]): a failure answers 422 with pydantic's
    errors, and an exception pydantic does not catch answers 500. The
    handler itself runs as [App.dispatch], on the module globals. Its
    value is encoded by the route's [response_model] and written by
    [JsonText.dumps_bytes], which fails, and answers 500, on a NaN or
    infinite float, an integer of more than 4300 digits, or a lone
    surrogate. The 404 and 405 of the router go through FastAPI's
    [HTTPException] handler, as [{"detail": ...}].

    [resolve] is the routing and decoding, a pure function of the request.
    [handle] is one request. It is [None] only for a file under [static/],
    whose answer depends on the file system. [serve_raw] runs a sequence
    of requests, and [raw_reachable] is the set of states a run reaches.
    The documentation pages, generated by library code, are represented by
    the page. *)

From Stdlib Require Import ZArith String Ascii PrimFloat.
From stdpp Require Import strings pretty.
From S2P Require Import Prelude Models PyInt PyFloat FloatRepr ItemStore ItemStoreSpec SubmissionLog App Codec Config Utf8 JsonText.

Open Scope Z_scope.

(** ** Requests and responses on the wire *)

(** The body: none, a JSON document (the value [json.loads] reads from
    its bytes), form-encoded fields, or the bytes of a request whose
    content type is [application/json], which FastAPI reads with
    [json.loads] itself ([JsonText.loads]). *)
Inductive RawBody : Type :=
| NoBody
| JsonBody (j : json)
| FormBody (fd : list (string * string))
| JsonBytes (b : list ascii).

Record RawRequest : Type := mkRawRequest {
  method : string;
  path : string;
  body : RawBody
}.

(** What a response carries. *)
Inductive RawPayload : Type :=
| RJson (j : json)
| RHtml (template : string) (context : list (string * string))
| RText (text : string)
| RRedirect (location : string)
| RDocs (page : Endpoint)
| RFile (directory file : string).

Record RawResponse : Type := mkRawResponse {
  raw_status : Z;
  raw_payload : RawPayload
}.

(** ** Path matching *)

(** [s] without the prefix [p], if it starts with [p]. *)
Fixpoint strip_prefix (p s : string) : option string :=
  match p, s with
  | EmptyString, _ => Some s
  | String c p', String d s' => if decide (c = d) then strip_prefix p' s' else None
  | String _ _, EmptyString => None
  end.

(** Whether a string contains a slash. *)
Fixpoint has_slash (s : string) : bool :=
  match s with
  | EmptyString => false
  | String c s' => bool_decide (c = "/"%char) || has_slash s'
  end.

(** A text of ASCII characters only. *)
Definition is_ascii (s : string) : bool :=
  forallb (fun c => Nat.ltb (nat_of_ascii c) 128) (list_ascii_of_string s).

(** The line feed, which Python's [$] also matches before. *)
Definition newline : string := String "010"%char EmptyString.

Fixpoint has_newline (s : string) : bool :=
  match s with
  | EmptyString => false
  | String c s' => bool_decide (c = "010"%char) || has_newline s'
  end.

(** [s] without one line feed at its end, if it has one. *)
Definition strip_final_newline (s : string) : string :=
  let l := list_ascii_of_string s in
  if bool_decide (last l = Some "010"%char) then string_of_list_ascii (removelast l) else s.

(** The regular expression [compile_path] makes of a template, matched
    with [re.match] against the path: [^...$], where [$] matches at the
    end or before a final line feed. A [{param}] is [[^/]+], a nonempty
    run without a slash (a line feed included); a mount [/p] matches
    [/p/] followed by [.*], a run without a line feed, before the end or
    a final line feed. *)
Definition template_match (t : Template) (p : string) : option (list (string * string)) :=
  match t with
  | TExact q => if decide (p = q \/ p = q +:+ newline) then Some [] else None
  | TParam prefix name =>
      match strip_prefix prefix p with
      | Some (String c s) => if has_slash (String c s) then None else Some [(name, String c s)]
      | _ => None
      end
  | TMount prefix =>
      match strip_prefix (prefix +:+ "/") p with
      | Some rest =>
          let r := strip_final_newline rest in
          if has_newline r then None else Some [("path", r)]
      | None => None
      end
  end.

Inductive Match : Type := MNone | MPartial | MFull.

(** [Route.matches] / [Mount.matches]: a route whose path matches is a
    full match if it accepts the method, a partial one otherwise. *)
Definition route_match (r : RouteEntry) (m p : string) : Match * list (string * string) :=
  match template_match (r_template r) p with
  | None => (MNone, [])
  | Some ps =>
      match r_methods r with
      | None => (MFull, ps)
      | Some ms => (if bool_decide (m ∈ ms) then MFull else MPartial, ps)
      end
  end.

(** The outcome of the scan of the routes. *)
Inductive Routed : Type :=
| Full (r : RouteEntry) (params : list (string * string))
| Partial (r : RouteEntry)
| NoRoute.

(** The loop of [Router.__call__]: the first full match wins; the first
    partial match is kept for after the loop. *)
Fixpoint scan_routes (rs : list RouteEntry) (m p : string) (partial : option RouteEntry) : Routed :=
  match rs with
  | [] => match partial with Some r => Partial r | None => NoRoute end
  | r :: rs' =>
      match route_match r m p with
      | (MFull, ps) => Full r ps
      | (MPartial, _) => scan_routes rs' m p (match partial with None => Some r | Some _ => partial end)
      | (MNone, _) => scan_routes rs' m p partial
      end
  end.

(** [path.rstrip("/")]: drop every trailing slash. *)
Fixpoint drop_slashes (cs : list ascii) : list ascii :=
  match cs with
  | "/"%char :: cs' => drop_slashes cs'
  | _ => cs
  end.

Definition rstrip_slash (s : string) : string :=
  string_of_list_ascii (reverse (drop_slashes (reverse (list_ascii_of_string s)))).

(** [path.endswith("/")]. *)
Definition ends_with_slash (s : string) : bool :=
  match reverse (list_ascii_of_string s) with "/"%char :: _ => true | _ => false end.

(** The path [redirect_slashes] tries: the trailing slashes removed, or
    one added. *)
Definition toggle_slash (p : string) : string :=
  if ends_with_slash p then rstrip_slash p else p +:+ "/".

Definition is_match (m : Match) : bool := match m with MNone => false | _ => true end.

(** ** Decoding the parameters of a route *)

(** What the routing and the decoding of a request lead to. *)
Inductive Resolution : Type :=
| ToHandler (r : Request)
| Rejected (errs : list VError)
| BodyError
| DecodeCrash
| ToDocs (page : Endpoint)
| ToFile (file : string)
| Refused (status : Z) (detail : string)
| RedirectTo (location : string).

(** FastAPI's reading of the body of a route with a JSON body parameter
    ([item: Item]) before validation: the bytes of a JSON request, if
    there are any, go through [await request.json()]. A [JSONDecodeError]
    is a 422 at [("body", e.pos)]; any other exception (a
    [UnicodeDecodeError], the [ValueError] of a too long integer) is the
    [HTTPException(400, "There was an error parsing the body")]. The other
    routes do not read a JSON body. *)
Definition read_body (e : Endpoint) (b : RawBody) : RawBody + Resolution :=
  match e, b with
  | ECreateItem, JsonBytes [] => inl NoBody
  | ECreateItem, JsonBytes bs =>
      match loads bs with
      | LOk j => inl (JsonBody j)
      | LDecodeError _ pos => inr (Rejected [mkVError [LKey "body"; LIndex pos] "value_error.jsondecode"])
      | LOtherError => inr BodyError
      end
  | _, _ => inl b
  end.

(** The body as pydantic receives it for [item: Item]: a JSON document
    is validated. Bytes that were not read as JSON (a form-encoded body)
    are passed as bytes, which [dict()] refuses. An empty body is no
    body. A form body without fields is taken as the empty bytes that
    encode it: bytes such as [&], which parse to no field but are not
    empty, are not distinguished from it. *)
Definition decode_item_raw (b : RawBody) : outcome Item.t :=
  match b with
  | NoBody | FormBody [] => decode_item_body None
  | JsonBody j => decode_item_body (Some j)
  | FormBody _ | JsonBytes _ => Invalid [mkVError [LKey "body"] "type_error.dict"]
  end.

(** The form as [request.form()] reads it: empty unless form-encoded. *)
Definition form_fields (b : RawBody) : list (string * string) :=
  match b with FormBody fd => fd | _ => [] end.

(** The path parameter [item_id: int]. *)
Definition path_param_int (name : string) (ps : list (string * string)) : outcome Z :=
  match lookup_last name ps with
  | Some seg =>
      match int_validator seg with
      | Some k => Valid k
      | None => Invalid [mkVError [LKey "path"; LKey name] "type_error.integer"]
      end
  | None => Invalid [missing [LKey "path"; LKey name]]
  end.

(** The arguments of the endpoint of a decorated route, as the [Request]
    they make. The docs pages and the static mount are Starlette routes
    whose endpoint takes the request itself: nothing is decoded. *)
Definition decode_request (e : Endpoint) (ps : list (string * string)) (b : RawBody)
    : option (outcome Request) :=
  match e with
  | EGetAllItems => Some (Valid GET_items)
  | EGetItem => Some (GET_item <$> path_param_int "item_id" ps)
  | ECreateItem => Some (POST_items <$> decode_item_raw b)
  | EGetContactForm => Some (Valid GET_contact)
  | ESubmitForm => Some ((fun '(n, e, s, m) => POST_submit_form n e s m) <$> decode_form (form_fields b))
  | EGetSubmissions => Some (Valid GET_submissions)
  | EHealthCheck => Some (Valid GET_health)
  | EOpenAPI | ESwaggerUI | EOAuth2Redirect | EReDoc | EStatic => None
  end.

(** Routing, then decoding. *)
Definition resolve (rr : RawRequest) : Resolution :=
  match scan_routes app_routes (method rr) (path rr) None with
  | Full r ps =>
      match r_endpoint r with
      | EStatic =>
          (* StaticFiles: only GET and HEAD, then the file system. *)
          if bool_decide (method rr ∈ ["GET"; "HEAD"])
          then ToFile (default "" (lookup_last "path" ps))
          else Refused 405 "Method Not Allowed"
      | e =>
          match read_body e (body rr) with
          | inr res => res
          | inl b =>
              match decode_request e ps b with
              | None => ToDocs e
              | Some (Valid req) => ToHandler req
              | Some (Invalid errs) => Rejected errs
              | Some Crash => DecodeCrash
              end
          end
      end
  | Partial _ => Refused 405 "Method Not Allowed"
  | NoRoute =>
      let p' := toggle_slash (path rr) in
      if bool_decide (path rr <> "/") &&
         existsb (fun r => is_match (route_match r (method rr) p').1) app_routes
      then RedirectTo p'
      else Refused 404 "Not Found"
  end.

(** ** Answering *)

(** Starlette's [ServerErrorMiddleware] answer to an uncaught exception. *)
Definition internal_error : RawResponse := mkRawResponse 500 (RText "Internal Server Error").

(** The response FastAPI writes for a handler's response: the encoding by
    [response_model], then [JSONResponse.render], [json.dumps(...)
    .encode("utf-8")] ([JsonText.dumps_bytes]), whose [ValueError] (a NaN
    or infinite float, an integer of more than 4300 digits) or
    [UnicodeEncodeError] (a lone surrogate) is an uncaught exception. *)
Definition render (resp : Response) : RawResponse :=
  match encode_body (resp_body resp) with
  | PJson j =>
      match dumps_bytes j with
      | Some _ => mkRawResponse (resp_status resp) (RJson j)
      | None => internal_error
      end
  | PHtml t c => mkRawResponse (resp_status resp) (RHtml t c)
  end.

(** An entry of a [loc]: a name as a string, a position as a number. *)
Definition encode_loc (li : loc_item) : json :=
  match li with LKey s => JStr s | LIndex z => JInt z end.

(** One entry of the 422 body ([msg] is not modelled). *)
Definition encode_verror (e : VError) : json :=
  JObj [("loc", JList (encode_loc <$> loc e)); ("type", JStr (etype e))].

(** [request_validation_exception_handler]. *)
Definition validation_response (errs : list VError) : RawResponse :=
  mkRawResponse 422 (RJson (JObj [("detail", JList (encode_verror <$> errs))])).

(** One request. [None] when the answer depends on what the model leaves
    out: the files under [static/]. *)
Definition handle (rr : RawRequest) : option (PyM RawResponse) :=
  match resolve rr with
  | ToHandler r => Some (resp ← dispatch r; mret (render resp))
  | Rejected errs => Some (mret (validation_response errs))
  | BodyError => Some (mret (mkRawResponse 400 (RJson (JObj [("detail", JStr "There was an error parsing the body")]))))
  | DecodeCrash => Some (mret internal_error)
  | ToFile _ => None
  | ToDocs e => Some (mret (mkRawResponse 200 (RDocs e)))
  | Refused st d => Some (mret (mkRawResponse st (RJson (JObj [("detail", JStr d)]))))
  | RedirectTo p => Some (mret (mkRawResponse 307 (RRedirect p)))
  end.

(** Requests one after the other. *)
Fixpoint serve_raw (rs : list RawRequest) (g : Globals) : option (list RawResponse * Globals) :=
  match rs with
  | [] => Some ([], g)
  | rr :: rs' =>
      m ← handle rr;
      match m g with
      | (Ok resp, g1) => '(resps, g2) ← serve_raw rs' g1; Some (resp :: resps, g2)
      | (Err _, _) => None
      end
  end.

(** The states of the server after any run from the import. *)
Inductive raw_reachable : Globals -> Prop :=
| raw_reachable_boot : raw_reachable boot
| raw_reachable_step g rr m : raw_reachable g -> handle rr = Some m -> raw_reachable (exec m g).

(** ** Routing lemmas *)

Lemma lookup_last_single {V} k (v : V) : lookup_last k [(k, v)] = Some v.
Proof. simpl. by rewrite decide_True. Qed.

Lemma strip_prefix_app p s : strip_prefix p (p +:+ s) = Some s.
Proof. induction p as [|c p IH]; simpl; [done|]. by rewrite decide_True. Qed.

(** The route of [GET /items/{item_id}]. *)
Definition get_item_route : RouteEntry :=
  mkRoute (Some ["GET"]) (TParam "/items/" "item_id") ["items"] 200 EGetItem.

(** A nonempty segment without a slash after [/items/] reaches
    [get_item] for [GET], and only the path parameter is captured. *)
Lemma scan_routes_get_item seg :
  seg <> "" -> has_slash seg = false ->
  scan_routes app_routes "GET" ("/items/" +:+ seg) None = Full get_item_route [("item_id", seg)].
Proof.
  intros Hne Hs. destruct seg as [|c s]; [done|].
  unfold scan_routes, app_routes, route_match, template_match. simpl in *. by rewrite Hs.
Qed.

Lemma has_slash_list s :
  has_slash s = existsb (fun c => bool_decide (c = "/"%char)) (list_ascii_of_string s).
Proof. induction s as [|c s IH]; simpl; [done|]. by rewrite IH. Qed.

Lemma digits_no_slash l : Forall is_digit l -> existsb (fun c => bool_decide (c = "/"%char)) l = false.
Proof.
  induction 1 as [|c l [d Hd] _ IH]; [done|]. simpl. rewrite IH, orb_false_r.
  apply bool_decide_eq_false_2. intros ->. discriminate Hd.
Qed.

(** [str(k)] is a path segment: nonempty, without a slash. *)
Lemma pretty_segment (k : Z) : pretty k <> "" /\ has_slash (pretty k) = false.
Proof.
  destruct k as [|p|p]; [done| |].
  - destruct (pretty_pos_digits p) as (l & Hl & Hne & Hd & _).
    change (pretty (Zpos p)) with (pretty (Npos p)).
    rewrite has_slash_list, Hl, digits_no_slash by done.
    split; [|done]. intros Hk. rewrite Hk in Hl. by subst.
  - destruct (pretty_pos_digits p) as (l & Hl & Hne & Hd & _).
    change (pretty (Zneg p)) with ("-" +:+ pretty (Npos p)). split; [done|].
    rewrite has_slash_list.
    change (list_ascii_of_string ("-" +:+ pretty (Npos p)))
      with ("-"%char :: list_ascii_of_string (pretty (Npos p))).
    rewrite Hl. simpl. by rewrite digits_no_slash.
Qed.

(** ** The typed requests on the wire *)

(** How a client writes a typed request: the id as [str(k)] in the path,
    the item as the JSON that [response_model=Item] produces, the form
    fields form-encoded. *)
Definition to_raw (r : Request) : RawRequest :=
  match r with
  | GET_items => mkRawRequest "GET" "/items" NoBody
  | GET_item k => mkRawRequest "GET" ("/items/" +:+ pretty k) NoBody
  | POST_items it => mkRawRequest "POST" "/items" (JsonBody (encode_item it))
  | GET_contact => mkRawRequest "GET" "/contact" NoBody
  | POST_submit_form n e s m =>
      mkRawRequest "POST" "/submit-form"
        (FormBody [("name", n); ("email", e); ("subject", s); ("message", m)])
  | GET_submissions => mkRawRequest "GET" "/submissions" NoBody
  | GET_health => mkRawRequest "GET" "/health" NoBody
  end.

(** The typed requests that the wire can carry: an id of at most 4300
    characters, and form fields that are not empty. *)
Definition request_fits (r : Request) : Prop :=
  match r with
  | GET_item k => (String.length (pretty k) <= max_str_int)%nat
  | POST_submit_form n e s m => n <> "" /\ e <> "" /\ s <> "" /\ m <> ""
  | _ => True
  end.

(** Routing and decoding give back the typed request. *)
Lemma resolve_to_raw_handler r : request_fits r -> resolve (to_raw r) = ToHandler r.
Proof.
  destruct r as [|k|it| |n e s m| |]; simpl; intros Hfit; try reflexivity.
  - destruct (pretty_segment k) as [Hne Hs].
    unfold resolve. cbn [method path]. rewrite scan_routes_get_item by done.
    cbn [r_endpoint get_item_route read_body decode_request]. unfold path_param_int.
    rewrite lookup_last_single, int_validator_of_pretty by done. reflexivity.
  - unfold resolve. cbn [method path body].
    assert (scan_routes app_routes "POST" "/items" None =
            Full (mkRoute (Some ["POST"]) (TExact "/items") ["items"] 201 ECreateItem) []) as ->
      by reflexivity.
    cbn [r_endpoint read_body decode_request decode_item_raw]. by rewrite decode_item_body_encode.
  - destruct Hfit as (Hn & He & Hs & Hm).
    destruct n as [|??], e as [|??], s as [|??], m as [|??]; done || reflexivity.
Qed.

(** A request the router hands to a handler runs it and renders it. *)
Lemma handle_handler rr r :
  resolve rr = ToHandler r -> handle rr = Some (resp ← dispatch r; mret (render resp)).
Proof. intros H. unfold handle. by rewrite H. Qed.

(** Every answer but a handler's leaves the globals as they are. *)
Lemma handle_exec rr m g :
  handle rr = Some m ->
  (exists r, resolve rr = ToHandler r /\ exec m g = exec (dispatch r) g) \/ exec m g = g.
Proof.
  unfold handle. destruct (resolve rr) eqn:E; intros [= <-]; try (right; reflexivity).
  left. exists r. split; [done|]. unfold exec. rewrite run_bind.
  destruct (dispatch_ok r g) as [resp Hr]. destruct (dispatch r g) as [[] g']; simpl in *; congruence.
Qed.

(** ** Lemmas on answers *)

(** The handlers of src/main.py answer 200, 201 or 404. *)
Lemma dispatch_status r g :
  exists resp, fst (dispatch r g) = Ok resp /\ resp_status resp ∈ [200; 201; 404].
Proof.
  unfold dispatch. destruct r; rewrite run_catch; cbn [route]; simpl;
    try (eexists; split; [reflexivity|set_solver]).
  rewrite run_bind, get_item_run. destruct (scan_items _ _); simpl;
    eexists; (split; [reflexivity|set_solver]).
Qed.

Lemma render_status resp :
  raw_status (render resp) = resp_status resp \/ render resp = internal_error.
Proof.
  unfold render. destruct (encode_body _); [|by left]. destruct (dumps_bytes j); [left|right]; done.
Qed.

Lemma dispatch_post_items it g :
  dispatch (POST_items it) g =
  (Ok (mkResponse 201 (BItem (with_id (item_id_counter g) it))),
   exec (dispatch (POST_items it)) g).
Proof. reflexivity. Qed.

Lemma dispatch_get_items g : dispatch GET_items g = (Ok (mkResponse 200 (BItems (items_db g))), g).
Proof. reflexivity. Qed.

(** A request keeps every stored item, in place. *)
Lemma handle_items_db_prefix rr m g :
  handle rr = Some m -> items_db g `prefix_of` items_db (exec m g).
Proof.
  intros H. destruct (handle_exec rr m g H) as [(r & _ & ->) | ->]; [|done].
  rewrite dispatch_items_db. by eexists.
Qed.

Lemma serve_raw_cons rr rs g resps g' :
  serve_raw (rr :: rs) g = Some (resps, g') ->
  exists m resp resps' g1, handle rr = Some m /\ m g = (Ok resp, g1) /\
    serve_raw rs g1 = Some (resps', g') /\ resps = resp :: resps'.
Proof.
  simpl. destruct (handle rr) as [m|]; [|done]. simpl.
  destruct (m g) as [[resp|e] g1] eqn:Hm; [|done].
  destruct (serve_raw rs g1) as [[resps' g2]|] eqn:Hs; [|done]. intros [= <- <-].
  by exists m, resp, resps', g1.
Qed.

Lemma serve_raw_items_prefix rs g resps g' :
  serve_raw rs g = Some (resps, g') -> items_db g `prefix_of` items_db g'.
Proof.
  revert g resps. induction rs as [|rr rs IH]; intros g resps H.
  - by injection H as _ <-.
  - apply serve_raw_cons in H as (m & resp & resps' & g1 & Hh & Hm & Hs & _).
    transitivity (items_db g1); [|by eapply IH].
    replace g1 with (exec m g) by (unfold exec; by rewrite Hm).
    by eapply handle_items_db_prefix.
Qed.

(** [GET /items] over a store with an item whose JSON cannot be written. *)
Lemma render_items_unencodable l it :
  it ∈ l -> dumps_bytes (encode_item it) = None ->
  render (mkResponse 200 (BItems l)) = internal_error.
Proof.
  intros Hin Hn. unfold render. cbn [encode_body resp_body].
  rewrite (dumps_bytes_list_None _ (encode_item it)); [done| |done].
  by apply list_elem_of_fmap_2.
Qed.

(** The router refuses with 404 or 405 only. *)
Lemma resolve_refused rr st d : resolve rr = Refused st d -> st = 404 \/ st = 405.
Proof. unfold resolve, read_body. repeat case_match; intros [=]; simplify_eq; auto. Qed.

(** An item whose price is infinite, as [json.loads] reads the price
    [1e400] or [Infinity]. *)
Definition pad_infinite : Item.t := Item.mk None "Pad" None infinity.

(** The bytes of an ASCII text with [ ' ] written for the double quote:
    JSON bodies as a client sends them. *)
Definition json_text (s : string) : list ascii :=
  (fun c => if bool_decide (c = "'"%char) then ascii_of_nat 34 else c) <$> list_ascii_of_string s.

(** Bytes that [json.loads] reads as [j] are decoded as the document [j]
    itself, on every route. *)
Lemma resolve_json_bytes m p bs j :
  bs <> [] -> loads bs = LOk j ->
  resolve (mkRawRequest m p (JsonBytes bs)) = resolve (mkRawRequest m p (JsonBody j)).
Proof.
  intros Hne Hj. unfold resolve. cbn [method path body].
  destruct (scan_routes _ _ _ _) as [r ps| |]; [|done|done].
  destruct (r_endpoint r); try reflexivity.
  unfold read_body. destruct bs as [|b bs]; [done|]. by rewrite Hj.
Qed.

(** ** Theorems *)

(** Every state the server reaches on the wire is a state of the
    typed request layer ([App.reachable]): routing, decoding and encoding
    only add answers that change nothing, so [store_inv] and the other
    invariants of [App] hold for the real server. *)
Theorem raw_reachable_reachable g : raw_reachable g -> reachable g.
Proof.
  induction 1 as [|g rr m Hg IH Hh]; [constructor|].
  destruct (handle_exec rr m g Hh) as [(r & _ & ->) | ->]; [by constructor|done].
Qed.

(** C24: A typed request written on the wire as a client writes it (the
    id as [str(k)] in the path, the item as its JSON, the form fields
    form-encoded) is routed and decoded back to that same request,
    whenever the id has at most 4300 characters and no form field is
    empty. *)
Theorem resolve_to_raw r : request_fits r -> resolve (to_raw r) = ToHandler r.
Proof. exact (resolve_to_raw_handler r). Qed.

Lemma resolve_to_raw_witness : request_fits (GET_item 4) /\ resolve (to_raw (GET_item 4)) = ToHandler (GET_item 4).
Proof. split; [decide_vm|]. apply resolve_to_raw. decide_vm. Defined.

(** The server answers every request, with one of the statuses 200,
    201, 307, 400, 404, 405, 422 or 500, and never with an exception. The only
    requests the model does not answer are those for a file under
    [static/]. *)
Theorem handle_answers rr :
  (handle rr = None <-> exists f, resolve rr = ToFile f) /\
  (forall m g, handle rr = Some m ->
     exists resp, fst (m g) = Ok resp /\ raw_status resp ∈ [200; 201; 307; 400; 404; 405; 422; 500]).
Proof.
  split.
  - unfold handle. destruct (resolve rr); split; intros H; naive_solver.
  - intros m g. unfold handle.
    destruct (resolve rr) eqn:E; intros [= <-]; try (eexists; split; [reflexivity|set_solver]).
    + rewrite run_bind. destruct (dispatch_status r g) as [resp [Hr Hs]].
      destruct (dispatch r g) as [res g'] eqn:Hd. simpl in Hr. subst res.
      eexists; split; [reflexivity|].
      destruct (render_status resp) as [-> | ->]; [revert Hs|]; set_solver.
    + apply resolve_refused in E. eexists; split; [reflexivity|]. simpl. set_solver.
Qed.

(** C23: [POST /items] with an item whose JSON [json.dumps] refuses or
    UTF-8 cannot encode (a price that is NaN or infinite, JSON [1e400] or
    [Infinity], or a text with a lone surrogate, JSON ["\ud800"], all of
    which [json.loads] accepts) is answered 500, and yet the item is
    stored. From then on, whatever requests come between, [GET /items]
    answers 500. *)
Theorem unencodable_item_poisons_listing it rs g resps g' :
  dumps_bytes (encode_item (with_id (item_id_counter g) it)) = None ->
  serve_raw (to_raw (POST_items it) :: rs) g = Some (resps, g') ->
  head resps = Some internal_error /\
  exists m, handle (to_raw GET_items) = Some m /\ fst (m g') = Ok internal_error.
Proof.
  intros Hnew Hrun. pose proof Hrun as Hprefix. apply serve_raw_items_prefix in Hprefix.
  apply serve_raw_cons in Hrun as (m & resp & resps' & g1 & Hh & Hm & Hs & ->).
  rewrite handle_handler with (r := POST_items it) in Hh by (by apply resolve_to_raw_handler).
  injection Hh as <-. rewrite run_bind, dispatch_post_items in Hm.
  set (new := with_id (item_id_counter g) it) in *.
  assert (Hrender : render (mkResponse 201 (BItem new)) = internal_error).
  { unfold render. cbn [encode_body resp_body]. by rewrite Hnew. }
  cbv beta iota in Hm. rewrite Hrender in Hm. injection Hm as <- Hg1. split; [done|].
  exists (resp ← dispatch GET_items; mret (render resp)). split.
  { apply handle_handler, resolve_to_raw_handler. done. }
  rewrite run_bind, dispatch_get_items. simpl. f_equal.
  apply (render_items_unencodable _ new); [|done].
  apply serve_raw_items_prefix in Hs. subst g1. rewrite dispatch_items_db in Hs.
  destruct Hs as [l ->]. set_solver.
Qed.

Lemma unencodable_item_poisons_listing_witness :
  exists resps g',
    dumps_bytes (encode_item (with_id (item_id_counter boot) pad_infinite)) = None /\
    serve_raw [to_raw (POST_items pad_infinite)] boot = Some (resps, g') /\
    head resps = Some internal_error /\
    exists m, handle (to_raw GET_items) = Some m /\ fst (m g') = Ok internal_error.
Proof.
  eexists _, _. split; [vm_compute; reflexivity|]. split; [vm_compute; reflexivity|].
  apply (unencodable_item_poisons_listing pad_infinite [] boot); [vm_compute; reflexivity|].
  vm_compute. reflexivity.
Defined.

(** C28: [GET /items/{item_id}] with an ASCII segment that is not an
    integer for pydantic (not Python [int()] syntax, or longer than 4300
    characters) is answered 422, with the error at [("path", "item_id")],
    before [get_item] runs: the globals do not change. The segment is
    ASCII because [int()] also reads Unicode digits and spaces, which the
    model of [int()] leaves out. *)
Theorem get_item_bad_segment seg g :
  seg <> "" -> has_slash seg = false -> is_ascii seg = true -> int_validator seg = None ->
  exists m, handle (mkRawRequest "GET" ("/items/" +:+ seg) NoBody) = Some m /\
    m g = (Ok (validation_response [mkVError [LKey "path"; LKey "item_id"] "type_error.integer"]), g).
Proof.
  intros Hne Hs _ Hv. unfold handle, resolve. cbn [method path body].
  rewrite scan_routes_get_item by done.
  cbn [r_endpoint get_item_route read_body decode_request]. unfold path_param_int.
  rewrite lookup_last_single, Hv. by eexists.
Qed.

Lemma get_item_bad_segment_witness :
  "12a" <> "" /\ has_slash "12a" = false /\ is_ascii "12a" = true /\ int_validator "12a" = None /\
  exists m, handle (mkRawRequest "GET" ("/items/" +:+ "12a") NoBody) = Some m /\
    m boot = (Ok (validation_response [mkVError [LKey "path"; LKey "item_id"] "type_error.integer"]), boot).
Proof.
  split; [done|]. split; [reflexivity|]. split; [reflexivity|]. split; [reflexivity|].
  apply get_item_bad_segment; [done|reflexivity|reflexivity|reflexivity].
Defined.

(** C30: [POST /submit-form] with an empty (or absent) field is answered
    422 and records nothing: FastAPI reports an empty form string as a
    missing field, although the spec lets every text through. *)
Theorem empty_form_field_rejected n e s m g :
  n = "" \/ e = "" \/ s = "" \/ m = "" ->
  exists errs h, handle (to_raw (POST_submit_form n e s m)) = Some h /\
    h g = (Ok (validation_response errs), g).
Proof.
  intros Hempty.
  assert (Hroute : scan_routes app_routes "POST" "/submit-form" None =
    Full (mkRoute (Some ["POST"]) (TExact "/submit-form") ["forms"] 200 ESubmitForm) [])
    by reflexivity.
  set (fd := [("name", n); ("email", e); ("subject", s); ("message", m)]).
  destruct (decode_form_cases fd) as [[[[[n' e'] s'] m'] Hv] | [errs Hi]].
  - exfalso. apply decode_form_Valid_iff in Hv. simpl in Hv. naive_solver.
  - exists errs. unfold handle, resolve. cbn [to_raw method path body]. rewrite Hroute.
    cbn [r_endpoint read_body decode_request form_fields]. fold fd. rewrite Hi. by eexists.
Qed.

Lemma empty_form_field_rejected_witness :
  ("Jane" = "" \/ "jane@x.com" = "" \/ "" = "" \/ "Question" = "") /\
  exists errs h, handle (to_raw (POST_submit_form "Jane" "jane@x.com" "" "Question")) = Some h /\
    h boot = (Ok (validation_response errs), boot).
Proof.
  split; [right; right; left; reflexivity|].
  apply empty_form_field_rejected. right; right; left; reflexivity.
Defined.

(** C29: [POST /items] with an integer price too large for a float is
    answered 500 and stores nothing: pydantic's [float_validator] does not
    catch the [OverflowError] of [float(int)], so the request fails before
    [create_item] runs, instead of getting a 422. *)
Theorem overflowing_price_crashes name z g :
  float_of_int z = None ->
  exists h, handle (mkRawRequest "POST" "/items"
                     (JsonBody (JObj [("name", JStr name); ("price", JInt z)]))) = Some h /\
    h g = (Ok internal_error, g).
Proof.
  intros Hz. unfold handle, resolve. cbn [method path body].
  assert (scan_routes app_routes "POST" "/items" None =
          Full (mkRoute (Some ["POST"]) (TExact "/items") ["items"] 201 ECreateItem) []) as ->
    by reflexivity.
  cbn [r_endpoint read_body decode_request decode_item_raw decode_item_body].
  unfold validate_item, optional_field, required_field, float_field. simpl.
  rewrite Hz. by eexists.
Qed.

Lemma overflowing_price_crashes_witness :
  float_of_int (10 ^ 400) = None /\
  exists h, handle (mkRawRequest "POST" "/items"
                     (JsonBody (JObj [("name", JStr "Pen"); ("price", JInt (10 ^ 400))]))) = Some h /\
    h boot = (Ok internal_error, boot).
Proof.
  split; [vm_compute; reflexivity|]. apply overflowing_price_crashes. vm_compute. reflexivity.
Defined.

(** A JSON array of key/value pairs is accepted as an item:
    pydantic passes a body that is not an object through [dict(value)],
    so [[["name", "Pen"], ["price", 2]]] creates the item "Pen" with
    price 2.0. *)
Example list_body_creates_item :
  resolve (mkRawRequest "POST" "/items"
             (JsonBody (JList [JList [JStr "name"; JStr "Pen"]; JList [JStr "price"; JInt 2]]))) =
  ToHandler (POST_items (Item.mk None "Pen" None 2%float)).
Proof. vm_compute. reflexivity. Qed.

(** The router's answers on the edges of the route table: a method a
    path does not take is 405 (also [HEAD] on a [GET] route, which
    FastAPI does not extend to [HEAD]); a trailing slash too many or too
    few is a 307 to the other form; an unknown path is 404; and the id
    segment is read by Python's [int()], so [" +0_4 "] is item 4; a
    path with one final line feed matches as [re]'s [$] allows. *)
Example routing_edge_cases :
  resolve (mkRawRequest "PUT" "/items" NoBody) = Refused 405 "Method Not Allowed" /\
  resolve (mkRawRequest "HEAD" "/health" NoBody) = Refused 405 "Method Not Allowed" /\
  resolve (mkRawRequest "GET" "/items/" NoBody) = RedirectTo "/items" /\
  resolve (mkRawRequest "GET" "/static" NoBody) = RedirectTo "/static/" /\
  resolve (mkRawRequest "GET" "/nope" NoBody) = Refused 404 "Not Found" /\
  resolve (mkRawRequest "GET" "/items/ +0_4 " NoBody) = ToHandler (GET_item 4) /\
  resolve (mkRawRequest "GET" ("/items" +:+ newline) NoBody) = ToHandler GET_items /\
  resolve (mkRawRequest "GET" ("/items/4" +:+ newline) NoBody) = ToHandler (GET_item 4).
Proof. split_and!; vm_compute; reflexivity. Qed.

(** The scenario of the spec (§8) over HTTP: from the imported
    module, creating the tablet answers 201 with id 4, [GET /items/4]
    answers the same JSON, and [GET /items/99] answers 404 with
    [{"detail": "Item not found"}]. *)
Example spec_scenario_over_http :
  exists g', serve_raw [to_raw (POST_items tablet); to_raw (GET_item 4); to_raw (GET_item 99)] boot =
    Some ([mkRawResponse 201 (RJson (encode_item (with_id 4 tablet)));
           mkRawResponse 200 (RJson (encode_item (with_id 4 tablet)));
           mkRawResponse 404 (RJson (JObj [("detail", JStr "Item not found")]))], g').
Proof. eexists. vm_compute. reflexivity. Qed.

(** A request the model answers never raises. *)
Lemma handle_ok rr m g : handle rr = Some m -> exists resp g1, m g = (Ok resp, g1).
Proof.
  unfold handle. destruct (resolve rr); intros [= <-]; eauto.
  rewrite run_bind. destruct (dispatch_ok r g) as [resp Hr].
  destruct (dispatch r g) as [res g'] eqn:Hd. simpl in Hr. subst res. eauto.
Qed.

(** A run of requests that the model answers one by one is answered
    in full: one response per request, in order. *)
Theorem serve_raw_answers rs g :
  Forall (fun rr => is_Some (handle rr)) rs ->
  exists resps g', serve_raw rs g = Some (resps, g') /\ length resps = length rs.
Proof.
  intros Hall. revert g. induction Hall as [|rr rs [m Hm] _ IH]; intros g; [by exists [], g|].
  destruct (handle_ok rr m g Hm) as (resp & g1 & Hrun).
  destruct (IH g1) as (resps & g' & Hs & Hlen).
  exists (resp :: resps), g'. simpl. rewrite Hm. simpl. rewrite Hrun, Hs. simpl. by rewrite Hlen.
Qed.

Lemma serve_raw_answers_witness :
  Forall (fun rr => is_Some (handle rr)) [to_raw GET_health; to_raw GET_items] /\
  exists resps g', serve_raw [to_raw GET_health; to_raw GET_items] boot = Some (resps, g') /\
    length resps = length [to_raw GET_health; to_raw GET_items].
Proof.
  assert (H : Forall (fun rr => is_Some (handle rr)) [to_raw GET_health; to_raw GET_items])
    by (repeat constructor; eexists; reflexivity).
  split; [exact H|]. exact (serve_raw_answers _ boot H).
Defined.

(** C21: A [POST /items] body that [json.loads] cannot read is refused
    before validation, and nothing is stored: a JSON syntax error is a
    422 at [("body", pos)], [pos] the position [JSONDecodeError] reports,
    and any other failure (bytes that are not UTF-8, an integer of more
    than 4300 digits) is a 400 "There was an error parsing the body". *)
Theorem json_body_error bs g :
  bs <> [] -> (forall j, loads bs <> LOk j) ->
  exists h, handle (mkRawRequest "POST" "/items" (JsonBytes bs)) = Some h /\
    h g = (Ok (match loads bs with
               | LDecodeError _ pos =>
                   validation_response [mkVError [LKey "body"; LIndex pos] "value_error.jsondecode"]
               | _ => mkRawResponse 400 (RJson (JObj [("detail", JStr "There was an error parsing the body")]))
               end), g).
Proof.
  intros Hne Hnok. unfold handle, resolve. cbn [method path body].
  assert (scan_routes app_routes "POST" "/items" None =
          Full (mkRoute (Some ["POST"]) (TExact "/items") ["items"] 201 ECreateItem) []) as ->
    by reflexivity.
  cbn [r_endpoint]. unfold read_body. destruct bs as [|b bs]; [done|].
  destruct (loads (b :: bs)) eqn:E; [by destruct (Hnok j)|by eexists|by eexists].
Qed.

Lemma json_body_error_witness :
  json_text "{" <> [] /\ (forall j, loads (json_text "{") <> LOk j) /\
  exists h, handle (mkRawRequest "POST" "/items" (JsonBytes (json_text "{"))) = Some h /\
    h boot = (Ok (validation_response [mkVError [LKey "body"; LIndex 1] "value_error.jsondecode"]), boot).
Proof.
  assert (Hne : json_text "{" <> []) by discriminate.
  assert (Hl : forall j, loads (json_text "{") <> LOk j) by (intros j; vm_compute; discriminate).
  split; [exact Hne|]. split; [exact Hl|]. exact (json_body_error _ boot Hne Hl).
Defined.

(** The lone surrogate over the wire: [json.loads] reads the escape
    [\ud800] of the body [{"name": "\ud800", "price": 1}] as a string
    with a lone surrogate, which pydantic accepts as a name. The item is
    stored with id 4, but its JSON cannot be encoded in UTF-8: the
    [POST] and every later [GET /items] answer 500. *)
Example surrogate_name_poisons_listing :
  exists g',
    serve_raw [mkRawRequest "POST" "/items" (JsonBytes (json_text "{'name':'\ud800','price':1}"));
               mkRawRequest "GET" "/items" NoBody] boot = Some ([internal_error; internal_error], g') /\
    items_db g' = sample_items ++ [Item.mk (Some 4) (string_of_chars [55296]) None 1%float].
Proof. eexists. split; vm_compute; reflexivity. Qed.

(** C33: A client that sends, as the body of [POST /items], the bytes
    that [JSONResponse] writes for an item gets that item decoded: the
    body goes through [json.loads] and pydantic's validation of
    [class Item] back to the same item, whenever the price has its
    shortest digits and the text can be encoded. *)
Theorem post_item_bytes it b :
  repr_exact (Item.price it) = true -> dumps_bytes (encode_item it) = Some b ->
  resolve (mkRawRequest "POST" "/items" (JsonBytes b)) = ToHandler (POST_items it).
Proof.
  intros Hr Hb. rewrite <- json_wf_encode_item in Hr.
  destruct (dumps_bytes_loads _ b Hr Hb) as [Hne Hl].
  rewrite (resolve_json_bytes _ _ _ _ Hne Hl). exact (resolve_to_raw_handler (POST_items it) I).
Qed.

Lemma post_item_bytes_witness :
  match dumps_bytes (encode_item tablet) with
  | Some b => repr_exact (Item.price tablet) = true /\
              resolve (mkRawRequest "POST" "/items" (JsonBytes b)) = ToHandler (POST_items tablet)
  | None => False
  end.
Proof.
  destruct (dumps_bytes _) as [b|] eqn:Hb; [|vm_compute in Hb; discriminate].
  assert (Hr : repr_exact (Item.price tablet) = true) by (vm_compute; reflexivity).
  split; [exact Hr|]. exact (post_item_bytes tablet b Hr Hb).
Defined.

(** C22: [POST /items] with the body [{"name": "", "price": p}] is
    decoded by pydantic's validation of [class Item] (name: str has no
    length constraint) into an item with the empty name, and in every
    state that item is stored with the next id: the spec's "name:
    non-empty text" is not enforced. *)
Theorem post_empty_name_stored p g :
  resolve (mkRawRequest "POST" "/items" (JsonBody (JObj [("name", JStr ""); ("price", JFloat p)]))) =
    ToHandler (POST_items (Item.mk None "" None p)) /\
  exists h, handle (mkRawRequest "POST" "/items" (JsonBody (JObj [("name", JStr ""); ("price", JFloat p)]))) = Some h /\
    items_db (exec h g) = items_db g ++ [Item.mk (Some (item_id_counter g)) "" None p].
Proof.
  assert (Hr : resolve (mkRawRequest "POST" "/items" (JsonBody (JObj [("name", JStr ""); ("price", JFloat p)]))) =
               ToHandler (POST_items (Item.mk None "" None p))) by reflexivity.
  split; [exact Hr|]. eexists. split; [by apply handle_handler|].
  transitivity (items_db (exec (dispatch (POST_items (Item.mk None "" None p))) g)).
  - unfold exec. rewrite run_bind, dispatch_post_items. reflexivity.
  - rewrite dispatch_items_db. reflexivity.
Qed.
